(** * IdoLab: a shallow embedding of [main.py] and its specification

    The Python program is a turn-based simulation over a handful of
    mutable dataclass objects.  The embedding keeps the objects that are
    shared by reference ([Trainee], [Group]) in an object store, threads
    the store, the [GameState] and the random generator through a small
    state-and-exception monad, and translates every method of the source
    into a computation of that monad. *)

From Stdlib Require Import ZArith String DecimalString Lia.
From stdpp Require Import base list strings.

Open Scope Z_scope.

(** ** Python values *)

(** [str(n)] for a Python [int], as used by the f-strings of the source. *)
Definition str (n : Z) : string := NilZero.string_of_int (Z.to_int n).

(** [sum(xs)] over integers. *)
Definition sum (xs : list Z) : Z := fold_left Z.add xs 0.

(** A Python [float] that is a dyadic rational [fnum / 2^fexp].  The only
    floats of the program are the results of [random.random()], which are
    multiples of [2^-53], and the literals they are compared with. *)
Record float := Float { fnum : Z; fexp : N }.

Definition float_lt (x y : float) : bool :=
  fnum x * 2 ^ Z.of_N (fexp y) <? fnum y * 2 ^ Z.of_N (fexp x).

(** The literals [0.08], [0.92] and [0.1] denote these doubles
    ([0x1.47ae147ae147bp-4], [0x1.d70a3d70a3d71p-1], [0x1.999999999999ap-4]). *)
Definition lit_0_08 : float := Float 5764607523034235 56.
Definition lit_0_92 : float := Float 8286623314361713 53.
Definition lit_0_1 : float := Float 3602879701896397 55.

(** References into the object store. *)
Definition tref := nat.
Definition gref := nat.

(** ** Data models *)

Module Trainee.
Record t := mk {
  name : string;
  vocal : Z;
  dance : Z;
  rap : Z;
  visual : Z;
  charisma : Z;
  stamina : Z;
  popularity : Z;
  relationship : Z;
  trainee_since : Z
}.

Definition set_vocal (v : Z) (x : t) : t :=
  mk (name x) v (dance x) (rap x) (visual x) (charisma x) (stamina x)
     (popularity x) (relationship x) (trainee_since x).
Definition set_dance (v : Z) (x : t) : t :=
  mk (name x) (vocal x) v (rap x) (visual x) (charisma x) (stamina x)
     (popularity x) (relationship x) (trainee_since x).
Definition set_rap (v : Z) (x : t) : t :=
  mk (name x) (vocal x) (dance x) v (visual x) (charisma x) (stamina x)
     (popularity x) (relationship x) (trainee_since x).
Definition set_visual (v : Z) (x : t) : t :=
  mk (name x) (vocal x) (dance x) (rap x) v (charisma x) (stamina x)
     (popularity x) (relationship x) (trainee_since x).
Definition set_charisma (v : Z) (x : t) : t :=
  mk (name x) (vocal x) (dance x) (rap x) (visual x) v (stamina x)
     (popularity x) (relationship x) (trainee_since x).
Definition set_stamina (v : Z) (x : t) : t :=
  mk (name x) (vocal x) (dance x) (rap x) (visual x) (charisma x) v
     (popularity x) (relationship x) (trainee_since x).
Definition set_popularity (v : Z) (x : t) : t :=
  mk (name x) (vocal x) (dance x) (rap x) (visual x) (charisma x) (stamina x)
     v (relationship x) (trainee_since x).
Definition set_relationship (v : Z) (x : t) : t :=
  mk (name x) (vocal x) (dance x) (rap x) (visual x) (charisma x) (stamina x)
     (popularity x) v (trainee_since x).
End Trainee.

Module Group.
Record t := mk {
  name : string;
  members : list tref;
  concept : string;
  popularity : Z
}.

Definition set_popularity (v : Z) (x : t) : t :=
  mk (name x) (members x) (concept x) v.
End Group.

Module SongProject.
Record t := mk {
  title : string;
  budget : Z;
  concept : string
}.
End SongProject.

Module Company.
Record t := mk {
  name : string;
  money : Z;
  reputation : Z;
  trainees : list tref;
  groups : list gref;
  projects : list SongProject.t
}.

Definition set_money (v : Z) (x : t) : t :=
  mk (name x) v (reputation x) (trainees x) (groups x) (projects x).
Definition set_reputation (v : Z) (x : t) : t :=
  mk (name x) (money x) v (trainees x) (groups x) (projects x).
Definition set_trainees (v : list tref) (x : t) : t :=
  mk (name x) (money x) (reputation x) v (groups x) (projects x).
Definition set_groups (v : list gref) (x : t) : t :=
  mk (name x) (money x) (reputation x) (trainees x) v (projects x).
Definition set_projects (v : list SongProject.t) (x : t) : t :=
  mk (name x) (money x) (reputation x) (trainees x) (groups x) v.
End Company.

Module Player.
Record t := mk {
  name : string;
  role : string;
  character : option tref
}.
End Player.

Module GameState.
Record t := mk {
  day : Z;
  month : Z;
  year : Z;
  player : option Player.t;
  company : option Company.t;
  trainee_failures : Z;
  message_log : list string
}.

Definition set_day (v : Z) (x : t) : t :=
  mk v (month x) (year x) (player x) (company x) (trainee_failures x)
     (message_log x).
Definition set_month (v : Z) (x : t) : t :=
  mk (day x) v (year x) (player x) (company x) (trainee_failures x)
     (message_log x).
Definition set_year (v : Z) (x : t) : t :=
  mk (day x) (month x) v (player x) (company x) (trainee_failures x)
     (message_log x).
Definition set_player (v : option Player.t) (x : t) : t :=
  mk (day x) (month x) (year x) v (company x) (trainee_failures x)
     (message_log x).
Definition set_company (v : option Company.t) (x : t) : t :=
  mk (day x) (month x) (year x) (player x) v (trainee_failures x)
     (message_log x).
Definition set_trainee_failures (v : Z) (x : t) : t :=
  mk (day x) (month x) (year x) (player x) (company x) v (message_log x).
Definition set_message_log (v : list string) (x : t) : t :=
  mk (day x) (month x) (year x) (player x) (company x) (trainee_failures x) v.
End GameState.

(** ** The world: object store and game state

    [Trainee] objects are shared between the company roster, the groups
    and the player, and [Group] objects are passed to the company's
    methods, so both live in a store addressed by reference; an object is
    allocated at the end of its store and never freed.  The [Player] and
    the [Company] are only ever reached through the [GameState], which
    holds them by value. *)
Record World := mkWorld {
  trainee_objs : list Trainee.t;
  group_objs : list Group.t;
  state : GameState.t
}.

Definition set_trainee_objs (v : list Trainee.t) (w : World) : World :=
  mkWorld v (group_objs w) (state w).
Definition set_group_objs (v : list Group.t) (w : World) : World :=
  mkWorld (trainee_objs w) v (state w).
Definition set_state (v : GameState.t) (w : World) : World :=
  mkWorld (trainee_objs w) (group_objs w) v.

(** ** The random generator

    The generator is an injectable source of raw integers read one after
    the other; [cursor] counts the draws made so far. *)
Record Rng := mkRng { source : nat -> Z; cursor : nat }.

(** ** Computations

    A computation reads and writes the world and the generator, and either
    returns a value or raises a Python exception; the mutations made before
    the exception stay.  [InvalidRef] is the one outcome that Python cannot
    produce: it stands for a reference that names no object of the store. *)
Inductive Exn := AttributeError | AssertionError | ValueError | IndexError | InvalidRef.

Inductive Res (A : Type) :=
| Ok (a : A) (w : World) (g : Rng)
| Raise (e : Exn) (w : World) (g : Rng).
Arguments Ok {A} a w g.
Arguments Raise {A} e w g.

Definition M (A : Type) := World -> Rng -> Res A.

Definition ret {A} (a : A) : M A := fun w g => Ok a w g.

Definition bind {A B} (m : M A) (k : A -> M B) : M B :=
  fun w g =>
    match m w g with
    | Ok a w' g' => k a w' g'
    | Raise e w' g' => Raise e w' g'
    end.

Definition raise {A} (e : Exn) : M A := fun w g => Raise e w g.

Notation "x <- m ;; k" := (bind m (fun x => k))
  (at level 100, m at next level, right associativity).
Notation "m ;; k" := (bind m (fun _ => k))
  (at level 100, right associativity).

Definition get_world : M World := fun w g => Ok w w g.
Definition modify_world (f : World -> World) : M unit := fun w g => Ok tt (f w) g.

Definition get_state : M GameState.t := fun w g => Ok (state w) w g.
Definition modify_state (f : GameState.t -> GameState.t) : M unit :=
  modify_world (fun w => set_state (f (state w)) w).

Fixpoint mapM {A B} (f : A -> M B) (xs : list A) : M (list B) :=
  match xs with
  | [] => ret []
  | x :: xs' => y <- f x ;; ys <- mapM f xs' ;; ret (y :: ys)
  end.

Fixpoint forM_ {A} (xs : list A) (f : A -> M unit) : M unit :=
  match xs with
  | [] => ret tt
  | x :: xs' => f x ;; forM_ xs' f
  end.

(** [[x for x in xs if p(x)]]. *)
Fixpoint filterM {A} (p : A -> M bool) (xs : list A) : M (list A) :=
  match xs with
  | [] => ret []
  | x :: xs' =>
      b <- p x ;; ys <- filterM p xs' ;; ret (if b then x :: ys else ys)
  end.

(** [any(p(x) for x in xs)], which stops at the first hit. *)
Fixpoint anyM {A} (p : A -> M bool) (xs : list A) : M bool :=
  match xs with
  | [] => ret false
  | x :: xs' => b <- p x ;; if b then ret true else anyM p xs'
  end.

(** *** Random draws *)

Definition draw : M Z :=
  fun w g => Ok (source g (cursor g)) w (mkRng (source g) (S (cursor g))).

(** [random.randint(a, b)]: an integer of [a..b]; an empty range raises. *)
Definition randint (a b : Z) : M Z :=
  if b <? a then raise ValueError
  else x <- draw ;; ret (a + x mod (b - a + 1)).

(** [random.random()]: a multiple of [2^-53] in [0, 1). *)
Definition random : M float :=
  x <- draw ;; ret (Float (x mod 2 ^ 53) 53).

(** *** Store access *)

Definition get_trainee (r : tref) : M Trainee.t :=
  fun w g =>
    match trainee_objs w !! r with
    | Some t => Ok t w g
    | None => Raise InvalidRef w g
    end.

Definition upd_trainee (r : tref) (f : Trainee.t -> Trainee.t) : M unit :=
  t <- get_trainee r ;;
  modify_world (fun w => set_trainee_objs (<[r := f t]> (trainee_objs w)) w).

Definition alloc_trainee (t : Trainee.t) : M tref :=
  fun w g =>
    Ok (length (trainee_objs w)) (set_trainee_objs (trainee_objs w ++ [t]) w) g.

Definition get_group (r : gref) : M Group.t :=
  fun w g =>
    match group_objs w !! r with
    | Some x => Ok x w g
    | None => Raise InvalidRef w g
    end.

Definition upd_group (r : gref) (f : Group.t -> Group.t) : M unit :=
  x <- get_group r ;;
  modify_world (fun w => set_group_objs (<[r := f x]> (group_objs w)) w).

Definition alloc_group (x : Group.t) : M gref :=
  fun w g =>
    Ok (length (group_objs w)) (set_group_objs (group_objs w ++ [x]) w) g.

(** The company a method is called on is the one of the game state;
    calling a method on [None] raises [AttributeError]. *)
Definition get_company : M Company.t :=
  s <- get_state ;;
  match GameState.company s with
  | Some c => ret c
  | None => raise AttributeError
  end.

Definition upd_company (f : Company.t -> Company.t) : M unit :=
  c <- get_company ;;
  modify_state (GameState.set_company (Some (f c))).

(** ** class Trainee *)

Definition train (self : tref) (stat : string) (intensity : Z) : M string :=
  base_gain <- randint (intensity - 2) (intensity + 2) ;;
  d <- randint 8 12 ;;
  upd_trainee self (fun t => Trainee.set_stamina (Z.max 0 (Trainee.stamina t - d)) t) ;;
  message <-
    (if String.eqb stat "vocal" then
       upd_trainee self (fun t => Trainee.set_vocal (Trainee.vocal t + base_gain) t) ;;
       ret ("Vocal training +" +:+ str base_gain +:+ ".")
     else if String.eqb stat "dance" then
       upd_trainee self (fun t => Trainee.set_dance (Trainee.dance t + base_gain) t) ;;
       ret ("Dance training +" +:+ str base_gain +:+ ".")
     else if String.eqb stat "rap" then
       upd_trainee self (fun t => Trainee.set_rap (Trainee.rap t + base_gain) t) ;;
       ret ("Rap training +" +:+ str base_gain +:+ ".")
     else if String.eqb stat "charisma" then
       upd_trainee self (fun t => Trainee.set_charisma (Trainee.charisma t + base_gain) t) ;;
       ret ("Charisma workshop +" +:+ str base_gain +:+ ".")
     else if String.eqb stat "visual" then
       upd_trainee self (fun t => Trainee.set_visual (Trainee.visual t + base_gain) t) ;;
       ret ("Visual coaching +" +:+ str base_gain +:+ ".")
     else ret "Training focused on fundamentals.") ;;
  ret (message +:+ " Stamina -10 (approx).").

Definition rest (self : tref) : M string :=
  recovery <- randint 10 20 ;;
  upd_trainee self (fun t => Trainee.set_stamina (Z.min 100 (Trainee.stamina t + recovery)) t) ;;
  ret ("Rested and recovered " +:+ str recovery +:+ " stamina.").

Definition adjust_popularity (self : tref) (amount : Z) : M unit :=
  upd_trainee self (fun t => Trainee.set_popularity (Z.max 0 (Trainee.popularity t + amount)) t).

Definition adjust_relationship (self : tref) (amount : Z) : M unit :=
  upd_trainee self
    (fun t => Trainee.set_relationship (Z.max 0 (Z.min 100 (Trainee.relationship t + amount))) t).

Definition score (t : Trainee.t) : Z :=
  Trainee.vocal t + Trainee.dance t + Trainee.rap t + Trainee.visual t + Trainee.charisma t.

(** ** class Group *)

Definition calculate_power (self : gref) : M Z :=
  grp <- get_group self ;;
  scores <- mapM (fun m => t <- get_trainee m ;; ret (score t)) (Group.members grp) ;;
  let member_power := sum scores / Z.max (Z.of_nat (length (Group.members grp))) 1 in
  chemistry_bonus <- randint 0 15 ;;
  ret (member_power + chemistry_bonus).

Definition debut_effect (self : gref) (budget : Z) : M Z :=
  power <- calculate_power self ;;
  d <- randint (-10) 15 ;;
  let debut_pop := power / 5 + budget / 10 + d in
  upd_group self (fun x => Group.set_popularity (Group.popularity x + debut_pop) x) ;;
  grp <- get_group self ;;
  forM_ (Group.members grp) (fun m => adjust_popularity m (debut_pop / 2)) ;;
  ret debut_pop.

(** ** class SongProject *)

Definition outcome (self : SongProject.t) (group_power : Z) : M Z :=
  roll <- randint (-15) 25 ;;
  r <- random ;;
  let critical := float_lt r lit_0_1 in
  let roll := if critical then roll + 30 else roll in
  let success := group_power / 3 + SongProject.budget self / 15 + roll in
  ret success.

(** ** class Company *)

Definition recruit_trainee (name : string) : M tref :=
  get_company ;;
  v <- randint 20 40 ;;
  d <- randint 20 40 ;;
  r <- randint 20 40 ;;
  new <- alloc_trainee (Trainee.mk name v d r 30 30 70 10 10 1) ;;
  upd_company (fun c => Company.set_trainees (Company.trainees c ++ [new]) c) ;;
  upd_company (fun c => Company.set_money (Company.money c - 300) c) ;;
  ret new.

Definition schedule_training (trainee : tref) (focus : string) : M string :=
  self <- get_company ;;
  let cost := 150 in
  if Company.money self <? cost then ret "Not enough money for training."
  else
    upd_company (fun c => Company.set_money (Company.money c - cost) c) ;;
    message <- train trainee focus 5 ;;
    t <- get_trainee trainee ;;
    ret ("Training scheduled for " +:+ Trainee.name t +:+ ". " +:+ message
         +:+ " Company money -" +:+ str cost +:+ ".").

Definition plan_debut (names : list string) (concept : string) (budget : Z) : M string :=
  self <- get_company ;;
  if Company.money self <? budget then ret "Not enough money to plan debut."
  else
    selected <-
      filterM (fun r => t <- get_trainee r ;;
                        ret (existsb (String.eqb (Trainee.name t)) names))
              (Company.trainees self) ;;
    match selected with
    | [] => ret "No valid trainees selected."
    | _ :: _ =>
        group <- alloc_group (Group.mk ("Project " +:+ concept) selected concept 0) ;;
        upd_company (fun c => Company.set_groups (Company.groups c ++ [group]) c) ;;
        upd_company (fun c => Company.set_money (Company.money c - budget) c) ;;
        pop_gain <- debut_effect group budget ;;
        upd_company (fun c => Company.set_reputation (Company.reputation c + pop_gain / 10) c) ;;
        grp <- get_group group ;;
        ret ("Debuted group " +:+ Group.name grp +:+ "! Popularity +" +:+ str pop_gain
             +:+ ". Budget -" +:+ str budget +:+ ".")
    end.

Definition release_song (group : gref) (title : string) (budget : Z) : M string :=
  self <- get_company ;;
  if Company.money self <? budget then ret "Not enough funds for release."
  else
    let project := SongProject.mk title budget "Bright" in
    upd_company (fun c => Company.set_projects (Company.projects c ++ [project]) c) ;;
    upd_company (fun c => Company.set_money (Company.money c - budget) c) ;;
    power <- calculate_power group ;;
    result <- outcome project power ;;
    upd_group group (fun x => Group.set_popularity (Group.popularity x + result) x) ;;
    upd_company (fun c => Company.set_reputation (Company.reputation c + Z.max 0 (result / 8)) c) ;;
    grp <- get_group group ;;
    ret ("Released '" +:+ title +:+ "'. Result +" +:+ str result +:+ " popularity for "
         +:+ Group.name grp +:+ ". Cost " +:+ str budget +:+ ".").

Definition promote (group : gref) (budget : Z) : M string :=
  self <- get_company ;;
  if Company.money self <? budget then ret "Not enough money for promotion."
  else
    upd_company (fun c => Company.set_money (Company.money c - budget) c) ;;
    r <- randint 0 10 ;;
    let gain := budget / 20 + r in
    upd_group group (fun x => Group.set_popularity (Group.popularity x + gain) x) ;;
    upd_company (fun c => Company.set_reputation (Company.reputation c + gain / 3) c) ;;
    grp <- get_group group ;;
    ret ("Promotions boost " +:+ Group.name grp +:+ "'s popularity by " +:+ str gain
         +:+ ". Cost " +:+ str budget +:+ ".").

Definition update_finances (amount : Z) : M unit :=
  upd_company (fun c => Company.set_money (Company.money c + amount) c).

(** ** class GameState *)

(** The value of [self.player and self.player.role == "Trainee" and
    self.player.character] when it is truthy. *)
Definition trainee_character (s : GameState.t) : option tref :=
  match GameState.player s with
  | Some p => if String.eqb (Player.role p) "Trainee" then Player.character p else None
  | None => None
  end.

(** The value of [self.player and self.player.role == "CEO" and
    self.company] when it is truthy. *)
Definition ceo_company (s : GameState.t) : option Company.t :=
  match GameState.player s with
  | Some p => if String.eqb (Player.role p) "CEO" then GameState.company s else None
  | None => None
  end.

(** [self.message_log.append(msg)]. *)
Definition append_log (msg : string) : M unit :=
  modify_state (fun s => GameState.set_message_log (GameState.message_log s ++ [msg]) s).

Definition monthly_evaluation : M string :=
  self <- get_state ;;
  match trainee_character self with
  | Some trainee =>
      t <- get_trainee trainee ;;
      let score := score t + Trainee.popularity t in
      let threshold := 220 + GameState.year self * 10 in
      if threshold <=? score then
        adjust_relationship trainee 5 ;;
        adjust_popularity trainee 5 ;;
        ret ("Monthly evaluation passed! Score " +:+ str score +:+ " / " +:+ str threshold
             +:+ ". Relationship +5.")
      else
        modify_state (fun s => GameState.set_trainee_failures (GameState.trainee_failures s + 1) s) ;;
        penalty <- randint 5 10 ;;
        adjust_relationship trainee (- penalty) ;;
        ret ("Evaluation failed. Score " +:+ str score +:+ " / " +:+ str threshold
             +:+ ". Relationship -" +:+ str penalty +:+ ".")
  | None =>
      match GameState.company self with
      | Some c =>
          halves <- mapM (fun r => grp <- get_group r ;; ret (Group.popularity grp / 2))
                         (Company.groups c) ;;
          let income := sum halves in
          update_finances income ;;
          ret ("Monthly income report: earned " +:+ str income +:+ " from active groups.")
      | None => ret "The month rolls by without major events."
      end
  end.

Definition advance_day : M unit :=
  modify_state (fun s => GameState.set_day (GameState.day s + 1) s) ;;
  self <- get_state ;;
  if 30 <? GameState.day self then
    modify_state (GameState.set_day 1) ;;
    modify_state (fun s => GameState.set_month (GameState.month s + 1) s) ;;
    self <- get_state ;;
    (if 12 <? GameState.month self then
       modify_state (GameState.set_month 1) ;;
       modify_state (fun s => GameState.set_year (GameState.year s + 1) s)
     else ret tt) ;;
    msg <- monthly_evaluation ;;
    append_log msg
  else ret tt.

Definition check_victory_or_defeat : M (option string) :=
  self <- get_state ;;
  ceo <-
    match ceo_company self with
    | Some c =>
        if Company.money c <? -2000 then
          ret (Some "Bankruptcy! Your company could not pay its bills.")
        else
          hit <- anyM (fun r => grp <- get_group r ;; ret (300 <=? Group.popularity grp))
                      (Company.groups c) ;;
          if hit then ret (Some "Success! One of your groups became a top act.")
          else if 5 <? GameState.year self then
            ret (Some (if Company.reputation c <? 80
                       then "Time's up. The industry moved on before you produced a hit."
                       else "Legendary CEO!"))
          else ret None
    | None => ret None
    end ;;
  match ceo with
  | Some verdict => ret (Some verdict)
  | None =>
      match trainee_character self with
      | Some trainee =>
          t <- get_trainee trainee ;;
          if (200 <=? Trainee.popularity t) && (350 <=? score t) then
            ret (Some "You debuted and became a sensation!")
          else if 3 <=? GameState.trainee_failures self then
            ret (Some "You were cut after repeated failed evaluations.")
          else if 5 <? GameState.year self then
            ret (Some (if Trainee.popularity t <? 150
                       then "The window closed before you could debut."
                       else "Late bloomer debut success!"))
          else ret None
      | None => ret None
      end
  end.

(** ** CEO mode actions *)

(** [xs[i]] for a Python list: a negative index counts from the end, and
    an index outside the list is an [IndexError] ([None] here). *)
Definition py_index {A} (xs : list A) (i : Z) : option A :=
  let n := Z.of_nat (length xs) in
  if 0 <=? i then xs !! Z.to_nat i
  else if 0 <=? i + n then xs !! Z.to_nat (i + n)
  else None.

(** [sep.join(xs)]. *)
Fixpoint join (sep : string) (xs : list string) : string :=
  match xs with
  | [] => ""
  | [x] => x
  | x :: xs' => x +:+ sep +:+ join sep xs'
  end.

(** What the player typed at the prompts of one action; reading and
    re-prompting are outside the model.  [in_choice] and [in_budget] are
    the integers [safe_int_input] returned, [in_focus] the focus with its
    default applied ([input(...).strip().lower() or "vocal"], or
    [or "dance"] in trainee mode), [in_picks] the list
    [indices] parsed from the comma-separated picks, and the other fields
    the raw lines. *)
Record Inputs := mkInputs {
  in_name : string;
  in_choice : Z;
  in_focus : string;
  in_picks : list Z;
  in_concept : string;
  in_title : string;
  in_budget : Z
}.

Definition handle_ceo_action (choice : Z) (inp : Inputs) : M string :=
  state <- get_state ;;
  match GameState.company state with
  | None => raise AssertionError
  | Some company =>
      if choice =? 1 then
        let name :=
          if String.eqb (in_name inp) ""
          then "Trainee" +:+ str (Z.of_nat (length (Company.trainees company)) + 1)
          else in_name inp in
        new <- recruit_trainee name ;;
        t <- get_trainee new ;;
        company <- get_company ;;
        ret ("Recruited " +:+ Trainee.name t +:+ "! Money now " +:+ str (Company.money company)
             +:+ ".")
      else if choice =? 2 then
        match Company.trainees company with
        | [] => ret "No trainees available."
        | _ :: _ =>
            match py_index (Company.trainees company) (in_choice inp - 1) with
            | Some trainee => schedule_training trainee (in_focus inp)
            | None => raise IndexError
            end
        end
      else if choice =? 3 then
        if Z.of_nat (length (Company.trainees company)) <? 1 then
          ret "You need at least one trainee to debut."
        else
          picked <-
            mapM (fun idx =>
                    if (0 <=? idx) && (idx <? Z.of_nat (length (Company.trainees company))) then
                      match py_index (Company.trainees company) idx with
                      | Some r => t <- get_trainee r ;; ret [Trainee.name t]
                      | None => raise IndexError
                      end
                    else ret [])
                 (in_picks inp) ;;
          let selected_names := concat picked in
          let concept := if String.eqb (in_concept inp) "" then "Fresh" else in_concept inp in
          plan_debut selected_names concept (in_budget inp)
      else if choice =? 4 then
        match Company.groups company with
        | [] => ret "No groups have debuted yet."
        | _ :: _ =>
            let title := if String.eqb (in_title inp) "" then "Untitled" else in_title inp in
            match py_index (Company.groups company) (in_choice inp - 1) with
            | Some group => release_song group title (in_budget inp)
            | None => raise IndexError
            end
        end
      else if choice =? 5 then
        match Company.groups company with
        | [] => ret "No groups to promote."
        | _ :: _ =>
            match py_index (Company.groups company) (in_choice inp - 1) with
            | Some group => promote group (in_budget inp)
            | None => raise IndexError
            end
        end
      else if choice =? 6 then
        parts <- mapM (fun r => t <- get_trainee r ;;
                                ret (Trainee.name t +:+ " Sta:" +:+ str (Trainee.stamina t)
                                     +:+ " Pop:" +:+ str (Trainee.popularity t)))
                      (Company.trainees company) ;;
        ret ("Money: " +:+ str (Company.money company) +:+ ", Reputation: "
             +:+ str (Company.reputation company) +:+ ". Trainees: " +:+ join ", " parts)
      else ret "Taking a breather to plan the next move."
  end.

(** ** Trainee mode actions *)

(** [focus] is the value of [input(...).strip().lower() or "dance"];
    reading the console is outside the model. *)
Definition handle_trainee_action (choice : Z) (focus : string) : M string :=
  state <- get_state ;;
  match (match GameState.player state with
         | Some p => Player.character p
         | None => None
         end) with
  | None => ret "No trainee data loaded."
  | Some trainee =>
      if choice =? 1 then train trainee focus 5
      else if choice =? 2 then rest trainee
      else if choice =? 3 then
        gain <- randint 3 10 ;;
        adjust_relationship trainee gain ;;
        adjust_popularity trainee (gain / 2) ;;
        ret ("Shared practice room gossip. Relationship +" +:+ str gain
             +:+ ", Popularity +" +:+ str (gain / 2) +:+ ".")
      else if choice =? 4 then
        t <- get_trainee trainee ;;
        r <- randint (-10) 25 ;;
        let score := score t + r in
        let threshold := 210 + GameState.year state * 10 in
        if threshold <=? score then
          adjust_popularity trainee 10 ;;
          adjust_relationship trainee 5 ;;
          ret ("Evaluation success! Score " +:+ str score +:+ " / " +:+ str threshold
               +:+ ". Popularity +10.")
        else
          modify_state (fun s => GameState.set_trainee_failures (GameState.trainee_failures s + 1) s) ;;
          adjust_relationship trainee (-5) ;;
          state' <- get_state ;;
          ret ("Evaluation tough. Score " +:+ str score +:+ " / " +:+ str threshold
               +:+ ". Failure count " +:+ str (GameState.trainee_failures state') +:+ ".")
      else if choice =? 5 then
        t <- get_trainee trainee ;;
        ret ("Stats - Vocal:" +:+ str (Trainee.vocal t) +:+ " Dance:" +:+ str (Trainee.dance t)
             +:+ " Rap:" +:+ str (Trainee.rap t) +:+ " Visual:" +:+ str (Trainee.visual t)
             +:+ " Charisma:" +:+ str (Trainee.charisma t) +:+ " Stamina:" +:+ str (Trainee.stamina t)
             +:+ " Popularity:" +:+ str (Trainee.popularity t)
             +:+ " Relationship:" +:+ str (Trainee.relationship t))
      else ret "Day passes while you reflect on your dreams."
  end.

(** ** Random events *)

(** [state.player], whose attributes are read without a [None] test. *)
Definition get_player : M Player.t :=
  s <- get_state ;;
  match GameState.player s with
  | Some p => ret p
  | None => raise AttributeError
  end.

(** [max(groups, key=lambda g: g.popularity)] over the groups after the
    first: a later group wins only with a strictly larger popularity. *)
Fixpoint max_by_popularity (best : gref) (best_key : Z) (others : list (gref * Z)) : gref :=
  match others with
  | [] => best
  | (r, k) :: others' =>
      if best_key <? k then max_by_popularity r k others'
      else max_by_popularity best best_key others'
  end.

Definition random_event : M (option string) :=
  roll <- random ;;
  negative <-
    (if float_lt roll lit_0_08 then
       p <- get_player ;;
       state <- get_state ;;
       if String.eqb (Player.role p) "CEO" && bool_decide (is_Some (GameState.company state)) then
         loss <- randint 200 800 ;;
         upd_company (fun c => Company.set_money (Company.money c - loss) c) ;;
         ret (Some ("Unexpected venue cancellation. Lost " +:+ str loss +:+ " in fees."))
       else
         match Player.character p with
         | Some trainee =>
             injury <- randint 5 15 ;;
             upd_trainee trainee
               (fun t => Trainee.set_stamina (Z.max 0 (Trainee.stamina t - injury)) t) ;;
             ret (Some ("Minor injury during rehearsal. Stamina -" +:+ str injury +:+ "."))
         | None => ret None
         end
     else ret None) ;;
  match negative with
  | Some event => ret (Some event)
  | None =>
      if float_lt lit_0_92 roll then
        p <- get_player ;;
        state <- get_state ;;
        match (if String.eqb (Player.role p) "CEO" then GameState.company state else None) with
        | Some (Company.mk _ _ _ _ (first :: others) _) =>
            bonus <- randint 300 900 ;;
            upd_company (fun c => Company.set_money (Company.money c + bonus) c) ;;
            first_key <- (grp <- get_group first ;; ret (Group.popularity grp)) ;;
            keyed <- mapM (fun r => grp <- get_group r ;; ret (r, Group.popularity grp)) others ;;
            let top_group := max_by_popularity first first_key keyed in
            upd_group top_group
              (fun x => Group.set_popularity (Group.popularity x + bonus / 10) x) ;;
            grp <- get_group top_group ;;
            ret (Some ("Viral moment! " +:+ Group.name grp +:+ " trend boosts funds by "
                       +:+ str bonus +:+ "."))
        | _ =>
            match Player.character p with
            | Some trainee =>
                boost <- randint 8 18 ;;
                adjust_popularity trainee boost ;;
                ret (Some ("Fan edit goes viral. Popularity +" +:+ str boost +:+ "."))
            | None => ret None
            end
        end
      else ret None
  end.

(** ** One turn of the main loop

    The body of the loop of [main] between two status displays: the chosen
    action, the random event, the clock and the verdict.  [choice] is the
    menu entry [safe_int_input] returned. *)
Definition turn (choice : Z) (inp : Inputs) : M (option string) :=
  p <- get_player ;;
  result <-
    (if String.eqb (Player.role p) "CEO" then handle_ceo_action choice inp
     else handle_trainee_action choice (in_focus inp)) ;;
  append_log result ;;
  event <- random_event ;;
  match event with
  | Some e => if String.eqb e "" then ret tt else append_log e
  | None => ret tt
  end ;;
  advance_day ;;
  check_victory_or_defeat.

(** ** Starting a game *)

(** [random.sample(population, k)] as the library draws it for a small
    population: [k] picks from a pool whose picked slot is refilled with
    the pool's last element. *)
Fixpoint sample {A} (pool : list A) (k : nat) : M (list A) :=
  match k with
  | O => ret []
  | S k' =>
      match pool with
      | [] => raise ValueError
      | _ :: _ =>
          let n := length pool in
          x <- draw ;;
          let j := Z.to_nat (x mod Z.of_nat n) in
          match pool !! j, pool !! pred n with
          | Some picked, Some last =>
              others <- sample (take (pred n) (<[j := last]> pool)) k' ;;
              ret (picked :: others)
          | _, _ => raise ValueError
          end
      end
  end.

(** [name] is the value of [input(...) or "Player"] and [role] the value
    of [choose_role()].  The new [GameState] becomes the state of the
    world. *)
Definition initialize_game (name role : string) : M unit :=
  let player := Player.mk name role None in
  let company := Company.mk "IdoLab Entertainment" 5000 10 [] [] [] in
  let starter_names := ["Ara"; "Min"; "Jisu"; "Luna"; "Kai"]%string in
  labels <- sample starter_names 3 ;;
  seeded <- mapM (fun label =>
                    p <- randint 5 20 ;;
                    alloc_trainee (Trainee.mk label 30 30 30 30 30 70 p 10 1))
                 labels ;;
  let company := Company.set_trainees (Company.trainees company ++ seeded) company in
  if String.eqb role "Trainee" then
    trainee_character <- alloc_trainee (Trainee.mk name 35 35 30 35 35 80 10 10 1) ;;
    let player := Player.mk name role (Some trainee_character) in
    let company := Company.set_trainees (Company.trainees company ++ [trainee_character]) company in
    modify_state (fun _ => GameState.mk 1 1 1 (Some player) (Some company) 0 [])
  else
    modify_state (fun _ => GameState.mk 1 1 1 (Some player) (Some company) 0 []).

(** [GameState()] with no object allocated yet. *)
Definition empty_world : World :=
  mkWorld [] [] (GameState.mk 1 1 1 None None 0 []).

(** [n] calls of [m] in a row. *)
Fixpoint repeatM (n : nat) (m : M unit) : M unit :=
  match n with
  | O => ret tt
  | S n' => m ;; repeatM n' m
  end.


(** ** The main loop

    [main] over a script of turns, each the menu choice and what was typed
    during the turn: the game starts, turns are played until one gives a
    verdict or the script ends.  [name] and [role] are what
    [initialize_game] read; printing is not modelled. *)
Fixpoint play (turns : list (Z * Inputs)) : M (option string) :=
  match turns with
  | [] => ret None
  | (choice, inp) :: turns' =>
      verdict <- turn choice inp ;;
      match verdict with
      | Some v => if String.eqb v "" then play turns' else ret (Some v)
      | None => play turns'
      end
  end.

Definition main (name role : string) (turns : list (Z * Inputs)) : M (option string) :=
  initialize_game name role ;;
  play turns.

(** * Specification vocabulary *)

(** ** Observing outcomes *)

Definition res_world {A} (r : Res A) : World :=
  match r with Ok _ w _ => w | Raise _ w _ => w end.

Definition res_rng {A} (r : Res A) : Rng :=
  match r with Ok _ _ g => g | Raise _ _ g => g end.

Definition res_value {A} (r : Res A) : option A :=
  match r with Ok a _ _ => Some a | Raise _ _ _ => None end.

(** [preserves I m]: whatever the outcome of [m], returned or raised, it
    leaves [I] true if it found it true. *)
Definition preserves {A} (I : World -> Rng -> Prop) (m : M A) : Prop :=
  forall w g, I w g -> I (res_world (m w g)) (res_rng (m w g)).

(** [returns I m Q]: as [preserves], and a value returned satisfies [Q]. *)
Definition returns {A} (I : World -> Rng -> Prop) (m : M A) (Q : A -> Prop) : Prop :=
  forall w g, I w g ->
    match m w g with
    | Ok a w' g' => I w' g' /\ Q a
    | Raise _ w' g' => I w' g'
    end.

(** [yields m Q]: every value [m] returns satisfies [Q]. *)
Definition yields {A} (m : M A) (Q : A -> Prop) : Prop :=
  forall w g a w' g', m w g = Ok a w' g' -> Q a.

(** Invariants that do not read one component of the world. *)
Definition indep_trainees (I : World -> Rng -> Prop) : Prop :=
  forall w g v, I w g -> I (set_trainee_objs v w) g.
Definition indep_groups (I : World -> Rng -> Prop) : Prop :=
  forall w g v, I w g -> I (set_group_objs v w) g.
Definition indep_state (I : World -> Rng -> Prop) : Prop :=
  forall w g v, I w g -> I (set_state v w) g.
Definition indep_cursor (I : World -> Rng -> Prop) : Prop :=
  forall w g, I w g -> I w (mkRng (source g) (S (cursor g))).

(** Nothing changed: the world and the generator are the given ones. *)
Definition I_same (w0 : World) (g0 : Rng) : World -> Rng -> Prop :=
  fun w g => w = w0 /\ g = g0.

(** ** Live references *)

(** Every reference held by the game state, the company or a group names
    an object of the store, as is always the case in Python. *)
Definition trefs_live (w : World) (rs : list tref) : Prop :=
  Forall (fun r => is_Some (trainee_objs w !! r)) rs.

Definition grefs_live (w : World) (rs : list gref) : Prop :=
  Forall (fun r => is_Some (group_objs w !! r)) rs.

Definition wf_world (w : World) : Prop :=
  (forall c, GameState.company (state w) = Some c ->
             trefs_live w (Company.trainees c) /\ grefs_live w (Company.groups c)) /\
  (forall p r, GameState.player (state w) = Some p -> Player.character p = Some r ->
               is_Some (trainee_objs w !! r)) /\
  Forall (fun grp => trefs_live w (Group.members grp)) (group_objs w).

(** The trainee objects and the group objects a list of references
    names. *)
Definition trainees_at (w : World) (rs : list tref) : list Trainee.t :=
  flat_map (fun r => match trainee_objs w !! r with Some t => [t] | None => [] end) rs.

Definition groups_at (w : World) (rs : list gref) : list Group.t :=
  flat_map (fun r => match group_objs w !! r with Some grp => [grp] | None => [] end) rs.

(** ** Data-model invariants *)

(** The ranges the data model gives to a trainee's bounded attributes. *)
Definition trainee_ok (t : Trainee.t) : Prop :=
  0 <= Trainee.stamina t <= 100 /\
  0 <= Trainee.popularity t /\
  0 <= Trainee.relationship t <= 100.

Definition trainees_ok (w : World) : Prop := Forall trainee_ok (trainee_objs w).

Definition I_ok : World -> Rng -> Prop := fun w _ => trainees_ok w.

(** What holds of the objects of a game as it is played: no trainee's
    score is below 50, and every group has a member and a popularity that
    is not negative. *)
Definition game_shape (w : World) : Prop :=
  Forall (fun t => 50 <= score t) (trainee_objs w) /\
  Forall (fun grp => 0 <= Group.popularity grp /\ Group.members grp <> []) (group_objs w).

Definition I_shape : World -> Rng -> Prop := fun w _ => game_shape w.

(** The company holds [m]. *)
Definition I_money (m : Z) : World -> Rng -> Prop :=
  fun w _ => Company.money <$> GameState.company (state w) = Some m.

(** The store after [adjust_popularity(amount)] on the trainee at [r]. *)
Definition bump_popularity (amount : Z) (ts : list Trainee.t) (r : tref) : list Trainee.t :=
  match ts !! r with
  | Some t => <[r := Trainee.set_popularity (Z.max 0 (Trainee.popularity t + amount)) t]> ts
  | None => ts
  end.

(** ** The clock *)

(** The date after a month rollover. *)
Definition rollover (s : GameState.t) : GameState.t :=
  let s1 := GameState.set_month (GameState.month s + 1) (GameState.set_day 1 s) in
  if 12 <? GameState.month s1
  then GameState.set_year (GameState.year s1 + 1) (GameState.set_month 1 s1)
  else s1.

(** The fields of the game state the monthly evaluation leaves alone. *)
Definition clock (s : GameState.t) : Z * Z * Z * list string * option Player.t :=
  (GameState.day s, GameState.month s, GameState.year s, GameState.message_log s,
   GameState.player s).

Definition I_clock (c : Z * Z * Z * list string * option Player.t) : World -> Rng -> Prop :=
  fun w _ => clock (state w) = c.

(** ** Verdicts *)

(** No condition of the win/loss list holds. *)
Definition no_condition_fires (w : World) : Prop :=
  (forall c, ceo_company (state w) = Some c ->
     -2000 <= Company.money c /\
     Forall (fun grp => Group.popularity grp < 300) (groups_at w (Company.groups c)) /\
     GameState.year (state w) <= 5) /\
  (forall r t, trainee_character (state w) = Some r -> trainee_objs w !! r = Some t ->
     ~ (200 <= Trainee.popularity t /\ 350 <= score t) /\
     GameState.trainee_failures (state w) < 3 /\
     GameState.year (state w) <= 5).

(** "Neither role populated", read on the player alone: there is no
    player, or the player is neither a trainee with a character nor a
    CEO. *)
Definition neither_role_populated (s : GameState.t) : Prop :=
  match GameState.player s with
  | None => True
  | Some p =>
      ~ (Player.role p = "Trainee" /\ is_Some (Player.character p)) /\ Player.role p <> "CEO"
  end.

(** ** Random events *)

(** The roll [random_event] draws from the generator [g]. *)
Definition event_roll (g : Rng) : float := Float (source g (cursor g) mod 2 ^ 53) 53.

Definition negative_event (msg : string) : Prop :=
  exists n, msg = "Unexpected venue cancellation. Lost " +:+ str n +:+ " in fees." \/
            msg = "Minor injury during rehearsal. Stamina -" +:+ str n +:+ ".".

Definition positive_event (msg : string) : Prop :=
  exists n name, msg = "Viral moment! " +:+ name +:+ " trend boosts funds by " +:+ str n +:+ "." \/
                 msg = "Fan edit goes viral. Popularity +" +:+ str n +:+ ".".

(** ** Trainee-mode evaluation *)

(** The world after a failed "Participate in evaluation" of the trainee
    [t] at [r]. *)
Definition after_failed_evaluation (r : tref) (t : Trainee.t) (w : World) : World :=
  mkWorld (<[r := Trainee.set_relationship (Z.max 0 (Z.min 100 (Trainee.relationship t + -5))) t]>
             (trainee_objs w))
          (group_objs w)
          (GameState.set_trainee_failures (GameState.trainee_failures (state w) + 1) (state w)).

(** The world after a passed one. *)
Definition after_passed_evaluation (r : tref) (t : Trainee.t) (w : World) : World :=
  let t1 := Trainee.set_popularity (Z.max 0 (Trainee.popularity t + 10)) t in
  mkWorld (<[r := Trainee.set_relationship (Z.max 0 (Z.min 100 (Trainee.relationship t1 + 5))) t1]>
             (trainee_objs w))
          (group_objs w) (state w).

(** ** Training *)

(** The stat names [train] knows. *)
Definition known_stat (stat : string) : bool :=
  existsb (String.eqb stat) ["vocal"; "dance"; "rap"; "charisma"; "visual"].

(** The message of [train] before the stamina note. *)
Definition training_message (stat : string) (gain : Z) : string :=
  if String.eqb stat "vocal" then "Vocal training +" +:+ str gain +:+ "."
  else if String.eqb stat "dance" then "Dance training +" +:+ str gain +:+ "."
  else if String.eqb stat "rap" then "Rap training +" +:+ str gain +:+ "."
  else if String.eqb stat "charisma" then "Charisma workshop +" +:+ str gain +:+ "."
  else if String.eqb stat "visual" then "Visual coaching +" +:+ str gain +:+ "."
  else "Training focused on fundamentals.".

(** The trainee after a training of [stat] that gains [gain] and costs
    [cost] stamina. *)
Definition trained (stat : string) (gain cost : Z) (t : Trainee.t) : Trainee.t :=
  let t := Trainee.set_stamina (Z.max 0 (Trainee.stamina t - cost)) t in
  if String.eqb stat "vocal" then Trainee.set_vocal (Trainee.vocal t + gain) t
  else if String.eqb stat "dance" then Trainee.set_dance (Trainee.dance t + gain) t
  else if String.eqb stat "rap" then Trainee.set_rap (Trainee.rap t + gain) t
  else if String.eqb stat "charisma" then Trainee.set_charisma (Trainee.charisma t + gain) t
  else if String.eqb stat "visual" then Trainee.set_visual (Trainee.visual t + gain) t
  else t.
(* END *)

(** ** The menus *)

(** [state.player.character if state.player else None]. *)
Definition player_character (s : GameState.t) : option tref :=
  match GameState.player s with
  | Some p => Player.character p
  | None => None
  end.

(** ** Random events: who is hit *)

(** [top] is the group [max(groups, key=lambda g: g.popularity)] picks:
    the first of [groups] whose popularity no other group exceeds. *)
Definition first_top (w : World) (groups : list gref) (top : gref) : Prop :=
  exists (i : nat) grp,
    groups !! i = Some top /\ group_objs w !! top = Some grp /\
    (forall (j : nat) r x, groups !! j = Some r -> group_objs w !! r = Some x ->
                   Group.popularity x <= Group.popularity grp) /\
    (forall (j : nat) r x, (j < i)%nat -> groups !! j = Some r -> group_objs w !! r = Some x ->
                   Group.popularity x < Group.popularity grp).

(** The test [state.player.role == "CEO" and state.company] of a random
    event. *)
Definition ceo_event (p : Player.t) (s : GameState.t) : bool :=
  String.eqb (Player.role p) "CEO" && bool_decide (is_Some (GameState.company s)).

(** The test [state.player.role == "CEO" and state.company and
    state.company.groups] of a random event. *)
Definition ceo_viral (p : Player.t) (s : GameState.t) : bool :=
  String.eqb (Player.role p) "CEO" &&
  match GameState.company s with
  | Some c => match Company.groups c with [] => false | _ :: _ => true end
  | None => false
  end.

(** ** The company's actions *)

(** The name a recruit gets: what was typed, or [Trainee<n+1>] for a
    roster of [n] when nothing was. *)
Definition recruit_name (typed : string) (c : Company.t) : string :=
  if String.eqb typed ""
  then "Trainee" +:+ str (Z.of_nat (length (Company.trainees c)) + 1)
  else typed.

(** The average score [calculate_power] starts from. *)
Definition member_power (w : World) (grp : Group.t) : Z :=
  sum (map score (trainees_at w (Group.members grp)))
  / Z.max (Z.of_nat (length (Group.members grp))) 1.

(** [[t for t in roster if t.name in names]]. *)
Definition selected_by_name (w : World) (names : list string) (roster : list tref) : list tref :=
  List.filter (fun r => match trainee_objs w !! r with
                        | Some t => existsb (String.eqb (Trainee.name t)) names
                        | None => false
                        end) roster.

(** The names "Plan debut" collects from the picks: the name of the
    trainee at each index that lies in the roster. *)
Definition picked_names (w : World) (roster : list tref) (picks : list Z) : list string :=
  flat_map (fun idx =>
              if (0 <=? idx) && (idx <? Z.of_nat (length roster)) then
                match roster !! Z.to_nat idx with
                | Some r => match trainee_objs w !! r with
                            | Some t => [Trainee.name t]
                            | None => []
                            end
                | None => []
                end
              else []) picks.

(** ** Starting a game *)

Definition starter_names : list string := ["Ara"; "Min"; "Jisu"; "Luna"; "Kai"].

(** A starter trainee: the defaults of [Trainee] with a name and a
    popularity. *)
Definition starter (label : string) (popularity : Z) : Trainee.t :=
  Trainee.mk label 30 30 30 30 30 70 popularity 10 1.

(** The character of a trainee-mode player. *)
Definition player_trainee (name : string) : Trainee.t :=
  Trainee.mk name 35 35 30 35 35 80 10 10 1.

(** ** The calendar and the log *)

(** The date is one of the calendar. *)
Definition date_ok (s : GameState.t) : Prop :=
  1 <= GameState.day s <= 30 /\ 1 <= GameState.month s <= 12.

(** The days since day 1 of month 1 of year 0, in years of twelve months
    of thirty days. *)
Definition day_number (s : GameState.t) : Z :=
  360 * GameState.year s + 30 * (GameState.month s - 1) + (GameState.day s - 1).

(** What no action, event or evaluation touches: the date, the log, the
    player, and whether there is a company. *)
Definition seat (s : GameState.t) : Z * Z * Z * list string * option Player.t * bool :=
  (clock s, bool_decide (is_Some (GameState.company s))).

Definition I_seat (c : Z * Z * Z * list string * option Player.t * bool) : World -> Rng -> Prop :=
  fun w _ => seat (state w) = c.

(** One of the two roles is populated: a CEO with a company, or a
    trainee with a character. *)
Definition populated (s : GameState.t) : Prop :=
  is_Some (ceo_company s) \/ is_Some (trainee_character s).

(** ** Playing without an error *)

(** [w'] continues [w]: the stores have only grown, the player is the
    same, and a company is still there if there was one. *)
Definition continues (w w' : World) : Prop :=
  (length (trainee_objs w) <= length (trainee_objs w'))%nat /\
  (length (group_objs w) <= length (group_objs w'))%nat /\
  GameState.player (state w') = GameState.player (state w) /\
  (is_Some (GameState.company (state w)) -> is_Some (GameState.company (state w'))).

(** [runs m w g Q]: from [w] and [g], [m] returns, no exception raised;
    the world it leaves has its references live, continues [w], and
    satisfies [Q] with the value returned. *)
Definition runs {A} (m : M A) (w : World) (g : Rng) (Q : A -> World -> Prop) : Prop :=
  exists a w' g', m w g = Ok a w' g' /\ wf_world w' /\ continues w w' /\ Q a w'.

(** A game that can be played: live references, a player, and a company
    when the player is its CEO. *)
Definition playable (w : World) : Prop :=
  wf_world w /\
  exists p, GameState.player (state w) = Some p /\
            (Player.role p = "CEO" -> is_Some (GameState.company (state w))).

(** The index typed during a turn is one [safe_int_input] lets through,
    where the program asks for one.  Only the menu of a CEO does: for a
    training, when the roster is not empty, [safe_int_input(..., 1,
    len(company.trainees))]; for a release or a promotion, when there is
    a group, [safe_int_input(..., 1, len(company.groups))].  Nothing is
    asked of the other choices, of an empty roster, of a company without
    a group, or of a player who is no CEO. *)
Definition valid_inputs (w : World) (choice : Z) (inp : Inputs) : Prop :=
  forall p c,
    GameState.player (state w) = Some p -> Player.role p = "CEO" ->
    GameState.company (state w) = Some c ->
    (choice = 2 -> Company.trainees c <> [] ->
     1 <= in_choice inp <= Z.of_nat (length (Company.trainees c))) /\
    (choice = 4 \/ choice = 5 -> Company.groups c <> [] ->
     1 <= in_choice inp <= Z.of_nat (length (Company.groups c))).

(** Every turn of the script is typed with valid inputs, read at the
    state the turn starts from. *)
Fixpoint valid_script (turns : list (Z * Inputs)) (w : World) (g : Rng) : Prop :=
  match turns with
  | [] => True
  | (choice, inp) :: turns' =>
      valid_inputs w choice inp /\
      match turn choice inp w g with
      | Ok None w' g' => valid_script turns' w' g'
      | Ok (Some v) w' g' => if String.eqb v "" then valid_script turns' w' g' else True
      | Raise _ _ _ => True
      end
  end.

(** ** What is never taken back *)

(** [w] has grown from [w0]: every trainee of [w0] is still there under
    the same name, with a score that is not lower; every group is still
    there with its name, members and concept; the company, if there was
    one, has the same name and lists that extend the old ones; the
    failure count is not lower, the log extends the old one, and the
    player is the same. *)
Definition grown (w0 w : World) : Prop :=
  (forall r t0, trainee_objs w0 !! r = Some t0 ->
     exists t, trainee_objs w !! r = Some t /\ Trainee.name t = Trainee.name t0 /\
               score t0 <= score t) /\
  (forall r x0, group_objs w0 !! r = Some x0 ->
     exists x, group_objs w !! r = Some x /\ Group.name x = Group.name x0 /\
               Group.members x = Group.members x0 /\ Group.concept x = Group.concept x0) /\
  (forall c0, GameState.company (state w0) = Some c0 ->
     exists c, GameState.company (state w) = Some c /\ Company.name c = Company.name c0 /\
               Company.trainees c0 `prefix_of` Company.trainees c /\
               Company.groups c0 `prefix_of` Company.groups c /\
               Company.projects c0 `prefix_of` Company.projects c) /\
  GameState.trainee_failures (state w0) <= GameState.trainee_failures (state w) /\
  GameState.message_log (state w0) `prefix_of` GameState.message_log (state w) /\
  GameState.player (state w) = GameState.player (state w0).

Definition I_grown (w0 : World) : World -> Rng -> Prop := fun w _ => grown w0 w.

(** ** The two modes *)

(** The player is [p], and the company and the groups are the given
    ones. *)
Definition I_backstage (p : Player.t) (c : option Company.t) (gs : list Group.t)
  : World -> Rng -> Prop :=
  fun w _ => GameState.player (state w) = Some p /\ GameState.company (state w) = c /\
             group_objs w = gs.

(** The player is [p], and the failure count is [n]. *)
Definition I_failures (p : Player.t) (n : Z) : World -> Rng -> Prop :=
  fun w _ => GameState.player (state w) = Some p /\ GameState.trainee_failures (state w) = n.

(** ** The verdicts in their order *)

(** Some group of the company is a top act. *)
Definition top_act (w : World) (c : Company.t) : Prop :=
  Exists (fun grp => 300 <= Group.popularity grp) (groups_at w (Company.groups c)).

(** The trainee is a sensation. *)
Definition sensation (t : Trainee.t) : Prop :=
  200 <= Trainee.popularity t /\ 350 <= score t.

(** ** Sample games *)

(** Generators: constant draws, a varied stream, and one whose third draw
    alone is not 0 (chemistry bonus 0, roll -15, then 0.5 for the
    critical test of a song). *)
Definition rng_zero : Rng := mkRng (fun _ => 0) 0.
Definition rng_half : Rng := mkRng (fun _ => 2 ^ 52) 0.
Definition rng_game : Rng := mkRng (fun n => Z.of_nat n * 7919 + 2 ^ 52) 0.
Definition rng_flop : Rng := mkRng (fun n => if Nat.eqb n 2 then 2 ^ 52 else 0) 0.

Definition no_inputs : Inputs := mkInputs "" 0 "" [] "" "" 0.

(** A trainee-mode game on its first day. *)
Definition neo : Trainee.t := Trainee.mk "Neo" 35 35 30 35 35 80 10 10 1.

Definition world_trainee : World :=
  mkWorld [neo] []
          (GameState.mk 1 1 1 (Some (Player.mk "Neo" "Trainee" (Some 0%nat)))
             (Some (Company.mk "IdoLab Entertainment" 5000 10 [0%nat] [] [])) 0 []).

(** A trainee with popularity 200 and every skill at 70, late and after
    many failed evaluations. *)
Definition star : Trainee.t := Trainee.mk "Neo" 70 70 70 70 70 80 200 10 1.

Definition world_star : World :=
  mkWorld [star] []
          (GameState.mk 12 7 9 (Some (Player.mk "Neo" "Trainee" (Some 0%nat)))
             (Some (Company.mk "IdoLab Entertainment" 5000 10 [0%nat] [] [])) 7 []).

(** A CEO 2001 in debt whose group is a top act, in year 9, with a high
    reputation: every CEO condition holds at once. *)
Definition world_bankrupt : World :=
  mkWorld [neo] [Group.mk "Project Fresh" [0%nat] "Fresh" 999]
          (GameState.mk 1 1 9 (Some (Player.mk "Boss" "CEO" None))
             (Some (Company.mk "IdoLab Entertainment" (-2001) 500 [0%nat] [0%nat] [])) 0 []).

(** A CEO whose company holds 100, less than a recruitment costs. *)
Definition world_poor : World :=
  mkWorld [] []
          (GameState.mk 1 1 1 (Some (Player.mk "Boss" "CEO" None))
             (Some (Company.mk "IdoLab Entertainment" 100 10 [] [] [])) 0 []).

(** A group without members, in a company that can pay. *)
Definition world_empty_group : World :=
  mkWorld [] [Group.mk "Project Fresh" [] "Fresh" 0]
          (GameState.mk 1 1 1 (Some (Player.mk "Boss" "CEO" None))
             (Some (Company.mk "IdoLab Entertainment" 5000 10 [] [0%nat] [])) 0 []).

(** A game without a player whose company has one group of popularity 10. *)
Definition world_no_player : World :=
  mkWorld [Trainee.mk "Ara" 30 30 30 30 30 70 10 10 1]
          [Group.mk "Project Fresh" [0%nat] "Fresh" 10]
          (GameState.mk 1 1 1 None
             (Some (Company.mk "IdoLab Entertainment" 5000 10 [0%nat] [0%nat] [])) 0 []).

(** Three trainees with the default skills (score 150) in one group. *)
Definition world_trio : World :=
  mkWorld [Trainee.mk "Ara" 30 30 30 30 30 70 10 10 1;
           Trainee.mk "Min" 30 30 30 30 30 70 10 10 1;
           Trainee.mk "Kai" 30 30 30 30 30 70 10 10 1]
          [Group.mk "Project Fresh" [0%nat; 1%nat; 2%nat] "Fresh" 0]
          (GameState.mk 1 1 1 (Some (Player.mk "Boss" "CEO" None))
             (Some (Company.mk "IdoLab Entertainment" 5000 10 [0%nat; 1%nat; 2%nat] [0%nat] []))
             0 []).

(** Seventeen turns of a CEO, each spent on "Recruit trainee". *)
Definition recruit_script : list (Z * Inputs) :=
  replicate 17 (1, mkInputs "Mina" 0 "" [] "" "" 0).

(** Three trainee-mode turns, each spent on "Participate in evaluation". *)
Definition three_evaluations : list (Z * Inputs) :=
  [(4, no_inputs); (4, no_inputs); (4, no_inputs)].

(** A CEO's first turns: a debut of the three starters, a release, a
    promotion. *)
Definition ceo_script : list (Z * Inputs) :=
  [(3, mkInputs "" 0 "" [0; 1; 2] "Dark" "" 500);
   (4, mkInputs "" 1 "" [] "" "First Light" 300);
   (5, mkInputs "" 1 "" [] "" "" 100)].

(** A generator whose every roll is the largest float below 1. *)
Definition rng_high : Rng := mkRng (fun _ => 2 ^ 53 - 1) 0.

(** A CEO with two groups of the same popularity. *)
Definition world_duo : World :=
  mkWorld [Trainee.mk "Ara" 30 30 30 30 30 70 10 10 1;
           Trainee.mk "Min" 30 30 30 30 30 70 10 10 1]
          [Group.mk "Project Fresh" [0%nat] "Fresh" 50;
           Group.mk "Project Dark" [1%nat] "Dark" 50]
          (GameState.mk 1 1 1 (Some (Player.mk "Boss" "CEO" None))
             (Some (Company.mk "IdoLab Entertainment" 5000 10 [0%nat; 1%nat] [0%nat; 1%nat] []))
             0 []).

(** A CEO whose roster has two trainees of the same name. *)
Definition world_twins : World :=
  mkWorld [Trainee.mk "Mina" 30 30 30 30 30 70 10 10 1;
           Trainee.mk "Mina" 40 40 40 30 30 70 10 10 1;
           Trainee.mk "Kai" 30 30 30 30 30 70 10 10 1]
          []
          (GameState.mk 1 1 1 (Some (Player.mk "Boss" "CEO" None))
             (Some (Company.mk "IdoLab Entertainment" 5000 10 [0%nat; 1%nat; 2%nat] [] []))
             0 []).

(** A CEO in year 6 without a top act, with a reputation of 80. *)
Definition world_veteran : World :=
  mkWorld [neo] [Group.mk "Project Fresh" [0%nat] "Fresh" 299]
          (GameState.mk 1 1 6 (Some (Player.mk "Boss" "CEO" None))
             (Some (Company.mk "IdoLab Entertainment" (-2000) 80 [0%nat] [0%nat] [])) 0 []).

(** A trainee with popularity 200 whose score is 349, in year 6, after
    three failed evaluations. *)
Definition world_late : World :=
  mkWorld [Trainee.mk "Neo" 70 70 70 70 69 80 200 10 1] []
          (GameState.mk 1 1 6 (Some (Player.mk "Neo" "Trainee" (Some 0%nat)))
             (Some (Company.mk "IdoLab Entertainment" 5000 10 [0%nat] [] [])) 3 []).

(** * Reasoning rules *)

(** ** Running a computation *)

Lemma bind_Ok {A B} (m : M A) (k : A -> M B) w g a w' g' :
  m w g = Ok a w' g' -> bind m k w g = k a w' g'.
Proof. intros H. unfold bind. rewrite H. reflexivity. Qed.

Lemma bind_Raise {A B} (m : M A) (k : A -> M B) w g e w' g' :
  m w g = Raise e w' g' -> bind m k w g = Raise e w' g'.
Proof. intros H. unfold bind. rewrite H. reflexivity. Qed.

Lemma randint_range a b x : a <= b -> a <= a + x mod (b - a + 1) <= b.
Proof. intros H. pose proof (Z.mod_pos_bound x (b - a + 1)). lia. Qed.

Lemma randint_run a b w g :
  a <= b ->
  randint a b w g =
    Ok (a + source g (cursor g) mod (b - a + 1)) w (mkRng (source g) (S (cursor g))).
Proof. intros H. unfold randint. destruct (b <? a) eqn:E; [lia|]. reflexivity. Qed.

Lemma get_trainee_run r w g t :
  trainee_objs w !! r = Some t -> get_trainee r w g = Ok t w g.
Proof. intros H. unfold get_trainee. rewrite H. reflexivity. Qed.

Lemma upd_trainee_run r f w g t :
  trainee_objs w !! r = Some t ->
  upd_trainee r f w g = Ok tt (set_trainee_objs (<[r := f t]> (trainee_objs w)) w) g.
Proof.
  intros H. unfold upd_trainee, bind. rewrite (get_trainee_run _ _ _ _ H). reflexivity.
Qed.

Lemma lookup_set_trainee r (t t' : Trainee.t) (l : list Trainee.t) :
  l !! r = Some t -> <[r := t']> l !! r = Some t'.
Proof. intros H. apply list_lookup_insert_eq. eapply lookup_lt_Some, H. Qed.

Lemma get_group_run r w g x :
  group_objs w !! r = Some x -> get_group r w g = Ok x w g.
Proof. intros H. unfold get_group. rewrite H. reflexivity. Qed.

Lemma upd_group_run r f w g x :
  group_objs w !! r = Some x ->
  upd_group r f w g = Ok tt (set_group_objs (<[r := f x]> (group_objs w)) w) g.
Proof.
  intros H. unfold upd_group, bind. rewrite (get_group_run _ _ _ _ H). reflexivity.
Qed.

Lemma get_company_run w g c :
  GameState.company (state w) = Some c -> get_company w g = Ok c w g.
Proof. intros H. unfold get_company, bind, get_state. rewrite H. reflexivity. Qed.

Lemma upd_company_run f w g c :
  GameState.company (state w) = Some c ->
  upd_company f w g = Ok tt (set_state (GameState.set_company (Some (f c)) (state w)) w) g.
Proof.
  intros H. unfold upd_company, bind. rewrite (get_company_run _ _ _ H). reflexivity.
Qed.

Lemma mapM_get_group_run {B} (f : Group.t -> B) rs w g :
  grefs_live w rs ->
  mapM (fun r => grp <- get_group r ;; ret (f grp)) rs w g = Ok (map f (groups_at w rs)) w g.
Proof.
  unfold grefs_live, groups_at. induction 1 as [|r rs [x Hx] _ IH]; simpl; [reflexivity|].
  unfold bind at 1. unfold bind at 1. rewrite (get_group_run _ _ _ _ Hx). unfold ret at 1.
  unfold bind at 1. rewrite IH. rewrite Hx. reflexivity.
Qed.

Lemma anyM_get_group_run (p : Group.t -> bool) rs w g :
  grefs_live w rs ->
  anyM (fun r => grp <- get_group r ;; ret (p grp)) rs w g = Ok (existsb p (groups_at w rs)) w g.
Proof.
  unfold grefs_live, groups_at. induction 1 as [|r rs [x Hx] _ IH]; simpl; [reflexivity|].
  unfold bind at 1. unfold bind at 1. rewrite (get_group_run _ _ _ _ Hx). unfold ret at 1.
  rewrite Hx. simpl. destruct (p x); [reflexivity|]. exact IH.
Qed.

Lemma repeatM_add (a b : nat) (m : M unit) w g :
  repeatM (a + b) m w g = (repeatM a m ;; repeatM b m) w g.
Proof.
  revert w g. induction a as [|a IH]; intros w g; simpl; [reflexivity|].
  unfold bind in *. destruct (m w g); [apply IH|reflexivity].
Qed.

(** ** Invariants *)

Section Rules.
Context (I : World -> Rng -> Prop).

Lemma preserves_ret {A} (a : A) : preserves I (ret a).
Proof. intros w g H. exact H. Qed.

Lemma preserves_raise {A} (e : Exn) : preserves I (@raise A e).
Proof. intros w g H. exact H. Qed.

Lemma preserves_bind {A B} (m : M A) (k : A -> M B) :
  preserves I m -> (forall a, preserves I (k a)) -> preserves I (bind m k).
Proof.
  intros Hm Hk w g H. unfold bind. specialize (Hm w g H).
  destruct (m w g) as [a w' g'|e w' g']; simpl in *.
  - apply Hk, Hm.
  - exact Hm.
Qed.

Lemma preserves_bind_returns {A B} (m : M A) (Q : A -> Prop) (k : A -> M B) :
  returns I m Q -> (forall a, Q a -> preserves I (k a)) -> preserves I (bind m k).
Proof.
  intros Hm Hk w g H. unfold bind. specialize (Hm w g H).
  destruct (m w g) as [a w' g'|e w' g']; simpl in *.
  - destruct Hm as [HI HQ]. apply (Hk a HQ), HI.
  - exact Hm.
Qed.

Lemma returns_bind {A B} (m : M A) (Q : A -> Prop) (k : A -> M B) (R : B -> Prop) :
  returns I m Q -> (forall a, Q a -> returns I (k a) R) -> returns I (bind m k) R.
Proof.
  intros Hm Hk w g H. unfold bind. specialize (Hm w g H).
  destruct (m w g) as [a w' g'|e w' g']; [|exact Hm].
  destruct Hm as [HI HQ]. exact (Hk a HQ w' g' HI).
Qed.

Lemma returns_ret {A} (a : A) (Q : A -> Prop) : Q a -> returns I (ret a) Q.
Proof. intros HQ w g H. split; assumption. Qed.

Lemma returns_preserves {A} (m : M A) (Q : A -> Prop) : returns I m Q -> preserves I m.
Proof.
  intros Hm w g H. specialize (Hm w g H). destruct (m w g); simpl; [apply Hm|exact Hm].
Qed.

Lemma returns_mapM {A B} (f : A -> M B) (Q : B -> Prop) xs :
  (forall x, returns I (f x) Q) ->
  returns I (mapM f xs) (fun ys => length ys = length xs /\ Forall Q ys).
Proof.
  intros Hf. induction xs as [|x xs IH]; simpl.
  - apply returns_ret. split; [reflexivity|constructor].
  - eapply returns_bind; [apply Hf|]. intros y Hy.
    eapply returns_bind; [apply IH|]. intros ys [Hl Hys].
    apply returns_ret. simpl. split; [congruence|constructor; assumption].
Qed.

Lemma preserves_get_world : preserves I get_world.
Proof. intros w g H. exact H. Qed.

Lemma preserves_get_state : preserves I get_state.
Proof. intros w g H. exact H. Qed.

Lemma preserves_get_trainee r : preserves I (get_trainee r).
Proof. intros w g H. unfold get_trainee. destruct (trainee_objs w !! r); exact H. Qed.

Lemma preserves_get_group r : preserves I (get_group r).
Proof. intros w g H. unfold get_group. destruct (group_objs w !! r); exact H. Qed.

Lemma preserves_get_company : preserves I get_company.
Proof.
  intros w g H. unfold get_company, bind, get_state.
  destruct (GameState.company (state w)); exact H.
Qed.

Lemma preserves_get_player : preserves I get_player.
Proof.
  intros w g H. unfold get_player, bind, get_state.
  destruct (GameState.player (state w)); exact H.
Qed.

Lemma preserves_mapM {A B} (f : A -> M B) xs :
  (forall x, preserves I (f x)) -> preserves I (mapM f xs).
Proof.
  intros Hf. induction xs as [|x xs IH]; simpl.
  - apply preserves_ret.
  - apply preserves_bind; [apply Hf|]. intros y.
    apply preserves_bind; [apply IH|]. intros ys. apply preserves_ret.
Qed.

Lemma preserves_forM_ {A} (f : A -> M unit) xs :
  (forall x, preserves I (f x)) -> preserves I (forM_ xs f).
Proof.
  intros Hf. induction xs as [|x xs IH]; simpl.
  - apply preserves_ret.
  - apply preserves_bind; [apply Hf|]. intros _. apply IH.
Qed.

Lemma preserves_filterM {A} (p : A -> M bool) xs :
  (forall x, preserves I (p x)) -> preserves I (filterM p xs).
Proof.
  intros Hp. induction xs as [|x xs IH]; simpl.
  - apply preserves_ret.
  - apply preserves_bind; [apply Hp|]. intros b.
    apply preserves_bind; [apply IH|]. intros ys. apply preserves_ret.
Qed.

Lemma preserves_anyM {A} (p : A -> M bool) xs :
  (forall x, preserves I (p x)) -> preserves I (anyM p xs).
Proof.
  intros Hp. induction xs as [|x xs IH]; simpl.
  - apply preserves_ret.
  - apply preserves_bind; [apply Hp|]. intros [|]; [apply preserves_ret|apply IH].
Qed.

Lemma preserves_repeatM n m : preserves I m -> preserves I (repeatM n m).
Proof.
  intros Hm. induction n as [|n IH]; simpl.
  - apply preserves_ret.
  - apply preserves_bind; [apply Hm|]. intros _. apply IH.
Qed.

(** Writes to the store and the game state, with what the invariant
    must survive. *)
Lemma preserves_upd_trainee_gen r f :
  (forall w g t, I w g -> trainee_objs w !! r = Some t ->
                 I (set_trainee_objs (<[r := f t]> (trainee_objs w)) w) g) ->
  preserves I (upd_trainee r f).
Proof.
  intros H w g HI. unfold upd_trainee, bind, get_trainee.
  destruct (trainee_objs w !! r) eqn:E; simpl; [|exact HI].
  apply H; assumption.
Qed.

Lemma preserves_upd_group_gen r f :
  (forall w g x, I w g -> group_objs w !! r = Some x ->
                 I (set_group_objs (<[r := f x]> (group_objs w)) w) g) ->
  preserves I (upd_group r f).
Proof.
  intros H w g HI. unfold upd_group, bind, get_group.
  destruct (group_objs w !! r) eqn:E; simpl; [|exact HI].
  apply H; assumption.
Qed.

Lemma preserves_upd_company_gen f :
  (forall w g c, I w g -> GameState.company (state w) = Some c ->
                 I (set_state (GameState.set_company (Some (f c)) (state w)) w) g) ->
  preserves I (upd_company f).
Proof.
  intros H w g HI. unfold upd_company, bind, get_company, bind, get_state.
  destruct (GameState.company (state w)) eqn:E; simpl; [|exact HI].
  apply H; assumption.
Qed.

Lemma preserves_modify_state_gen f :
  (forall w g, I w g -> I (set_state (f (state w)) w) g) ->
  preserves I (modify_state f).
Proof. intros H w g HI. apply H, HI. Qed.

Lemma preserves_upd_trainee r f : indep_trainees I -> preserves I (upd_trainee r f).
Proof. intros H. apply preserves_upd_trainee_gen. intros; apply H; assumption. Qed.

Lemma preserves_alloc_trainee t : indep_trainees I -> preserves I (alloc_trainee t).
Proof. intros H w g HI. apply H, HI. Qed.

Lemma preserves_upd_group r f : indep_groups I -> preserves I (upd_group r f).
Proof. intros H. apply preserves_upd_group_gen. intros; apply H; assumption. Qed.

Lemma preserves_alloc_group x : indep_groups I -> preserves I (alloc_group x).
Proof. intros H w g HI. apply H, HI. Qed.

Lemma preserves_modify_state f : indep_state I -> preserves I (modify_state f).
Proof. intros H w g HI. apply H, HI. Qed.

Lemma preserves_append_log msg : indep_state I -> preserves I (append_log msg).
Proof. intros H w g HI. apply H, HI. Qed.

Lemma preserves_upd_company f : indep_state I -> preserves I (upd_company f).
Proof. intros H. apply preserves_upd_company_gen. intros; apply H; assumption. Qed.

(** Drawing moves the cursor and nothing else. *)
Lemma preserves_draw : indep_cursor I -> preserves I draw.
Proof. intros HI w g H. apply HI, H. Qed.

Lemma preserves_randint a b : indep_cursor I -> preserves I (randint a b).
Proof.
  intros HI. unfold randint. destruct (b <? a).
  - apply preserves_raise.
  - apply preserves_bind; [apply preserves_draw, HI|]. intros x. apply preserves_ret.
Qed.

Lemma preserves_random : indep_cursor I -> preserves I random.
Proof.
  intros HI. unfold random. apply preserves_bind; [apply preserves_draw, HI|].
  intros x. apply preserves_ret.
Qed.

Lemma returns_randint a b :
  indep_cursor I -> returns I (randint a b) (fun x => a <= x <= b).
Proof.
  intros HI w g H. unfold randint. destruct (b <? a) eqn:E; simpl; [exact H|].
  split; [apply HI, H|]. apply randint_range. lia.
Qed.
End Rules.

Lemma yields_bind {A B} (m : M A) (k : A -> M B) (Q : B -> Prop) :
  (forall a, yields (k a) Q) -> yields (bind m k) Q.
Proof.
  intros Hk w g b w' g'. unfold bind. destruct (m w g) as [a w1 g1|]; [|discriminate].
  apply Hk.
Qed.

Lemma yields_ret {A} (a : A) (Q : A -> Prop) : Q a -> yields (ret a) Q.
Proof. intros H w g b w' g' E. injection E as <- _ _. exact H. Qed.

Lemma yields_raise {A} e (Q : A -> Prop) : yields (raise e) Q.
Proof. intros w g b w' g' E. discriminate. Qed.

Create HintDb pres.
Create HintDb rets.

#[export] Hint Resolve preserves_get_world preserves_get_state preserves_get_trainee
  preserves_get_group preserves_get_company preserves_get_player
  preserves_draw preserves_randint preserves_random
  preserves_upd_trainee preserves_alloc_trainee preserves_upd_group
  preserves_alloc_group preserves_modify_state preserves_append_log
  preserves_upd_company : pres.
#[export] Hint Resolve returns_randint : rets.

(** One step through a computation whose invariant is to be shown: a
    bind keeps what is known of the value bound when a [rets] lemma tells
    it, and a branch is taken both ways. *)
Ltac pres_step :=
  cbv zeta;
  lazymatch goal with
  | |- preserves _ (bind _ _) =>
      first [ eapply preserves_bind_returns;
              [ solve [eauto with rets pres]
              | let x := fresh "x" in let Hx := fresh "Hx" in intros x Hx; cbv beta in Hx ]
            | apply preserves_bind; [|intro] ]
  | |- preserves _ (ret _) => apply preserves_ret
  | |- preserves _ (raise _) => apply preserves_raise
  | |- preserves _ (mapM _ _) => apply preserves_mapM; intro
  | |- preserves _ (forM_ _ _) => apply preserves_forM_; intro
  | |- preserves _ (filterM _ _) => apply preserves_filterM; intro
  | |- preserves _ (anyM _ _) => apply preserves_anyM; intro
  | |- preserves _ (repeatM _ _) => apply preserves_repeatM
  | |- preserves _ (if ?b then _ else _) => destruct b
  | |- preserves _ (match ?x with _ => _ end) => destruct x
  | |- preserves _ _ => solve [auto with pres]
  end.
Ltac pres := repeat pres_step.

Ltac yields_step :=
  cbv zeta;
  lazymatch goal with
  | |- yields (bind _ _) _ => apply yields_bind; intro
  | |- yields (ret _) _ => apply yields_ret
  | |- yields (raise _) _ => apply yields_raise
  | |- yields (if ?b then _ else _) _ => destruct b
  | |- yields (match ?x with _ => _ end) _ => destruct x
  end.

Lemma preserves_sample I {A} (pool : list A) k : indep_cursor I -> preserves I (sample pool k).
Proof.
  intros HI. revert pool. induction k as [|k IH]; intros pool; simpl; pres.
Qed.
#[export] Hint Resolve preserves_sample : pres.

(** * Trainee: bounded attributes *)

Lemma I_ok_groups : indep_groups I_ok.
Proof. intros w g v H. exact H. Qed.
Lemma I_ok_state : indep_state I_ok.
Proof. intros w g v H. exact H. Qed.
Lemma I_ok_cursor : indep_cursor I_ok.
Proof. intros w g H. exact H. Qed.
#[export] Hint Resolve I_ok_groups I_ok_state I_ok_cursor : pres.

Lemma ok_upd_trainee r f :
  (forall t, trainee_ok t -> trainee_ok (f t)) -> preserves I_ok (upd_trainee r f).
Proof.
  intros Hf. apply preserves_upd_trainee_gen. intros w g t H E.
  unfold I_ok, trainees_ok in *. simpl. apply Forall_insert; [exact H|].
  apply Hf. eapply Forall_lookup_1; eassumption.
Qed.

Lemma ok_alloc_trainee t : trainee_ok t -> preserves I_ok (alloc_trainee t).
Proof.
  intros Ht w g H. unfold I_ok, trainees_ok in *. simpl.
  apply Forall_app. split; [exact H|]. constructor; [exact Ht|constructor].
Qed.

Ltac ok_field := intros [? ? ? ? ? ? ? ? ? ?]; unfold trainee_ok; simpl; lia.

Lemma ok_train self stat intensity : preserves I_ok (train self stat intensity).
Proof. unfold train. pres; apply ok_upd_trainee; ok_field. Qed.

Lemma ok_rest self : preserves I_ok (rest self).
Proof. unfold rest. pres; apply ok_upd_trainee; ok_field. Qed.

Lemma ok_adjust_popularity self amount : preserves I_ok (adjust_popularity self amount).
Proof. unfold adjust_popularity. apply ok_upd_trainee; ok_field. Qed.

Lemma ok_adjust_relationship self amount : preserves I_ok (adjust_relationship self amount).
Proof. unfold adjust_relationship. apply ok_upd_trainee; ok_field. Qed.
#[export] Hint Resolve ok_train ok_rest ok_adjust_popularity ok_adjust_relationship : pres.

Lemma ok_calculate_power self : preserves I_ok (calculate_power self).
Proof. unfold calculate_power. pres. Qed.
#[export] Hint Resolve ok_calculate_power : pres.

Lemma ok_debut_effect self budget : preserves I_ok (debut_effect self budget).
Proof. unfold debut_effect. pres. Qed.

Lemma ok_outcome self p : preserves I_ok (outcome self p).
Proof. unfold outcome. pres. Qed.
#[export] Hint Resolve ok_debut_effect ok_outcome : pres.

Lemma ok_recruit_trainee name : preserves I_ok (recruit_trainee name).
Proof.
  unfold recruit_trainee. pres. apply ok_alloc_trainee. unfold trainee_ok; simpl; lia.
Qed.

Lemma ok_schedule_training trainee focus : preserves I_ok (schedule_training trainee focus).
Proof. unfold schedule_training. pres. Qed.

Lemma ok_plan_debut names concept budget : preserves I_ok (plan_debut names concept budget).
Proof. unfold plan_debut. pres. Qed.

Lemma ok_release_song group title budget : preserves I_ok (release_song group title budget).
Proof. unfold release_song. pres. Qed.

Lemma ok_promote group budget : preserves I_ok (promote group budget).
Proof. unfold promote. pres. Qed.

Lemma ok_update_finances amount : preserves I_ok (update_finances amount).
Proof. unfold update_finances. pres. Qed.
#[export] Hint Resolve ok_recruit_trainee ok_schedule_training ok_plan_debut ok_release_song
  ok_promote ok_update_finances : pres.

Lemma ok_monthly_evaluation : preserves I_ok monthly_evaluation.
Proof. unfold monthly_evaluation. pres. Qed.
#[export] Hint Resolve ok_monthly_evaluation : pres.

Lemma ok_advance_day : preserves I_ok advance_day.
Proof. unfold advance_day. pres. Qed.

Lemma ok_check_victory_or_defeat : preserves I_ok check_victory_or_defeat.
Proof. unfold check_victory_or_defeat. pres. Qed.

Lemma ok_handle_trainee_action choice focus : preserves I_ok (handle_trainee_action choice focus).
Proof. unfold handle_trainee_action. pres. Qed.

Lemma ok_handle_ceo_action choice inp : preserves I_ok (handle_ceo_action choice inp).
Proof. unfold handle_ceo_action. pres. Qed.

Lemma ok_random_event : preserves I_ok random_event.
Proof. unfold random_event. pres. all: apply ok_upd_trainee; ok_field. Qed.
#[export] Hint Resolve ok_advance_day ok_check_victory_or_defeat ok_handle_trainee_action
  ok_handle_ceo_action ok_random_event : pres.

Lemma ok_turn choice inp : preserves I_ok (turn choice inp).
Proof. unfold turn. pres. Qed.

Lemma ok_initialize_game name role : preserves I_ok (initialize_game name role).
Proof.
  unfold initialize_game. pres.
  all: apply ok_alloc_trainee; unfold trainee_ok; simpl; lia.
Qed.
#[export] Hint Resolve ok_turn ok_initialize_game : pres.

Lemma ok_play turns : preserves I_ok (play turns).
Proof. induction turns as [|[choice inp] turns IH]; simpl; pres. Qed.

Lemma ok_main name role turns : preserves I_ok (main name role turns).
Proof. unfold main. apply preserves_bind; [apply ok_initialize_game|]. intros _. apply ok_play. Qed.
#[export] Hint Resolve ok_play ok_main : pres.

(** C7.  Every operation keeps every trainee of the store within the
    ranges of the data model: whatever a call of [train], [rest],
    [adjust_popularity], [adjust_relationship] or of any of their callers
    does, and whether it returns or raises, afterwards every trainee has a
    stamina and a relationship in [0,100] and a popularity that is not
    negative.  [adjust_relationship] puts the relationship in [0,100] for
    any argument and any earlier value, and [adjust_popularity] leaves a
    popularity that is not negative. *)
Theorem trainee_ranges_invariant (w : World) (g : Rng) :
  (forall self x t,
      trainee_objs w !! self = Some t ->
      exists t', trainee_objs (res_world (adjust_relationship self x w g)) !! self = Some t' /\
                 0 <= Trainee.relationship t' <= 100) /\
  (forall self x t,
      trainee_objs w !! self = Some t ->
      exists t', trainee_objs (res_world (adjust_popularity self x w g)) !! self = Some t' /\
                 0 <= Trainee.popularity t') /\
  (trainees_ok w ->
   (forall self stat intensity, trainees_ok (res_world (train self stat intensity w g))) /\
   (forall self, trainees_ok (res_world (rest self w g))) /\
   (forall self x, trainees_ok (res_world (adjust_popularity self x w g))) /\
   (forall self x, trainees_ok (res_world (adjust_relationship self x w g))) /\
   (forall trainee focus, trainees_ok (res_world (schedule_training trainee focus w g))) /\
   (forall group budget, trainees_ok (res_world (debut_effect group budget w g))) /\
   (forall names concept budget, trainees_ok (res_world (plan_debut names concept budget w g))) /\
   (forall name, trainees_ok (res_world (recruit_trainee name w g))) /\
   trainees_ok (res_world (monthly_evaluation w g)) /\
   trainees_ok (res_world (advance_day w g)) /\
   (forall choice focus, trainees_ok (res_world (handle_trainee_action choice focus w g))) /\
   (forall choice inp, trainees_ok (res_world (handle_ceo_action choice inp w g))) /\
   trainees_ok (res_world (random_event w g)) /\
   (forall choice inp, trainees_ok (res_world (turn choice inp w g))) /\
   (forall name role turns, trainees_ok (res_world (main name role turns w g)))).
Proof.
  split; [|split].
  - intros self x t Ht. unfold adjust_relationship.
    rewrite (upd_trainee_run _ _ _ _ _ Ht). simpl.
    eexists. split; [eapply lookup_set_trainee, Ht|]. simpl. lia.
  - intros self x t Ht. unfold adjust_popularity.
    rewrite (upd_trainee_run _ _ _ _ _ Ht). simpl.
    eexists. split; [eapply lookup_set_trainee, Ht|]. simpl. lia.
  - intros Hok.
    repeat match goal with |- _ /\ _ => split end; intros;
      match goal with
      | |- trainees_ok (res_world (?m w g)) =>
          assert (Hp : preserves I_ok m) by auto with pres; exact (Hp w g Hok)
      end.
Qed.

Lemma trainee_ranges_invariant_witness :
  trainees_ok world_trainee /\
  trainees_ok (res_world (train 0%nat "vocal" 5 world_trainee rng_game)) /\
  trainees_ok (res_world (main "Neo" "Trainee" three_evaluations world_trainee rng_game)).
Proof.
  assert (H : trainees_ok world_trainee).
  { constructor; [unfold trainee_ok; simpl; lia|constructor]. }
  split; [exact H|].
  destruct (proj2 (proj2 (trainee_ranges_invariant world_trainee rng_game)) H)
    as (Htrain & _ & _ & _ & _ & _ & _ & _ & _ & _ & _ & _ & _ & _ & Hmain).
  split; [exact (Htrain 0%nat "vocal" 5)|exact (Hmain "Neo" "Trainee" three_evaluations)].
Defined.



(** * GameState: the clock *)

Lemma I_clock_trainees c : indep_trainees (I_clock c).
Proof. intros w g v H. exact H. Qed.
Lemma I_clock_groups c : indep_groups (I_clock c).
Proof. intros w g v H. exact H. Qed.
Lemma I_clock_cursor c : indep_cursor (I_clock c).
Proof. intros w g H. exact H. Qed.
#[export] Hint Resolve I_clock_trainees I_clock_groups I_clock_cursor : pres.

Lemma clock_upd_company c f : preserves (I_clock c) (upd_company f).
Proof. apply preserves_upd_company_gen. intros w g co H _. exact H. Qed.

Lemma clock_trainee_failures c f :
  preserves (I_clock c) (modify_state (fun s => GameState.set_trainee_failures (f s) s)).
Proof. apply preserves_modify_state_gen. intros w g H. exact H. Qed.
#[export] Hint Resolve clock_upd_company clock_trainee_failures : pres.

Lemma clock_monthly_evaluation c : preserves (I_clock c) monthly_evaluation.
Proof.
  unfold monthly_evaluation, update_finances, adjust_relationship, adjust_popularity. pres.
Qed.

Lemma character_live w r :
  wf_world w -> trainee_character (state w) = Some r -> is_Some (trainee_objs w !! r).
Proof.
  intros (_ & Hpl & _) Hr. unfold trainee_character in Hr.
  destruct (GameState.player (state w)) as [p|] eqn:Hp; [|discriminate].
  destruct (String.eqb (Player.role p) "Trainee"); [|discriminate].
  eapply Hpl; eauto.
Qed.

Lemma monthly_evaluation_returns w g :
  wf_world w -> exists msg w' g', monthly_evaluation w g = Ok msg w' g'.
Proof.
  intros Hwf. unfold monthly_evaluation.
  unfold bind at 1. unfold get_state at 1.
  destruct (trainee_character (state w)) as [r|] eqn:Hr.
  - destruct (character_live w r Hwf Hr) as [t Ht].
    erewrite bind_Ok by (apply get_trainee_run; exact Ht).
    destruct (220 + GameState.year (state w) * 10 <=? score t + Trainee.popularity t).
    + unfold adjust_relationship, adjust_popularity.
      erewrite bind_Ok by (apply upd_trainee_run; exact Ht).
      erewrite bind_Ok by (apply upd_trainee_run; simpl; eapply lookup_set_trainee, Ht).
      unfold ret. eauto.
    + unfold bind at 1. unfold modify_state at 1, modify_world at 1.
      erewrite bind_Ok by (apply randint_run; lia).
      unfold adjust_relationship.
      erewrite bind_Ok by (apply upd_trainee_run; simpl; exact Ht).
      unfold ret. eauto.
  - destruct Hwf as (Hco & _ & _).
    destruct (GameState.company (state w)) as [c|] eqn:Hc.
    + destruct (Hco c eq_refl) as [_ Hg].
      erewrite bind_Ok by (apply mapM_get_group_run; exact Hg).
      unfold update_finances.
      erewrite bind_Ok by (apply upd_company_run; exact Hc).
      unfold ret. eauto.
    + unfold ret. eauto.
Qed.

Lemma advance_day_within_month w g :
  GameState.day (state w) < 30 ->
  advance_day w g =
    Ok tt (set_state (GameState.set_day (GameState.day (state w) + 1) (state w)) w) g.
Proof.
  intros H. unfold advance_day, bind, modify_state, modify_world, get_state. simpl.
  destruct (30 <? GameState.day (state w) + 1) eqn:E; [lia|]. reflexivity.
Qed.

Lemma advance_day_rollover w g :
  30 <= GameState.day (state w) ->
  advance_day w g =
    (msg <- monthly_evaluation ;; append_log msg) (set_state (rollover (state w)) w) g.
Proof.
  intros H. unfold advance_day, bind at 1 2, modify_state at 1, modify_world at 1, get_state at 1.
  simpl.
  destruct (30 <? GameState.day (state w) + 1) eqn:E; [|lia].
  unfold bind at 1 2 3 4, modify_state at 1 2, modify_world at 1 2, get_state at 1. simpl.
  unfold rollover. simpl.
  destruct (12 <? GameState.month (state w) + 1); reflexivity.
Qed.

Lemma repeat_advance_day_within_month (n : nat) w g :
  GameState.day (state w) + Z.of_nat n <= 30 ->
  repeatM n advance_day w g =
    Ok tt (set_state (GameState.set_day (GameState.day (state w) + Z.of_nat n) (state w)) w) g.
Proof.
  revert w. induction n as [|n IH]; intros w H.
  - simpl. unfold ret. f_equal. destruct w as [ts gs [d m y p c tf lg]]. simpl.
    unfold set_state, GameState.set_day. simpl. do 2 f_equal. lia.
  - cbn [repeatM]. erewrite bind_Ok by (apply advance_day_within_month; lia).
    rewrite IH by (simpl; lia). destruct w as [ts gs [d m y p c tf lg]]. simpl.
    unfold set_state, GameState.set_day. simpl. do 3 f_equal. lia.
Qed.

Lemma wf_world_trainee : wf_world world_trainee.
Proof.
  split; [|split].
  - intros c Hc. injection Hc as <-. split; repeat constructor; eexists; reflexivity.
  - intros p r Hp Hr. injection Hp as <-. injection Hr as <-. eexists; reflexivity.
  - repeat constructor; eexists; reflexivity.
Qed.

(** C3.  [advance_day] adds one to the day; when the day passes 30 it
    resets the day to 1 and adds one to the month, resets the month to 1
    and adds one to the year when the month passes 12, and at every such
    month rollover calls [monthly_evaluation] once and appends its message
    to the log.  From day 1 of month 1, the first 29 of 30 calls only move
    the day, and the 30 calls together are one [monthly_evaluation] on day
    1 of month 2 followed by the append of its message: the game is then at
    day 1 of month 2 of the same year, and, the references of the game
    being live, the log is the old one with that one message added. *)
Theorem advance_day_calendar :
  (forall w g, GameState.day (state w) < 30 ->
     advance_day w g =
       Ok tt (set_state (GameState.set_day (GameState.day (state w) + 1) (state w)) w) g) /\
  (forall w g, 30 <= GameState.day (state w) ->
     advance_day w g =
       (msg <- monthly_evaluation ;; append_log msg) (set_state (rollover (state w)) w) g) /\
  (forall w g,
     GameState.day (state w) = 1 -> GameState.month (state w) = 1 ->
     let rolled := set_state (GameState.set_month 2 (GameState.set_day 1 (state w))) w in
     let after := res_world (repeatM 30 advance_day w g) in
     repeatM 29 advance_day w g = Ok tt (set_state (GameState.set_day 30 (state w)) w) g /\
     repeatM 30 advance_day w g = (msg <- monthly_evaluation ;; append_log msg) rolled g /\
     GameState.day (state after) = 1 /\
     GameState.month (state after) = 2 /\
     GameState.year (state after) = GameState.year (state w) /\
     (wf_world w ->
      exists msg w' g',
        monthly_evaluation rolled g = Ok msg w' g' /\
        repeatM 30 advance_day w g =
          Ok tt (set_state (GameState.set_message_log (GameState.message_log (state w) ++ [msg])
                                                      (state w')) w') g' /\
        GameState.message_log (state after) = GameState.message_log (state w) ++ [msg])).
Proof.
  split; [exact advance_day_within_month|]. split; [exact advance_day_rollover|].
  intros w g Hd Hm rolled after.
  assert (H29 : repeatM 29 advance_day w g =
                Ok tt (set_state (GameState.set_day 30 (state w)) w) g).
  { rewrite (repeat_advance_day_within_month 29) by (rewrite Hd; simpl; lia).
    rewrite Hd. reflexivity. }
  assert (H30 : repeatM 30 advance_day w g =
                (msg <- monthly_evaluation ;; append_log msg) rolled g).
  { change 30%nat with (29 + 1)%nat. rewrite repeatM_add.
    erewrite bind_Ok by exact H29. cbn [repeatM].
    unfold bind at 1. rewrite advance_day_rollover by (simpl; lia).
    assert (Hr : set_state (rollover (state (set_state (GameState.set_day 30 (state w)) w)))
                           (set_state (GameState.set_day 30 (state w)) w) = rolled).
    { unfold rolled, rollover. simpl. rewrite Hm. reflexivity. }
    rewrite Hr.
    destruct ((msg <- monthly_evaluation ;; append_log msg) rolled g) as [[] ? ?|? ? ?];
      reflexivity. }
  pose proof (clock_monthly_evaluation (clock (state rolled)) rolled g eq_refl) as Hclock.
  unfold I_clock in Hclock.
  split; [exact H29|]. split; [exact H30|].
  assert (Hafter : forall msg w' g', monthly_evaluation rolled g = Ok msg w' g' ->
            repeatM 30 advance_day w g =
            Ok tt (set_state (GameState.set_message_log (GameState.message_log (state w) ++ [msg])
                                                        (state w')) w') g').
  { intros msg w' g' E. rewrite H30. erewrite bind_Ok by exact E.
    rewrite E in Hclock. simpl in Hclock. injection Hclock as _ _ _ Hlog _.
    unfold append_log, modify_state, modify_world. rewrite Hlog. reflexivity. }
  unfold after.
  destruct (monthly_evaluation rolled g) as [msg w' g'|e w' g'] eqn:E.
  - rewrite (Hafter _ _ _ eq_refl). simpl in *. injection Hclock as Hd' Hm' Hy' Hl' _.
    repeat split; try assumption.
    intros _. exists msg, w', g'. repeat split.
  - rewrite H30. erewrite bind_Raise by exact E. simpl in *.
    injection Hclock as Hd' Hm' Hy' Hl' _. repeat split; try assumption.
    intros Hwf. exfalso.
    assert (Hwf' : wf_world rolled) by exact Hwf.
    destruct (monthly_evaluation_returns rolled g Hwf') as (m & w1 & g1 & E1). congruence.
Qed.

Lemma advance_day_calendar_witness :
  GameState.day (state world_trainee) = 1 /\
  GameState.month (state world_trainee) = 1 /\
  GameState.day (state (res_world (repeatM 30 advance_day world_trainee rng_game))) = 1 /\
  GameState.month (state (res_world (repeatM 30 advance_day world_trainee rng_game))) = 2 /\
  exists msg,
    GameState.message_log (state (res_world (repeatM 30 advance_day world_trainee rng_game))) =
      GameState.message_log (state world_trainee) ++ [msg].
Proof.
  split; [reflexivity|]. split; [reflexivity|].
  destruct (proj2 (proj2 advance_day_calendar) world_trainee rng_game eq_refl eq_refl)
    as (_ & _ & Hd & Hm & _ & Hlog).
  split; [exact Hd|]. split; [exact Hm|].
  destruct (Hlog wf_world_trainee) as (msg & _ & _ & _ & _ & E). exists msg. exact E.
Defined.

(** * GameState: verdicts *)

Lemma readonly_check_victory_or_defeat w0 g0 :
  preserves (I_same w0 g0) check_victory_or_defeat.
Proof. unfold check_victory_or_defeat. pres. Qed.

Lemma ceo_not_trainee s c : ceo_company s = Some c -> trainee_character s = None.
Proof.
  unfold ceo_company, trainee_character. destruct (GameState.player s) as [p|]; [|discriminate].
  destruct (String.eqb (Player.role p) "CEO") eqn:E; [|discriminate].
  apply String.eqb_eq in E. rewrite E. reflexivity.
Qed.

Lemma ceo_company_intro s p c :
  GameState.player s = Some p -> Player.role p = "CEO" -> GameState.company s = Some c ->
  ceo_company s = Some c.
Proof. intros Hp Hr Hc. unfold ceo_company. rewrite Hp, Hr. exact Hc. Qed.

Lemma ceo_company_company s c : ceo_company s = Some c -> GameState.company s = Some c.
Proof.
  unfold ceo_company. destruct (GameState.player s); [|discriminate].
  destruct (String.eqb _ _); [tauto|discriminate].
Qed.

Lemma trainee_character_intro s p r :
  GameState.player s = Some p -> Player.role p = "Trainee" -> Player.character p = Some r ->
  trainee_character s = Some r /\ ceo_company s = None.
Proof.
  intros Hp Hr Hc. unfold trainee_character, ceo_company. rewrite Hp, Hr. simpl.
  split; [exact Hc|reflexivity].
Qed.

Lemma check_victory_or_defeat_bankrupt w g p c :
  GameState.player (state w) = Some p -> Player.role p = "CEO" ->
  GameState.company (state w) = Some c -> Company.money c < -2000 ->
  check_victory_or_defeat w g =
    Ok (Some "Bankruptcy! Your company could not pay its bills.") w g.
Proof.
  intros Hp Hr Hc Hm. unfold check_victory_or_defeat.
  unfold bind at 1, get_state at 1. unfold bind at 1.
  rewrite (ceo_company_intro _ _ _ Hp Hr Hc).
  destruct (Company.money c <? -2000) eqn:E; [reflexivity|lia].
Qed.

Lemma check_victory_or_defeat_continue w g :
  wf_world w -> no_condition_fires w -> check_victory_or_defeat w g = Ok None w g.
Proof.
  intros Hwf (Hceo & Htr). unfold check_victory_or_defeat.
  unfold bind at 1, get_state at 1. unfold bind at 1.
  destruct (ceo_company (state w)) as [c|] eqn:Ec.
  - destruct (Hceo c eq_refl) as (Hmoney & Hpop & Hyear).
    destruct (Company.money c <? -2000) eqn:E1; [lia|].
    destruct Hwf as (Hco & _ & _).
    erewrite bind_Ok by (apply anyM_get_group_run, (Hco c (ceo_company_company _ _ Ec))).
    assert (Hex : existsb (fun grp => 300 <=? Group.popularity grp)
                          (groups_at w (Company.groups c)) = false).
    { induction Hpop as [|x xs Hx _ IH]; simpl; [reflexivity|].
      destruct (300 <=? Group.popularity x) eqn:E; [lia|exact IH]. }
    rewrite Hex. destruct (5 <? GameState.year (state w)) eqn:E2; [lia|].
    unfold ret at 1. rewrite (ceo_not_trainee _ _ Ec). reflexivity.
  - unfold ret at 1. destruct (trainee_character (state w)) as [r|] eqn:Er; [|reflexivity].
    destruct (character_live w r Hwf Er) as [t Ht].
    erewrite bind_Ok by (apply get_trainee_run; exact Ht).
    destruct (Htr r t eq_refl Ht) as (Hw & Hf & Hy).
    destruct ((200 <=? Trainee.popularity t) && (350 <=? score t)) eqn:E1.
    { exfalso. apply Hw. apply andb_true_iff in E1. lia. }
    destruct (3 <=? GameState.trainee_failures (state w)) eqn:E2; [lia|].
    destruct (5 <? GameState.year (state w)) eqn:E3; [lia|]. reflexivity.
Qed.

(** C4.  [check_victory_or_defeat] changes neither the world nor the
    generator, whatever it returns.  For a player with the CEO role and a
    company whose money is -2001 (or any amount below -2000) it returns the
    bankruptcy message whatever the groups, the reputation, the year and
    every other field are: bankruptcy is tested first.  When no condition
    of the list holds, in a game whose references are live, it returns
    [None]. *)
Theorem check_victory_or_defeat_bankruptcy_first :
  (forall w g,
     res_world (check_victory_or_defeat w g) = w /\ res_rng (check_victory_or_defeat w g) = g) /\
  (forall w g p c,
     GameState.player (state w) = Some p -> Player.role p = "CEO" ->
     GameState.company (state w) = Some c -> Company.money c = -2001 ->
     check_victory_or_defeat w g =
       Ok (Some "Bankruptcy! Your company could not pay its bills.") w g) /\
  (forall w g p c,
     GameState.player (state w) = Some p -> Player.role p = "CEO" ->
     GameState.company (state w) = Some c -> Company.money c < -2000 ->
     check_victory_or_defeat w g =
       Ok (Some "Bankruptcy! Your company could not pay its bills.") w g) /\
  (forall w g, wf_world w -> no_condition_fires w -> check_victory_or_defeat w g = Ok None w g).
Proof.
  split; [|split; [|split]].
  - intros w g. exact (readonly_check_victory_or_defeat w g w g (conj eq_refl eq_refl)).
  - intros w g p c Hp Hr Hc Hm. apply (check_victory_or_defeat_bankrupt w g p c Hp Hr Hc). lia.
  - exact check_victory_or_defeat_bankrupt.
  - exact check_victory_or_defeat_continue.
Qed.

Lemma check_victory_or_defeat_bankruptcy_first_witness :
  Group.popularity <$> group_objs world_bankrupt !! 0%nat = Some 999 /\
  GameState.year (state world_bankrupt) = 9 /\
  check_victory_or_defeat world_bankrupt rng_game =
    Ok (Some "Bankruptcy! Your company could not pay its bills.") world_bankrupt rng_game.
Proof.
  split; [reflexivity|]. split; [reflexivity|].
  exact (proj1 (proj2 check_victory_or_defeat_bankruptcy_first) world_bankrupt rng_game
               _ _ eq_refl eq_refl eq_refl eq_refl).
Defined.

(** C5.  For a player with the Trainee role whose character has
    popularity 200 and vocal, dance, rap, visual and charisma all 70, the
    score is 350 and [check_victory_or_defeat] returns the sensation
    message, whatever [trainee_failures], the year and the other fields
    are. *)
Theorem check_victory_or_defeat_sensation w g p r t :
  GameState.player (state w) = Some p -> Player.role p = "Trainee" ->
  Player.character p = Some r -> trainee_objs w !! r = Some t ->
  Trainee.popularity t = 200 ->
  Trainee.vocal t = 70 -> Trainee.dance t = 70 -> Trainee.rap t = 70 ->
  Trainee.visual t = 70 -> Trainee.charisma t = 70 ->
  score t = 350 /\
  check_victory_or_defeat w g = Ok (Some "You debuted and became a sensation!") w g.
Proof.
  intros Hp Hr Hc Ht Hpop Hv Hd Hra Hvi Hch.
  assert (Hs : score t = 350) by (unfold score; lia).
  split; [exact Hs|]. unfold check_victory_or_defeat.
  unfold bind at 1, get_state at 1. unfold bind at 1.
  destruct (trainee_character_intro _ _ _ Hp Hr Hc) as [E1 E2]. rewrite E2.
  unfold ret at 1. rewrite E1. erewrite bind_Ok by (apply get_trainee_run; exact Ht).
  rewrite Hpop, Hs. reflexivity.
Qed.

Lemma check_victory_or_defeat_sensation_witness :
  GameState.trainee_failures (state world_star) = 7 /\
  GameState.year (state world_star) = 9 /\
  check_victory_or_defeat world_star rng_game =
    Ok (Some "You debuted and became a sensation!") world_star rng_game.
Proof.
  split; [reflexivity|]. split; [reflexivity|].
  exact (proj2 (check_victory_or_defeat_sensation world_star rng_game _ 0%nat star
                  eq_refl eq_refl eq_refl eq_refl eq_refl eq_refl eq_refl eq_refl eq_refl
                  eq_refl)).
Defined.

(** * GameState: the monthly evaluation without a trainee *)

(** C6 fails on the code: the finance tick of [monthly_evaluation],
    commented as the one of the CEO mode, is guarded by [if self.company:]
    alone and lacks the role test that the CEO blocks of
    [check_victory_or_defeat] and [random_event] make.  With no player at
    all, so with neither role populated, a company with a group of
    popularity 10 is paid an income of 5, its money going from 5000 to
    5005, and the income report is returned, not the flavor message. *)
Lemma monthly_evaluation_no_player_pays_income :
  neither_role_populated (state world_no_player) /\
  res_value (monthly_evaluation world_no_player rng_zero) =
    Some "Monthly income report: earned 5 from active groups." /\
  Company.money <$> GameState.company (state world_no_player) = Some 5000 /\
  Company.money <$>
    GameState.company (state (res_world (monthly_evaluation world_no_player rng_zero)))
    = Some 5005.
Proof. repeat split. Qed.

(** X28.  What [monthly_evaluation] does below the trainee's branch.
    When the player is not a trainee with a character (no player, a
    Trainee role without a character, or any other role) and the game
    state has no company, it returns the flavor message and changes
    nothing.  When there is a company, the code pays the income without
    looking at the role: the halves of the groups' popularities
    (integer division) are added to the company's money, nothing else
    changes, and the income report is returned. *)
Theorem monthly_evaluation_without_trainee w g :
  trainee_character (state w) = None ->
  (GameState.company (state w) = None ->
   monthly_evaluation w g = Ok "The month rolls by without major events." w g) /\
  (forall c,
     GameState.company (state w) = Some c -> grefs_live w (Company.groups c) ->
     let income := sum (map (fun grp => Group.popularity grp / 2) (groups_at w (Company.groups c))) in
     monthly_evaluation w g =
       Ok ("Monthly income report: earned " +:+ str income +:+ " from active groups.")
          (set_state (GameState.set_company
                        (Some (Company.set_money (Company.money c + income) c)) (state w)) w)
          g).
Proof.
  intros Hr. split.
  - intros Hc. unfold monthly_evaluation, bind, get_state. rewrite Hr, Hc. reflexivity.
  - intros c Hc Hlive income. unfold monthly_evaluation.
    unfold bind at 1, get_state at 1. rewrite Hr, Hc.
    erewrite bind_Ok by (apply mapM_get_group_run; exact Hlive).
    unfold update_finances. erewrite bind_Ok by (apply upd_company_run; exact Hc).
    reflexivity.
Qed.

Lemma monthly_evaluation_without_trainee_witness :
  trainee_character (state empty_world) = None /\
  GameState.company (state empty_world) = None /\
  monthly_evaluation empty_world rng_zero =
    Ok "The month rolls by without major events." empty_world rng_zero /\
  res_value (monthly_evaluation world_bankrupt rng_zero) =
    Some "Monthly income report: earned 499 from active groups." /\
  Company.money <$>
    GameState.company (state (res_world (monthly_evaluation world_bankrupt rng_zero)))
    = Some (-2001 + 499).
Proof.
  split; [reflexivity|]. split; [reflexivity|].
  split; [exact (proj1 (monthly_evaluation_without_trainee empty_world rng_zero eq_refl) eq_refl)|].
  assert (Hlive : grefs_live world_bankrupt [0%nat]).
  { repeat constructor; eexists; reflexivity. }
  pose proof (proj2 (monthly_evaluation_without_trainee world_bankrupt rng_zero eq_refl)
                _ eq_refl Hlive) as E.
  cbv zeta in E. rewrite E. split; reflexivity.
Defined.

(** * Company: paying for an action *)

Lemma recruit_trainee_run name w g c :
  GameState.company (state w) = Some c ->
  exists v d r,
    20 <= v <= 40 /\ 20 <= d <= 40 /\ 20 <= r <= 40 /\
    recruit_trainee name w g =
      Ok (length (trainee_objs w))
         (mkWorld (trainee_objs w ++ [Trainee.mk name v d r 30 30 70 10 10 1])
                  (group_objs w)
                  (GameState.set_company
                     (Some (Company.set_money (Company.money c - 300)
                              (Company.set_trainees
                                 (Company.trainees c ++ [length (trainee_objs w)]) c)))
                     (state w)))
         (mkRng (source g) (S (S (S (cursor g))))).
Proof.
  intros Hc. do 3 eexists. split; [|split; [|split]]; cycle 3.
  - unfold recruit_trainee.
    erewrite bind_Ok by (apply get_company_run; exact Hc).
    erewrite bind_Ok by (apply randint_run; lia).
    erewrite bind_Ok by (apply randint_run; lia).
    erewrite bind_Ok by (apply randint_run; lia).
    unfold bind at 1, alloc_trainee at 1.
    erewrite bind_Ok by (apply upd_company_run; exact Hc).
    erewrite bind_Ok by (apply upd_company_run; reflexivity).
    reflexivity.
  - apply randint_range; lia.
  - apply randint_range; lia.
  - apply randint_range; lia.
Qed.

(** C1 fails on [recruit_trainee]: it has no affordability test.  With a
    company holding 100, less than the cost of 300, it still returns the
    new trainee, adds it to the store and to the roster, and takes the 300:
    the company is left with -200.  The menu does not test either: a CEO
    who recruits on each of the first seventeen days is told on the last
    that the money is now -100. *)
Theorem recruit_trainee_below_cost :
  (Company.money <$> GameState.company (state world_poor) = Some 100 /\
   res_value (recruit_trainee "Mina" world_poor rng_zero) = Some 0%nat /\
   trainee_objs (res_world (recruit_trainee "Mina" world_poor rng_zero)) =
     [Trainee.mk "Mina" 20 20 20 30 30 70 10 10 1] /\
   GameState.company (state (res_world (recruit_trainee "Mina" world_poor rng_zero))) =
     Some (Company.mk "IdoLab Entertainment" (-200) 10 [0%nat] [] [])) /\
  (let game := main "Boss" "CEO" recruit_script empty_world rng_half in
   res_value game = Some None /\
   GameState.day (state (res_world game)) = 18 /\
   last (GameState.message_log (state (res_world game))) =
     Some "Recruited Mina! Money now -100." /\
   Company.money <$> GameState.company (state (res_world game)) = Some (-100)).
Proof. vm_compute. repeat split. Qed.

Lemma schedule_training_soft_fail trainee focus w g c :
  GameState.company (state w) = Some c -> Company.money c < 150 ->
  schedule_training trainee focus w g = Ok "Not enough money for training." w g.
Proof.
  intros Hc Hm. unfold schedule_training.
  erewrite bind_Ok by (apply get_company_run; exact Hc).
  destruct (Company.money c <? 150) eqn:E; [reflexivity|lia].
Qed.

Lemma plan_debut_soft_fail names concept budget w g c :
  GameState.company (state w) = Some c -> Company.money c < budget ->
  plan_debut names concept budget w g = Ok "Not enough money to plan debut." w g.
Proof.
  intros Hc Hm. unfold plan_debut.
  erewrite bind_Ok by (apply get_company_run; exact Hc).
  destruct (Company.money c <? budget) eqn:E; [reflexivity|lia].
Qed.

Lemma release_song_soft_fail group title budget w g c :
  GameState.company (state w) = Some c -> Company.money c < budget ->
  release_song group title budget w g = Ok "Not enough funds for release." w g.
Proof.
  intros Hc Hm. unfold release_song.
  erewrite bind_Ok by (apply get_company_run; exact Hc).
  destruct (Company.money c <? budget) eqn:E; [reflexivity|lia].
Qed.

Lemma promote_soft_fail group budget w g c :
  GameState.company (state w) = Some c -> Company.money c < budget ->
  promote group budget w g = Ok "Not enough money for promotion." w g.
Proof.
  intros Hc Hm. unfold promote.
  erewrite bind_Ok by (apply get_company_run; exact Hc).
  destruct (Company.money c <? budget) eqn:E; [reflexivity|lia].
Qed.

Lemma I_money_trainees m : indep_trainees (I_money m).
Proof. intros w g v H. exact H. Qed.
Lemma I_money_groups m : indep_groups (I_money m).
Proof. intros w g v H. exact H. Qed.
Lemma I_money_cursor m : indep_cursor (I_money m).
Proof. intros w g H. exact H. Qed.
#[export] Hint Resolve I_money_trainees I_money_groups I_money_cursor : pres.

Lemma money_upd_company m f :
  (forall c, Company.money (f c) = Company.money c) -> preserves (I_money m) (upd_company f).
Proof.
  intros Hf. apply preserves_upd_company_gen. intros w g c H Hc.
  unfold I_money in *. rewrite Hc in H. simpl in *. rewrite Hf. exact H.
Qed.

Lemma money_train m self stat intensity : preserves (I_money m) (train self stat intensity).
Proof. unfold train. pres. Qed.

Lemma money_calculate_power m self : preserves (I_money m) (calculate_power self).
Proof. unfold calculate_power. pres. Qed.

Lemma money_debut_effect m self budget : preserves (I_money m) (debut_effect self budget).
Proof. unfold debut_effect, calculate_power, adjust_popularity. pres. Qed.

Lemma money_outcome m self p : preserves (I_money m) (outcome self p).
Proof. unfold outcome. pres. Qed.
#[export] Hint Resolve money_train money_calculate_power money_debut_effect money_outcome : pres.

(** What is left of a guarded action once the cost is taken keeps the
    company's money as it is. *)
Ltac money_kept c cost :=
  match goal with
  | |- context [res_world (?m ?w1 ?g)] =>
      let Hp := fresh "Hp" in
      assert (Hp : preserves (I_money (Company.money c - cost)) m)
        by (pres; apply money_upd_company; reflexivity);
      exact (Hp w1 g eq_refl)
  end.

Lemma schedule_training_charge trainee focus w g c :
  GameState.company (state w) = Some c -> 150 <= Company.money c ->
  Company.money <$> GameState.company (state (res_world (schedule_training trainee focus w g)))
    = Some (Company.money c - 150).
Proof.
  intros Hc Hm. unfold schedule_training.
  erewrite bind_Ok by (apply get_company_run; exact Hc).
  destruct (Company.money c <? 150) eqn:E; [lia|].
  erewrite bind_Ok by (apply upd_company_run; exact Hc).
  money_kept c 150.
Qed.

Lemma release_song_charge group title budget w g c :
  GameState.company (state w) = Some c -> budget <= Company.money c ->
  Company.money <$> GameState.company (state (res_world (release_song group title budget w g)))
    = Some (Company.money c - budget).
Proof.
  intros Hc Hm. unfold release_song.
  erewrite bind_Ok by (apply get_company_run; exact Hc).
  destruct (Company.money c <? budget) eqn:E; [lia|]. cbv zeta.
  erewrite bind_Ok by (apply upd_company_run; exact Hc).
  erewrite bind_Ok by (apply upd_company_run; reflexivity).
  money_kept c budget.
Qed.

Lemma promote_charge group budget w g c :
  GameState.company (state w) = Some c -> budget <= Company.money c ->
  Company.money <$> GameState.company (state (res_world (promote group budget w g)))
    = Some (Company.money c - budget).
Proof.
  intros Hc Hm. unfold promote.
  erewrite bind_Ok by (apply get_company_run; exact Hc).
  destruct (Company.money c <? budget) eqn:E; [lia|].
  erewrite bind_Ok by (apply upd_company_run; exact Hc).
  money_kept c budget.
Qed.

Lemma readonly_filterM_names w0 g0 names rs :
  preserves (I_same w0 g0)
    (filterM (fun r => t <- get_trainee r ;;
                       ret (existsb (String.eqb (Trainee.name t)) names)) rs).
Proof. pres. Qed.

Lemma plan_debut_charge names concept budget w g c :
  GameState.company (state w) = Some c -> budget <= Company.money c ->
  Company.money <$> GameState.company (state (res_world (plan_debut names concept budget w g)))
    = Some (Company.money c - budget) \/
  res_world (plan_debut names concept budget w g) = w.
Proof.
  intros Hc Hm. unfold plan_debut.
  erewrite bind_Ok by (apply get_company_run; exact Hc).
  destruct (Company.money c <? budget) eqn:E; [lia|].
  pose proof (readonly_filterM_names w g names (Company.trainees c) w g (conj eq_refl eq_refl))
    as Hro.
  destruct (filterM (fun r => t <- get_trainee r ;;
                              ret (existsb (String.eqb (Trainee.name t)) names))
                    (Company.trainees c) w g) as [selected w1 g1|e w1 g1] eqn:Ef;
    simpl in Hro; destruct Hro as [-> ->].
  2: { right. erewrite bind_Raise by exact Ef. reflexivity. }
  erewrite bind_Ok by exact Ef.
  destruct selected as [|r rs]; [right; reflexivity|left].
  unfold bind at 1, alloc_group at 1.
  erewrite bind_Ok by (apply upd_company_run; exact Hc).
  erewrite bind_Ok by (apply upd_company_run; reflexivity).
  money_kept c budget.
Qed.

(** X1.  The four guarded actions of the company fail softly: when the
    money is below the cost (150 for [schedule_training], the budget for
    [plan_debut], [release_song] and [promote]) they return their message,
    "Not enough money for training." for [schedule_training], and leave the
    world and the generator as they were. *)
Theorem guarded_actions_soft_fail w g c :
  GameState.company (state w) = Some c ->
  (Company.money c < 150 ->
   forall trainee focus,
     schedule_training trainee focus w g = Ok "Not enough money for training." w g) /\
  (forall budget,
     Company.money c < budget ->
     (forall names concept,
        plan_debut names concept budget w g = Ok "Not enough money to plan debut." w g) /\
     (forall group title,
        release_song group title budget w g = Ok "Not enough funds for release." w g) /\
     (forall group,
        promote group budget w g = Ok "Not enough money for promotion." w g)).
Proof.
  intros Hc. split.
  - intros Hm trainee focus. exact (schedule_training_soft_fail trainee focus w g c Hc Hm).
  - intros budget Hm. split; [|split].
    + intros names concept. exact (plan_debut_soft_fail names concept budget w g c Hc Hm).
    + intros group title. exact (release_song_soft_fail group title budget w g c Hc Hm).
    + intros group. exact (promote_soft_fail group budget w g c Hc Hm).
Qed.

Lemma guarded_actions_soft_fail_witness :
  schedule_training 0%nat "vocal" world_poor rng_game =
    Ok "Not enough money for training." world_poor rng_game /\
  promote 0%nat 500 world_poor rng_game =
    Ok "Not enough money for promotion." world_poor rng_game.
Proof.
  destruct (guarded_actions_soft_fail world_poor rng_game _ eq_refl) as [Htrain Hbudget].
  split; [exact (Htrain eq_refl 0%nat "vocal")|].
  exact (proj2 (proj2 (Hbudget 500 eq_refl)) 0%nat).
Defined.

(** X2.  When the money covers the cost, the guarded actions take
    exactly the cost from the company's money, whatever happens next:
    [schedule_training] takes 150, [release_song] and [promote] the budget,
    and [plan_debut] the budget unless it stops before the debut (no
    trainee selected), leaving the world as it was. *)
Theorem guarded_actions_charge w g c :
  GameState.company (state w) = Some c ->
  (150 <= Company.money c ->
   forall trainee focus,
     Company.money <$>
       GameState.company (state (res_world (schedule_training trainee focus w g)))
     = Some (Company.money c - 150)) /\
  (forall budget,
     budget <= Company.money c ->
     (forall group title,
        Company.money <$>
          GameState.company (state (res_world (release_song group title budget w g)))
        = Some (Company.money c - budget)) /\
     (forall group,
        Company.money <$> GameState.company (state (res_world (promote group budget w g)))
        = Some (Company.money c - budget)) /\
     (forall names concept,
        Company.money <$>
          GameState.company (state (res_world (plan_debut names concept budget w g)))
        = Some (Company.money c - budget) \/
        res_world (plan_debut names concept budget w g) = w)).
Proof.
  intros Hc. split.
  - intros Hm trainee focus. exact (schedule_training_charge trainee focus w g c Hc Hm).
  - intros budget Hm. split; [|split].
    + intros group title. exact (release_song_charge group title budget w g c Hc Hm).
    + intros group. exact (promote_charge group budget w g c Hc Hm).
    + intros names concept. exact (plan_debut_charge names concept budget w g c Hc Hm).
Qed.

Lemma guarded_actions_charge_witness :
  Company.money <$>
    GameState.company (state (res_world (schedule_training 0%nat "vocal" world_trainee rng_game)))
  = Some (5000 - 150).
Proof.
  exact (proj1 (guarded_actions_charge world_trainee rng_game _ eq_refl)
               ltac:(discriminate) 0%nat "vocal").
Defined.

(** * Random events *)

Lemma float_lt_exclusive (roll : float) :
  ~ (float_lt roll lit_0_08 = true /\ float_lt lit_0_92 roll = true).
Proof.
  destruct roll as [n e]. unfold float_lt, lit_0_08, lit_0_92. cbn [fnum fexp].
  rewrite !Z.ltb_lt. intros [H1 H2].
  assert (Hp : 0 < 2 ^ Z.of_N e) by (apply Z.pow_pos_nonneg; lia).
  change (2 ^ Z.of_N 56) with 72057594037927936 in H1.
  change (2 ^ Z.of_N 53) with 9007199254740992 in H2.
  nia.
Qed.

(** A roll of the band [0.08, 0.92], read on the reals, takes neither
    branch. *)
Lemma band_no_event (k : Z) :
  8 * 2 ^ 53 <= 100 * k <= 92 * 2 ^ 53 ->
  float_lt (Float k 53) lit_0_08 = false /\ float_lt lit_0_92 (Float k 53) = false.
Proof.
  unfold float_lt, lit_0_08, lit_0_92. cbn [fnum fexp].
  change (2 ^ Z.of_N 56) with 72057594037927936.
  change (2 ^ Z.of_N 53) with 9007199254740992.
  change (2 ^ 53) with 9007199254740992.
  rewrite !Z.ltb_ge. lia.
Qed.

Lemma random_event_no_event w g :
  float_lt (event_roll g) lit_0_08 = false -> float_lt lit_0_92 (event_roll g) = false ->
  random_event w g = Ok None w (mkRng (source g) (S (cursor g))).
Proof.
  intros H1 H2. unfold random_event.
  unfold bind at 1, random at 1, bind at 1, draw at 1, ret at 1.
  fold (event_roll g). rewrite H1. unfold bind at 1, ret at 1. rewrite H2. reflexivity.
Qed.

Lemma random_event_one_branch w g msg w' g' :
  random_event w g = Ok (Some msg) w' g' ->
  (float_lt (event_roll g) lit_0_08 = true /\ float_lt lit_0_92 (event_roll g) = false /\
   negative_event msg) \/
  (float_lt (event_roll g) lit_0_08 = false /\ float_lt lit_0_92 (event_roll g) = true /\
   positive_event msg).
Proof.
  unfold random_event.
  unfold bind at 1, random at 1, bind at 1, draw at 1, ret at 1.
  fold (event_roll g). set (roll := event_roll g). set (g1 := mkRng _ _).
  destruct (float_lt roll lit_0_08) eqn:E1.
  - assert (E2 : float_lt lit_0_92 roll = false).
    { destruct (float_lt lit_0_92 roll) eqn:E; [|reflexivity].
      exfalso. apply (float_lt_exclusive roll). auto. }
    rewrite E2. unfold bind at 1.
    match goal with |- match ?m w g1 with _ => _ end = _ -> _ =>
      assert (Hy : yields m (fun v => match v with Some e => negative_event e | None => True end));
      [|destruct (m w g1) as [[e|] w1 g2|] eqn:En] end.
    { repeat yields_step; try exact I;
        first [eexists; left; reflexivity | eexists; right; reflexivity]. }
    + intros E. injection E as <- _ _. left. repeat split. exact (Hy _ _ _ _ _ En).
    + discriminate.
    + discriminate.
  - unfold bind at 1, ret at 1. destruct (float_lt lit_0_92 roll) eqn:E2; [|discriminate].
    match goal with |- ?m w g1 = _ -> _ =>
      assert (Hy : yields m (fun v => match v with Some e => positive_event e | None => True end))
    end.
    { repeat yields_step; try exact I;
        first [do 2 eexists; left; reflexivity | eexists; exists ""; right; reflexivity]. }
    intros E. right. repeat split. exact (Hy _ _ _ _ _ E).
Qed.

(** C9.  When the roll is neither below 0.08 nor above 0.92,
    [random_event] returns [None] and leaves the world as it was, one draw
    being taken from the generator; every roll of the closed band
    [0.08, 0.92] is such a roll.  No roll is both below 0.08 and above
    0.92, and an event message, when one is returned, is either a negative
    one after a roll below 0.08 or a positive one after a roll above 0.92:
    a call produces at most one message, of one branch. *)
Theorem random_event_band :
  (forall w g,
     float_lt (event_roll g) lit_0_08 = false -> float_lt lit_0_92 (event_roll g) = false ->
     random_event w g = Ok None w (mkRng (source g) (S (cursor g)))) /\
  (forall k,
     8 * 2 ^ 53 <= 100 * k <= 92 * 2 ^ 53 ->
     float_lt (Float k 53) lit_0_08 = false /\ float_lt lit_0_92 (Float k 53) = false) /\
  (forall roll, ~ (float_lt roll lit_0_08 = true /\ float_lt lit_0_92 roll = true)) /\
  (forall w g msg w' g',
     random_event w g = Ok (Some msg) w' g' ->
     (float_lt (event_roll g) lit_0_08 = true /\ float_lt lit_0_92 (event_roll g) = false /\
      negative_event msg) \/
     (float_lt (event_roll g) lit_0_08 = false /\ float_lt lit_0_92 (event_roll g) = true /\
      positive_event msg)).
Proof.
  split; [exact random_event_no_event|].
  split; [exact band_no_event|].
  split; [exact float_lt_exclusive|exact random_event_one_branch].
Qed.

Lemma random_event_band_witness :
  event_roll rng_half = Float (2 ^ 52) 53 /\
  random_event world_trainee rng_half = Ok None world_trainee (mkRng (source rng_half) 1).
Proof.
  split; [reflexivity|].
  exact (proj1 random_event_band world_trainee rng_half eq_refl eq_refl).
Defined.

(** * Trainee mode: evaluations and the failure count *)

Lemma handle_trainee_action_evaluation focus w g p r t :
  GameState.player (state w) = Some p -> Player.character p = Some r ->
  trainee_objs w !! r = Some t ->
  exists d,
    -10 <= d <= 25 /\
    let score := score t + d in
    let threshold := 210 + GameState.year (state w) * 10 in
    let g' := mkRng (source g) (S (cursor g)) in
    handle_trainee_action 4 focus w g =
      if threshold <=? score then
        Ok ("Evaluation success! Score " +:+ str score +:+ " / " +:+ str threshold
            +:+ ". Popularity +10.")
           (after_passed_evaluation r t w) g'
      else
        Ok ("Evaluation tough. Score " +:+ str score +:+ " / " +:+ str threshold
            +:+ ". Failure count " +:+ str (GameState.trainee_failures (state w) + 1) +:+ ".")
           (after_failed_evaluation r t w) g'.
Proof.
  intros Hp Hc Ht. exists (-10 + source g (cursor g) mod (25 - -10 + 1)).
  split; [apply randint_range; lia|]. cbv zeta.
  unfold handle_trainee_action. unfold bind at 1, get_state at 1. rewrite Hp, Hc.
  cbn [Z.eqb Pos.eqb].
  erewrite bind_Ok by (apply get_trainee_run; exact Ht).
  erewrite bind_Ok by (apply randint_run; lia).
  destruct (210 + GameState.year (state w) * 10 <=?
            score t + (-10 + source g (cursor g) mod (25 - -10 + 1))).
  - unfold adjust_popularity, adjust_relationship.
    erewrite bind_Ok by (apply upd_trainee_run; exact Ht).
    erewrite bind_Ok by (apply upd_trainee_run; simpl; eapply lookup_set_trainee, Ht).
    unfold ret, after_passed_evaluation, set_trainee_objs. simpl.
    rewrite list_insert_insert_eq. reflexivity.
  - unfold bind at 1, modify_state at 1, modify_world at 1.
    unfold adjust_relationship.
    erewrite bind_Ok by (apply upd_trainee_run; simpl; exact Ht).
    reflexivity.
Qed.

Lemma after_failed_evaluation_effect r t w :
  GameState.trainee_failures (state (after_failed_evaluation r t w)) =
    GameState.trainee_failures (state w) + 1 /\
  (trainee_objs w !! r = Some t ->
   exists t', trainee_objs (after_failed_evaluation r t w) !! r = Some t' /\
              Trainee.relationship t' = Z.max 0 (Z.min 100 (Trainee.relationship t - 5)) /\
              (5 <= Trainee.relationship t <= 100 ->
               Trainee.relationship t' = Trainee.relationship t - 5)).
Proof.
  split; [reflexivity|]. intros Ht. eexists.
  split; [eapply lookup_set_trainee, Ht|]. simpl. split; lia.
Qed.

Lemma monthly_evaluation_trainee_run w g p r t :
  GameState.player (state w) = Some p -> Player.role p = "Trainee" ->
  Player.character p = Some r -> trainee_objs w !! r = Some t ->
  exists penalty,
    5 <= penalty <= 10 /\
    let score := score t + Trainee.popularity t in
    let threshold := 220 + GameState.year (state w) * 10 in
    monthly_evaluation w g =
      if threshold <=? score then
        let t1 := Trainee.set_relationship (Z.max 0 (Z.min 100 (Trainee.relationship t + 5))) t in
        Ok ("Monthly evaluation passed! Score " +:+ str score +:+ " / " +:+ str threshold
            +:+ ". Relationship +5.")
           (set_trainee_objs
              (<[r := Trainee.set_popularity (Z.max 0 (Trainee.popularity t1 + 5)) t1]>
                 (trainee_objs w)) w)
           g
      else
        Ok ("Evaluation failed. Score " +:+ str score +:+ " / " +:+ str threshold
            +:+ ". Relationship -" +:+ str penalty +:+ ".")
           (mkWorld
              (<[r := Trainee.set_relationship
                        (Z.max 0 (Z.min 100 (Trainee.relationship t + - penalty))) t]>
                 (trainee_objs w))
              (group_objs w)
              (GameState.set_trainee_failures (GameState.trainee_failures (state w) + 1) (state w)))
           (mkRng (source g) (S (cursor g))).
Proof.
  intros Hp Hr Hc Ht. exists (5 + source g (cursor g) mod (10 - 5 + 1)).
  split; [apply randint_range; lia|]. cbv zeta. unfold monthly_evaluation.
  unfold bind at 1, get_state at 1.
  rewrite (proj1 (trainee_character_intro _ _ _ Hp Hr Hc)).
  erewrite bind_Ok by (apply get_trainee_run; exact Ht).
  destruct (220 + GameState.year (state w) * 10 <=? score t + Trainee.popularity t) eqn:E.
  - unfold adjust_relationship, adjust_popularity.
    erewrite bind_Ok by (apply upd_trainee_run; exact Ht).
    erewrite bind_Ok by (apply upd_trainee_run; simpl; eapply lookup_set_trainee, Ht).
    unfold ret, set_trainee_objs. simpl. rewrite list_insert_insert_eq. reflexivity.
  - unfold bind at 1, modify_state at 1, modify_world at 1.
    erewrite bind_Ok by (apply randint_run; lia).
    unfold adjust_relationship.
    erewrite bind_Ok by (apply upd_trainee_run; simpl; exact Ht).
    reflexivity.
Qed.

Lemma monthly_evaluation_trainee w g p r t :
  GameState.player (state w) = Some p -> Player.role p = "Trainee" ->
  Player.character p = Some r -> trainee_objs w !! r = Some t ->
  let score := score t + Trainee.popularity t in
  let threshold := 220 + GameState.year (state w) * 10 in
  (threshold <= score ->
   GameState.trainee_failures (state (res_world (monthly_evaluation w g))) =
     GameState.trainee_failures (state w)) /\
  (score < threshold ->
   GameState.trainee_failures (state (res_world (monthly_evaluation w g))) =
     GameState.trainee_failures (state w) + 1).
Proof.
  intros Hp Hr Hc Ht. cbv zeta.
  destruct (monthly_evaluation_trainee_run w g p r t Hp Hr Hc Ht) as (pen & _ & E).
  cbv zeta in E. rewrite E.
  destruct (220 + GameState.year (state w) * 10 <=? score t + Trainee.popularity t) eqn:E1;
    split; intros; try lia; reflexivity.
Qed.

Lemma failed_evaluation_step focus w g p r t :
  GameState.player (state w) = Some p -> Player.character p = Some r ->
  trainee_objs w !! r = Some t ->
  score t + 25 < 210 + GameState.year (state w) * 10 ->
  exists msg,
    handle_trainee_action 4 focus w g =
      Ok msg (after_failed_evaluation r t w) (mkRng (source g) (S (cursor g))).
Proof.
  intros Hp Hc Ht Hs.
  destruct (handle_trainee_action_evaluation focus w g p r t Hp Hc Ht) as (d & Hd & E).
  cbv zeta in E. rewrite E.
  destruct (210 + GameState.year (state w) * 10 <=? score t + d) eqn:E1; [lia|]. eauto.
Qed.

Lemma three_failed_evaluations f1 f2 f3 w g p r t :
  GameState.player (state w) = Some p -> Player.role p = "Trainee" ->
  Player.character p = Some r -> trainee_objs w !! r = Some t ->
  score t + 25 < 210 + GameState.year (state w) * 10 ->
  Trainee.popularity t < 200 ->
  GameState.trainee_failures (state w) = 0 ->
  exists w' g',
    (handle_trainee_action 4 f1 ;; handle_trainee_action 4 f2 ;;
     handle_trainee_action 4 f3 ;; check_victory_or_defeat) w g =
      Ok (Some "You were cut after repeated failed evaluations.") w' g' /\
    GameState.trainee_failures (state w') = 3.
Proof.
  intros Hp Hr Hc Ht Hs Hpop Hf.
  destruct (failed_evaluation_step f1 w g p r t Hp Hc Ht Hs) as (m1 & E1).
  erewrite bind_Ok by exact E1.
  set (w1 := after_failed_evaluation r t w).
  set (t1 := Trainee.set_relationship (Z.max 0 (Z.min 100 (Trainee.relationship t + -5))) t).
  assert (Ht1 : trainee_objs w1 !! r = Some t1) by (eapply lookup_set_trainee, Ht).
  destruct (failed_evaluation_step f2 w1 (mkRng (source g) (S (cursor g))) p r t1 Hp Hc Ht1 Hs)
    as (m2 & E2).
  erewrite bind_Ok by exact E2.
  set (w2 := after_failed_evaluation r t1 w1).
  set (t2 := Trainee.set_relationship (Z.max 0 (Z.min 100 (Trainee.relationship t1 + -5))) t1).
  assert (Ht2 : trainee_objs w2 !! r = Some t2) by (eapply lookup_set_trainee, Ht1).
  destruct (failed_evaluation_step f3 w2 (mkRng (source g) (S (S (cursor g)))) p r t2 Hp Hc Ht2 Hs)
    as (m3 & E3).
  erewrite bind_Ok by exact E3.
  set (w3 := after_failed_evaluation r t2 w2).
  set (t3 := Trainee.set_relationship (Z.max 0 (Z.min 100 (Trainee.relationship t2 + -5))) t2).
  assert (Ht3 : trainee_objs w3 !! r = Some t3) by (eapply lookup_set_trainee, Ht2).
  do 2 eexists. split.
  - unfold check_victory_or_defeat. unfold bind at 1, get_state at 1. unfold bind at 1.
    destruct (trainee_character_intro (state w3) p r Hp Hr Hc) as [Et Ec]. rewrite Ec.
    unfold ret at 1. rewrite Et.
    erewrite bind_Ok by (apply get_trainee_run; exact Ht3).
    change (Trainee.popularity t3) with (Trainee.popularity t).
    destruct (200 <=? Trainee.popularity t) eqn:E; [lia|]. cbn [andb].
    change (GameState.trainee_failures (state w3))
      with (GameState.trainee_failures (state w) + 1 + 1 + 1).
    rewrite Hf. reflexivity.
  - change (GameState.trainee_failures (state w3))
      with (GameState.trainee_failures (state w) + 1 + 1 + 1).
    rewrite Hf. reflexivity.
Qed.

(** C10.  The daily action "Participate in evaluation"
    ([handle_trainee_action] with choice 4) compares the trainee's score
    plus a draw from -10..25 with 210 + 10 * year.  On success it raises
    popularity by 10 and relationship by 5; on failure it adds one to
    [trainee_failures], reported in its message, and lowers the
    relationship by 5 through [adjust_relationship] (exactly 5 from a
    relationship of 5..100, never below 0).  The monthly evaluation counts
    failures too, but against score plus popularity and 220 + 10 * year.
    Hence three daily evaluations of a trainee whose score is more than 25
    short of the daily threshold end the game with the cut message without
    any monthly evaluation: so does a new trainee-mode game after three
    turns, on day 4 of month 1. *)
Theorem daily_evaluation_counts_failures :
  (forall focus w g p r t,
     GameState.player (state w) = Some p -> Player.character p = Some r ->
     trainee_objs w !! r = Some t ->
     exists d,
       -10 <= d <= 25 /\
       let score := score t + d in
       let threshold := 210 + GameState.year (state w) * 10 in
       let g' := mkRng (source g) (S (cursor g)) in
       handle_trainee_action 4 focus w g =
         if threshold <=? score then
           Ok ("Evaluation success! Score " +:+ str score +:+ " / " +:+ str threshold
               +:+ ". Popularity +10.")
              (after_passed_evaluation r t w) g'
         else
           Ok ("Evaluation tough. Score " +:+ str score +:+ " / " +:+ str threshold
               +:+ ". Failure count " +:+ str (GameState.trainee_failures (state w) + 1) +:+ ".")
              (after_failed_evaluation r t w) g') /\
  (forall r t w,
     GameState.trainee_failures (state (after_failed_evaluation r t w)) =
       GameState.trainee_failures (state w) + 1 /\
     (trainee_objs w !! r = Some t ->
      exists t', trainee_objs (after_failed_evaluation r t w) !! r = Some t' /\
                 Trainee.relationship t' = Z.max 0 (Z.min 100 (Trainee.relationship t - 5)) /\
                 (5 <= Trainee.relationship t <= 100 ->
                  Trainee.relationship t' = Trainee.relationship t - 5))) /\
  (forall w g p r t,
     GameState.player (state w) = Some p -> Player.role p = "Trainee" ->
     Player.character p = Some r -> trainee_objs w !! r = Some t ->
     let score := score t + Trainee.popularity t in
     let threshold := 220 + GameState.year (state w) * 10 in
     (threshold <= score ->
      GameState.trainee_failures (state (res_world (monthly_evaluation w g))) =
        GameState.trainee_failures (state w)) /\
     (score < threshold ->
      GameState.trainee_failures (state (res_world (monthly_evaluation w g))) =
        GameState.trainee_failures (state w) + 1)) /\
  (forall f1 f2 f3 w g p r t,
     GameState.player (state w) = Some p -> Player.role p = "Trainee" ->
     Player.character p = Some r -> trainee_objs w !! r = Some t ->
     score t + 25 < 210 + GameState.year (state w) * 10 ->
     Trainee.popularity t < 200 ->
     GameState.trainee_failures (state w) = 0 ->
     exists w' g',
       (handle_trainee_action 4 f1 ;; handle_trainee_action 4 f2 ;;
        handle_trainee_action 4 f3 ;; check_victory_or_defeat) w g =
         Ok (Some "You were cut after repeated failed evaluations.") w' g' /\
       GameState.trainee_failures (state w') = 3) /\
  (let game := main "Neo" "Trainee" three_evaluations empty_world rng_game in
   res_value game = Some (Some "You were cut after repeated failed evaluations.") /\
   GameState.day (state (res_world game)) = 4 /\
   GameState.month (state (res_world game)) = 1 /\
   GameState.trainee_failures (state (res_world game)) = 3 /\
   GameState.message_log (state (res_world game)) =
     ["Evaluation tough. Score 170 / 220. Failure count 1.";
      "Evaluation tough. Score 168 / 220. Failure count 2.";
      "Evaluation tough. Score 166 / 220. Failure count 3."]).
Proof.
  split; [exact handle_trainee_action_evaluation|].
  split; [exact after_failed_evaluation_effect|].
  split; [exact monthly_evaluation_trainee|].
  split; [exact three_failed_evaluations|].
  vm_compute. repeat split.
Qed.

Lemma daily_evaluation_counts_failures_witness :
  score neo + 25 < 210 + GameState.year (state world_trainee) * 10 /\
  exists w' g',
    (handle_trainee_action 4 "" ;; handle_trainee_action 4 "" ;;
     handle_trainee_action 4 "" ;; check_victory_or_defeat) world_trainee rng_game =
      Ok (Some "You were cut after repeated failed evaluations.") w' g' /\
    GameState.trainee_failures (state w') = 3.
Proof.
  split; [reflexivity|].
  exact (proj1 (proj2 (proj2 (proj2 daily_evaluation_counts_failures)))
           "" "" "" world_trainee rng_game _ 0%nat neo
           eq_refl eq_refl eq_refl eq_refl eq_refl eq_refl eq_refl).
Defined.

(** * Group: the debut *)

Lemma mapM_get_trainee_run {B} (f : Trainee.t -> B) rs w g :
  trefs_live w rs ->
  mapM (fun r => t <- get_trainee r ;; ret (f t)) rs w g = Ok (map f (trainees_at w rs)) w g.
Proof.
  unfold trefs_live, trainees_at. induction 1 as [|r rs [x Hx] _ IH]; simpl; [reflexivity|].
  unfold bind at 1. unfold bind at 1. rewrite (get_trainee_run _ _ _ _ Hx). unfold ret at 1.
  unfold bind at 1. rewrite IH. rewrite Hx. reflexivity.
Qed.

Lemma forM_adjust_popularity_run amount rs w g :
  trefs_live w rs ->
  forM_ rs (fun m => adjust_popularity m amount) w g =
    Ok tt (set_trainee_objs (fold_left (bump_popularity amount) rs (trainee_objs w)) w) g.
Proof.
  revert w. induction rs as [|r rs IH]; intros w Hlive.
  - destruct w; reflexivity.
  - inversion Hlive as [|? ? [t Ht] Hrest]; subst. cbn [forM_ fold_left].
    unfold adjust_popularity at 1.
    erewrite bind_Ok by (apply upd_trainee_run; exact Ht).
    assert (Hb : bump_popularity amount (trainee_objs w) r =
                 <[r := Trainee.set_popularity (Z.max 0 (Trainee.popularity t + amount)) t]>
                   (trainee_objs w))
      by (unfold bump_popularity; rewrite Ht; reflexivity).
    rewrite Hb, IH.
    + reflexivity.
    + unfold trefs_live in *. eapply Forall_impl; [exact Hrest|]. intros r' Hr'. simpl.
      apply lookup_lt_is_Some. rewrite length_insert. apply lookup_lt_is_Some, Hr'.
Qed.

(** X3.  [debut_effect(budget)] on a group whose members are live
    returns pop_gain = power // 5 + budget // 10 + d, where power is the
    members' average score (integer division) plus a chemistry bonus of
    0..15 and d is drawn from -10..15; it adds pop_gain to the group's
    popularity and calls [adjust_popularity(pop_gain // 2)] on each member
    in turn. *)
Theorem debut_effect_formula self budget w g grp :
  group_objs w !! self = Some grp -> trefs_live w (Group.members grp) ->
  exists chemistry_bonus d,
    0 <= chemistry_bonus <= 15 /\ -10 <= d <= 15 /\
    let member_power :=
      sum (map score (trainees_at w (Group.members grp)))
      / Z.max (Z.of_nat (length (Group.members grp))) 1 in
    let debut_pop := (member_power + chemistry_bonus) / 5 + budget / 10 + d in
    debut_effect self budget w g =
      Ok debut_pop
         (mkWorld (fold_left (bump_popularity (debut_pop / 2)) (Group.members grp)
                             (trainee_objs w))
                  (<[self := Group.set_popularity (Group.popularity grp + debut_pop) grp]>
                     (group_objs w))
                  (state w))
         (mkRng (source g) (S (S (cursor g)))).
Proof.
  intros Hg Hlive.
  exists (0 + source g (cursor g) mod (15 - 0 + 1)),
         (-10 + source g (S (cursor g)) mod (15 - -10 + 1)).
  split; [apply randint_range; lia|]. split; [apply randint_range; lia|].
  cbv zeta. unfold debut_effect, calculate_power.
  erewrite bind_Ok.
  2: { erewrite bind_Ok by (apply get_group_run; exact Hg).
       erewrite bind_Ok by (apply mapM_get_trainee_run; exact Hlive).
       erewrite bind_Ok by (apply randint_run; lia). reflexivity. }
  erewrite bind_Ok by (apply randint_run; lia). cbv zeta.
  erewrite bind_Ok by (apply upd_group_run; exact Hg).
  erewrite bind_Ok by (apply get_group_run; simpl; apply list_lookup_insert_eq;
                       eapply lookup_lt_Some, Hg).
  simpl Group.members.
  erewrite bind_Ok by (apply forM_adjust_popularity_run; exact Hlive). reflexivity.
Qed.

Lemma debut_effect_formula_witness :
  exists debut_pop,
    120 <= debut_pop <= 148 /\
    res_value (debut_effect 0%nat 1000 world_trio rng_game) = Some debut_pop /\
    Group.popularity <$> group_objs (res_world (debut_effect 0%nat 1000 world_trio rng_game))
                           !! 0%nat
      = Some debut_pop.
Proof.
  assert (Hlive : trefs_live world_trio [0%nat; 1%nat; 2%nat]).
  { repeat constructor; eexists; reflexivity. }
  destruct (debut_effect_formula 0%nat 1000 world_trio rng_game _ eq_refl Hlive)
    as (chem & d & Hc & Hd & E).
  cbv zeta in E. rewrite E. eexists. split; [|split; reflexivity].
  change (sum (map score
                   (trainees_at world_trio
                      (Group.members (Group.mk "Project Fresh" [0%nat; 1%nat; 2%nat] "Fresh" 0))))
          / Z.max (Z.of_nat (length (Group.members
                      (Group.mk "Project Fresh" [0%nat; 1%nat; 2%nat] "Fresh" 0)))) 1)
    with 150.
  change (1000 / 10) with 100.
  assert (30 <= (150 + chem) / 5 <= 33).
  { split; [apply Z.div_le_lower_bound; lia|]. apply Z.div_le_upper_bound; lia. }
  lia.
Defined.

(** * Group: popularity *)

(** C2, as stated, fails: nothing floors a group's popularity.  A group
    without members at popularity 0 releases a song with budget 100; with a
    chemistry bonus of 0, a roll of -15 and no critical hit the result is
    0 // 3 + 100 // 15 - 15 = -9, and the group is left at -9. *)
Lemma release_song_negative_popularity :
  Group.popularity <$> group_objs world_empty_group !! 0%nat = Some 0 /\
  res_value (release_song 0%nat "Debut Single" 100 world_empty_group rng_flop) =
    Some "Released 'Debut Single'. Result +-9 popularity for Project Fresh. Cost 100." /\
  Group.popularity <$>
    group_objs (res_world (release_song 0%nat "Debut Single" 100 world_empty_group rng_flop))
      !! 0%nat
    = Some (-9).
Proof. vm_compute. repeat split. Qed.

Lemma sum_lower_bound (c : Z) (ys : list Z) :
  Forall (fun y => c <= y) ys -> c * Z.of_nat (length ys) <= sum ys.
Proof.
  unfold sum. assert (H : forall acc, Forall (fun y => c <= y) ys ->
    acc + c * Z.of_nat (length ys) <= fold_left Z.add ys acc).
  { induction ys as [|y ys IH]; intros acc Hys; simpl; [lia|].
    inversion Hys as [|? ? Hy Hys']; subst. specialize (IH (acc + y) Hys'). lia. }
  intros Hys. specialize (H 0 Hys). lia.
Qed.

Lemma shape_cursor : indep_cursor I_shape.
Proof. intros w g H. exact H. Qed.
Lemma shape_state : indep_state I_shape.
Proof. intros w g v H. exact H. Qed.
#[export] Hint Resolve shape_cursor shape_state : pres.

Lemma shape_upd_trainee r f :
  (forall t, score t <= score (f t)) -> preserves I_shape (upd_trainee r f).
Proof.
  intros Hf. apply preserves_upd_trainee_gen. intros w g t [Ht Hg] E.
  split; [|exact Hg]. simpl. apply Forall_insert; [exact Ht|].
  pose proof (Forall_lookup_1 _ _ _ _ Ht E) as H. simpl in H. specialize (Hf t). lia.
Qed.

Lemma shape_alloc_trainee t : 50 <= score t -> preserves I_shape (alloc_trainee t).
Proof.
  intros Hs w g [Ht Hg]. split; [|exact Hg]. simpl.
  apply Forall_app. split; [exact Ht|]. constructor; [exact Hs|constructor].
Qed.

Lemma shape_upd_group r (delta : Z) :
  0 <= delta ->
  preserves I_shape
    (upd_group r (fun x => Group.set_popularity (Group.popularity x + delta) x)).
Proof.
  intros Hd. apply preserves_upd_group_gen. intros w g x [Ht Hg] E.
  split; [exact Ht|]. simpl. apply Forall_insert; [exact Hg|].
  pose proof (Forall_lookup_1 _ _ _ _ Hg E) as [H1 H2]. simpl. split; [lia|exact H2].
Qed.

Lemma shape_alloc_group x :
  0 <= Group.popularity x -> Group.members x <> [] -> preserves I_shape (alloc_group x).
Proof.
  intros Hp Hm w g [Ht Hg]. split; [exact Ht|]. simpl.
  apply Forall_app. split; [exact Hg|]. constructor; [split; assumption|constructor].
Qed.

Lemma shape_get_trainee r : returns I_shape (get_trainee r) (fun t => 50 <= score t).
Proof.
  intros w g [Ht Hg]. unfold get_trainee. destruct (trainee_objs w !! r) as [t|] eqn:E.
  - split; [split; assumption|]. exact (Forall_lookup_1 _ _ _ _ Ht E).
  - split; assumption.
Qed.

Lemma shape_get_group r : returns I_shape (get_group r) (fun x => Group.members x <> []).
Proof.
  intros w g [Ht Hg]. unfold get_group. destruct (group_objs w !! r) as [x|] eqn:E.
  - split; [split; assumption|]. exact (proj2 (Forall_lookup_1 _ _ _ _ Hg E)).
  - split; assumption.
Qed.

(** With a member and no score below 50, the power of a group is at
    least 50. *)
Lemma shape_calculate_power self :
  returns I_shape (calculate_power self) (fun power => 50 <= power).
Proof.
  unfold calculate_power.
  eapply returns_bind; [apply shape_get_group|]. intros grp Hgrp.
  eapply returns_bind.
  { apply (returns_mapM _ _ (fun s => 50 <= s)). intros m.
    eapply returns_bind; [apply shape_get_trainee|]. intros t Ht. apply returns_ret, Ht. }
  intros scores [Hlen Hsc]. cbv zeta.
  eapply returns_bind; [apply returns_randint, shape_cursor|]. intros chem Hchem.
  apply returns_ret. cbv beta in Hchem, Hgrp.
  pose proof (sum_lower_bound 50 scores Hsc) as Hsum. rewrite Hlen in Hsum.
  assert (Hpos : 1 <= Z.of_nat (length (Group.members grp))).
  { destruct (Group.members grp); [congruence|simpl; lia]. }
  rewrite Z.max_l by lia.
  assert (50 <= sum scores / Z.of_nat (length (Group.members grp))).
  { apply Z.div_le_lower_bound; lia. }
  lia.
Qed.

Lemma shape_outcome self power :
  returns I_shape (outcome self power)
    (fun result => power / 3 + SongProject.budget self / 15 - 15 <= result).
Proof.
  unfold outcome.
  eapply returns_bind; [apply returns_randint, shape_cursor|]. intros roll Hroll.
  eapply (returns_bind _ _ (fun _ => True)).
  { intros w g H. unfold random, bind, draw, ret. split; [exact H|exact I]. }
  intros r _. cbv zeta. apply returns_ret. cbv beta in Hroll.
  destruct (float_lt r lit_0_1); lia.
Qed.
#[export] Hint Resolve shape_calculate_power shape_outcome : rets.

Lemma shape_calculate_power_pres self : preserves I_shape (calculate_power self).
Proof. eapply returns_preserves, shape_calculate_power. Qed.

Lemma shape_outcome_pres self power : preserves I_shape (outcome self power).
Proof. eapply returns_preserves, shape_outcome. Qed.
#[export] Hint Resolve shape_calculate_power_pres shape_outcome_pres : pres.

Ltac same_score := intros [? ? ? ? ? ? ? ? ? ?]; unfold score; simpl; lia.

Lemma shape_train self stat intensity :
  2 <= intensity -> preserves I_shape (train self stat intensity).
Proof. intros Hi. unfold train. pres. all: apply shape_upd_trainee; same_score. Qed.

Lemma shape_rest self : preserves I_shape (rest self).
Proof. unfold rest. pres. apply shape_upd_trainee; same_score. Qed.

Lemma shape_adjust_popularity self amount : preserves I_shape (adjust_popularity self amount).
Proof. unfold adjust_popularity. apply shape_upd_trainee; same_score. Qed.

Lemma shape_adjust_relationship self amount : preserves I_shape (adjust_relationship self amount).
Proof. unfold adjust_relationship. apply shape_upd_trainee; same_score. Qed.
#[export] Hint Resolve shape_rest shape_adjust_popularity shape_adjust_relationship : pres.

Lemma shape_debut_effect self budget :
  0 <= budget -> preserves I_shape (debut_effect self budget).
Proof.
  intros Hb. unfold debut_effect. pres. apply shape_upd_group.
  match goal with H : 50 <= ?p |- context [?p / 5] =>
    assert (10 <= p / 5) by (apply Z.div_le_lower_bound; lia) end.
  assert (0 <= budget / 10) by (apply Z.div_pos; lia). lia.
Qed.

Lemma shape_recruit_trainee name : preserves I_shape (recruit_trainee name).
Proof. unfold recruit_trainee. pres. apply shape_alloc_trainee. unfold score; simpl; lia. Qed.

Lemma shape_schedule_training trainee focus : preserves I_shape (schedule_training trainee focus).
Proof. unfold schedule_training. pres. apply shape_train. lia. Qed.

Lemma shape_plan_debut names concept budget :
  0 <= budget -> preserves I_shape (plan_debut names concept budget).
Proof.
  intros Hb. unfold plan_debut. pres.
  - apply shape_alloc_group; simpl; [lia|discriminate].
  - apply shape_debut_effect, Hb.
Qed.

Lemma shape_release_song group title budget :
  0 <= budget -> preserves I_shape (release_song group title budget).
Proof.
  intros Hb. unfold release_song. pres. apply shape_upd_group.
  match goal with H : 50 <= ?p, H' : ?p / 3 + _ - 15 <= _ |- _ =>
    simpl in H'; assert (16 <= p / 3) by (apply Z.div_le_lower_bound; lia) end.
  assert (0 <= budget / 15) by (apply Z.div_pos; lia). lia.
Qed.

Lemma shape_promote group budget :
  0 <= budget -> preserves I_shape (promote group budget).
Proof.
  intros Hb. unfold promote. pres. apply shape_upd_group.
  assert (0 <= budget / 20) by (apply Z.div_pos; lia). lia.
Qed.

Lemma shape_update_finances amount : preserves I_shape (update_finances amount).
Proof. unfold update_finances. pres. Qed.
#[export] Hint Resolve shape_debut_effect shape_recruit_trainee shape_schedule_training
  shape_plan_debut shape_release_song shape_promote shape_update_finances : pres.

Lemma shape_monthly_evaluation : preserves I_shape monthly_evaluation.
Proof. unfold monthly_evaluation. pres. Qed.
#[export] Hint Resolve shape_monthly_evaluation : pres.

Lemma shape_advance_day : preserves I_shape advance_day.
Proof. unfold advance_day. pres. Qed.

Lemma shape_check_victory_or_defeat : preserves I_shape check_victory_or_defeat.
Proof. unfold check_victory_or_defeat. pres. Qed.

Lemma shape_handle_trainee_action choice focus :
  preserves I_shape (handle_trainee_action choice focus).
Proof. unfold handle_trainee_action. pres. apply shape_train. lia. Qed.

Lemma shape_handle_ceo_action choice inp :
  0 <= in_budget inp -> preserves I_shape (handle_ceo_action choice inp).
Proof. intros Hb. unfold handle_ceo_action. pres. Qed.

Lemma shape_random_event : preserves I_shape random_event.
Proof.
  unfold random_event. pres.
  - apply shape_upd_trainee; same_score.
  - apply shape_upd_group. apply Z.div_pos; lia.
Qed.
#[export] Hint Resolve shape_advance_day shape_check_victory_or_defeat
  shape_handle_trainee_action shape_handle_ceo_action shape_random_event : pres.

Lemma shape_turn choice inp : 0 <= in_budget inp -> preserves I_shape (turn choice inp).
Proof. intros Hb. unfold turn. pres. Qed.

Lemma shape_initialize_game name role : preserves I_shape (initialize_game name role).
Proof.
  unfold initialize_game. pres.
  all: apply shape_alloc_trainee; unfold score; simpl; lia.
Qed.
#[export] Hint Resolve shape_turn shape_initialize_game : pres.

Lemma shape_play turns :
  Forall (fun ci => 0 <= in_budget (snd ci)) turns -> preserves I_shape (play turns).
Proof.
  induction 1 as [|[choice inp] turns Hci _ IH]; simpl; [apply preserves_ret|].
  simpl in Hci. pres.
Qed.

Lemma shape_main name role turns :
  Forall (fun ci => 0 <= in_budget (snd ci)) turns -> preserves I_shape (main name role turns).
Proof.
  intros Hb. unfold main. apply preserves_bind; [apply shape_initialize_game|].
  intros _. apply shape_play, Hb.
Qed.
#[export] Hint Resolve shape_play shape_main : pres.

Lemma game_shape_popularity w :
  game_shape w -> Forall (fun grp => 0 <= Group.popularity grp) (group_objs w).
Proof. intros [_ Hg]. eapply Forall_impl; [exact Hg|]. intros grp [H _]. exact H. Qed.

(** C2, amended.  A group's popularity is not floored, but it is never
    negative in a game as it is played: as long as every group has a member
    and every trainee's score is at least 50 (skills start at 20 or more
    each and training only adds to them), every operation called with a
    budget that is not negative keeps every group's popularity at 0 or
    more, and so does every game run from its start through [main]. *)
Theorem group_popularity_floor :
  (forall w, game_shape w -> Forall (fun grp => 0 <= Group.popularity grp) (group_objs w)) /\
  (forall w g,
     game_shape w ->
     (forall group budget, 0 <= budget -> game_shape (res_world (debut_effect group budget w g))) /\
     (forall group title budget,
        0 <= budget -> game_shape (res_world (release_song group title budget w g))) /\
     (forall group budget, 0 <= budget -> game_shape (res_world (promote group budget w g))) /\
     (forall names concept budget,
        0 <= budget -> game_shape (res_world (plan_debut names concept budget w g))) /\
     game_shape (res_world (random_event w g)) /\
     game_shape (res_world (monthly_evaluation w g)) /\
     game_shape (res_world (advance_day w g)) /\
     (forall name, game_shape (res_world (recruit_trainee name w g))) /\
     (forall trainee focus, game_shape (res_world (schedule_training trainee focus w g))) /\
     (forall choice focus, game_shape (res_world (handle_trainee_action choice focus w g))) /\
     (forall choice inp,
        0 <= in_budget inp -> game_shape (res_world (handle_ceo_action choice inp w g))) /\
     (forall choice inp, 0 <= in_budget inp -> game_shape (res_world (turn choice inp w g)))) /\
  (forall name role turns g,
     Forall (fun ci => 0 <= in_budget (snd ci)) turns ->
     Forall (fun grp => 0 <= Group.popularity grp)
            (group_objs (res_world (main name role turns empty_world g)))).
Proof.
  split; [exact game_shape_popularity|]. split.
  - intros w g Hw.
    repeat match goal with |- _ /\ _ => split end; intros;
      match goal with
      | |- game_shape (res_world (?m w g)) =>
          assert (Hp : preserves I_shape m) by auto with pres; exact (Hp w g Hw)
      end.
  - intros name role turns g Hb. apply game_shape_popularity.
    apply (shape_main name role turns Hb empty_world g). split; constructor.
Qed.

Lemma group_popularity_floor_witness :
  Forall (fun ci => 0 <= in_budget (snd ci)) ceo_script /\
  Forall (fun grp => 0 <= Group.popularity grp)
         (group_objs (res_world (main "Boss" "CEO" ceo_script empty_world rng_game))).
Proof.
  assert (H : Forall (fun ci => 0 <= in_budget (snd ci)) ceo_script).
  { repeat constructor; discriminate. }
  split; [exact H|].
  exact (proj2 (proj2 group_popularity_floor) "Boss" "CEO" ceo_script rng_game H).
Defined.

(** * Trainee: training *)

Lemma insert_insert_trainee r (t1 t2 : Trainee.t) (l : list Trainee.t) :
  <[r := t2]> (<[r := t1]> l) = <[r := t2]> l.
Proof. apply list_insert_insert_eq. Qed.

Lemma train_run self stat intensity w g t :
  trainee_objs w !! self = Some t ->
  exists gain cost,
    intensity - 2 <= gain <= intensity + 2 /\ 8 <= cost <= 12 /\
    train self stat intensity w g =
      Ok (training_message stat gain +:+ " Stamina -10 (approx).")
         (set_trainee_objs (<[self := trained stat gain cost t]> (trainee_objs w)) w)
         (mkRng (source g) (S (S (cursor g)))).
Proof.
  intros Ht.
  exists (intensity - 2 + source g (cursor g) mod (intensity + 2 - (intensity - 2) + 1)),
         (8 + source g (S (cursor g)) mod (12 - 8 + 1)).
  set (gain := intensity - 2 + _). set (cost := 8 + _).
  assert (Hl : forall x, <[self := x]> (trainee_objs w) !! self = Some x).
  { intros x. eapply lookup_set_trainee, Ht. }
  split; [apply randint_range; lia|]. split; [apply randint_range; lia|].
  unfold train.
  erewrite bind_Ok by (apply randint_run; lia).
  erewrite bind_Ok by (apply randint_run; lia).
  erewrite bind_Ok by (apply upd_trainee_run; exact Ht).
  fold gain cost. unfold trained, training_message.
  destruct (String.eqb stat "vocal"); [|destruct (String.eqb stat "dance");
    [|destruct (String.eqb stat "rap"); [|destruct (String.eqb stat "charisma");
    [|destruct (String.eqb stat "visual")]]]].
  all: try (erewrite bind_Ok;
            [|erewrite bind_Ok by (apply upd_trainee_run; simpl; apply Hl); reflexivity]).
  all: unfold bind, ret, set_trainee_objs; simpl; rewrite ?insert_insert_trainee; reflexivity.
Qed.

Lemma trained_fields stat gain cost t :
  Trainee.stamina (trained stat gain cost t) = Z.max 0 (Trainee.stamina t - cost) /\
  Trainee.popularity (trained stat gain cost t) = Trainee.popularity t /\
  Trainee.relationship (trained stat gain cost t) = Trainee.relationship t /\
  Trainee.name (trained stat gain cost t) = Trainee.name t /\
  score (trained stat gain cost t) = score t + (if known_stat stat then gain else 0).
Proof.
  unfold trained, known_stat, score. cbn [existsb].
  destruct (String.eqb stat "vocal"); [|destruct (String.eqb stat "dance");
    [|destruct (String.eqb stat "rap"); [|destruct (String.eqb stat "charisma");
    [|destruct (String.eqb stat "visual")]]]]; simpl; repeat split; lia.
Qed.

Lemma untrained stat gain cost t :
  known_stat stat = false ->
  training_message stat gain = "Training focused on fundamentals." /\
  trained stat gain cost t = Trainee.set_stamina (Z.max 0 (Trainee.stamina t - cost)) t.
Proof.
  unfold known_stat, trained, training_message. cbn [existsb].
  destruct (String.eqb stat "vocal"); [discriminate|]. destruct (String.eqb stat "dance"); [discriminate|].
  destruct (String.eqb stat "rap"); [discriminate|]. destruct (String.eqb stat "charisma"); [discriminate|].
  destruct (String.eqb stat "visual"); [discriminate|]. intros _. split; reflexivity.
Qed.

(** X4.  [train(stat, intensity)] on a live trainee always returns.  The
    gain is drawn from intensity-2..intensity+2 and the stamina cost from
    8..12; the stamina becomes max(0, stamina - cost), popularity and
    relationship are untouched, and the score rises by the gain when the
    stat is one of vocal, dance, rap, charisma, visual.  Any other stat
    name (the test is case-sensitive) still costs the stamina, changes no
    skill and gives the message "Training focused on fundamentals.
    Stamina -10 (approx).". *)
Theorem train_effect self stat intensity w g t :
  trainee_objs w !! self = Some t ->
  exists gain cost,
    intensity - 2 <= gain <= intensity + 2 /\ 8 <= cost <= 12 /\
    train self stat intensity w g =
      Ok (training_message stat gain +:+ " Stamina -10 (approx).")
         (set_trainee_objs (<[self := trained stat gain cost t]> (trainee_objs w)) w)
         (mkRng (source g) (S (S (cursor g)))) /\
    Trainee.stamina (trained stat gain cost t) = Z.max 0 (Trainee.stamina t - cost) /\
    Trainee.popularity (trained stat gain cost t) = Trainee.popularity t /\
    Trainee.relationship (trained stat gain cost t) = Trainee.relationship t /\
    score (trained stat gain cost t) = score t + (if known_stat stat then gain else 0) /\
    (known_stat stat = false ->
     training_message stat gain = "Training focused on fundamentals." /\
     trained stat gain cost t = Trainee.set_stamina (Z.max 0 (Trainee.stamina t - cost)) t).
Proof.
  intros Ht. destruct (train_run self stat intensity w g t Ht) as (gain & cost & Hg & Hc & E).
  exists gain, cost. destruct (trained_fields stat gain cost t) as (H1 & H2 & H3 & _ & H5).
  repeat match goal with |- _ /\ _ => split end; try assumption; try lia.
  apply untrained.
Qed.

Lemma train_effect_witness :
  exists gain cost,
    3 <= gain <= 7 /\ 8 <= cost <= 12 /\
    train 0%nat "Vocal" 5 world_trainee rng_game =
      Ok "Training focused on fundamentals. Stamina -10 (approx)."
         (set_trainee_objs [Trainee.set_stamina (Z.max 0 (80 - cost)) neo] world_trainee)
         (mkRng (source rng_game) 2) /\
    exists w',
      train 0%nat "dance" 5 world_trainee rng_game =
        Ok (("Dance training +" +:+ str gain +:+ ".") +:+ " Stamina -10 (approx).") w'
           (mkRng (source rng_game) 2) /\
      score <$> trainee_objs w' !! 0%nat = Some (170 + gain).
Proof.
  destruct (train_effect 0%nat "Vocal" 5 world_trainee rng_game neo eq_refl)
    as (gain & cost & _ & Hc & E & _ & _ & _ & _ & Hu).
  destruct (Hu eq_refl) as [Hm Ht].
  destruct (train_effect 0%nat "dance" 5 world_trainee rng_game neo eq_refl)
    as (gain' & cost' & Hg' & _ & E' & _ & _ & _ & Hs & _).
  exists gain', cost. split; [lia|]. split; [exact Hc|]. split.
  - rewrite E, Hm, Ht. reflexivity.
  - eexists. split; [exact E'|]. simpl. rewrite Hs. reflexivity.
Defined.

(** * SongProject: the outcome of a release *)

(** X5.  [outcome(group_power)] always returns, leaves the world alone and
    takes two draws: a roll of -15..25 and the float of the critical test.
    The result is group_power // 3 + budget // 15 + roll, plus 30 when the
    float is below 0.1; it is not clamped. *)
Theorem outcome_range (self : SongProject.t) (group_power : Z) w g :
  let base := group_power / 3 + SongProject.budget self / 15 in
  let critical := float_lt (event_roll (mkRng (source g) (S (cursor g)))) lit_0_1 in
  exists roll,
    -15 <= roll <= 25 /\
    outcome self group_power w g =
      Ok (base + (if critical then roll + 30 else roll)) w
         (mkRng (source g) (S (S (cursor g)))) /\
    base - 15 <= base + (if critical then roll + 30 else roll) <= base + 55.
Proof.
  cbv zeta. exists (-15 + source g (cursor g) mod (25 - -15 + 1)).
  pose proof (randint_range (-15) 25 (source g (cursor g)) ltac:(lia)) as Hr.
  split; [exact Hr|]. split.
  - unfold outcome. erewrite bind_Ok by (apply randint_run; lia). reflexivity.
  - destruct (float_lt _ lit_0_1); lia.
Qed.

(** * The menus: edge cases *)

(** X6.  [handle_ceo_action] on a state without a company fails its
    [assert] whatever the choice, before anything is changed.  With a
    company, the entries that need a trainee or a group answer with a
    message and change nothing when there is none: "Schedule training"
    and "Plan debut" on an empty roster, "Release song/album" and
    "Schedule promotion" without a group; no input is used and no random
    number is drawn. *)
Theorem handle_ceo_action_edge_cases w g :
  (GameState.company (state w) = None ->
   forall choice inp, handle_ceo_action choice inp w g = Raise AssertionError w g) /\
  (forall c inp,
     GameState.company (state w) = Some c -> Company.trainees c = [] ->
     handle_ceo_action 2 inp w g = Ok "No trainees available." w g /\
     handle_ceo_action 3 inp w g = Ok "You need at least one trainee to debut." w g) /\
  (forall c inp,
     GameState.company (state w) = Some c -> Company.groups c = [] ->
     handle_ceo_action 4 inp w g = Ok "No groups have debuted yet." w g /\
     handle_ceo_action 5 inp w g = Ok "No groups to promote." w g).
Proof.
  split; [|split].
  - intros Hc choice inp. unfold handle_ceo_action, bind, get_state. rewrite Hc. reflexivity.
  - intros c inp Hc Hr. unfold handle_ceo_action, bind, get_state. rewrite Hc, Hr.
    split; reflexivity.
  - intros c inp Hc Hg. unfold handle_ceo_action, bind, get_state. rewrite Hc, Hg.
    split; reflexivity.
Qed.

Lemma handle_ceo_action_edge_cases_witness :
  handle_ceo_action 1 no_inputs empty_world rng_zero = Raise AssertionError empty_world rng_zero /\
  handle_ceo_action 2 no_inputs world_poor rng_zero = Ok "No trainees available." world_poor rng_zero /\
  handle_ceo_action 5 no_inputs world_poor rng_zero = Ok "No groups to promote." world_poor rng_zero.
Proof.
  destruct (handle_ceo_action_edge_cases empty_world rng_zero) as (H1 & _ & _).
  destruct (handle_ceo_action_edge_cases world_poor rng_zero) as (_ & H2 & H3).
  split; [exact (H1 eq_refl 1 no_inputs)|].
  split; [exact (proj1 (H2 _ no_inputs eq_refl eq_refl))|].
  exact (proj2 (H3 _ no_inputs eq_refl eq_refl)).
Defined.

(** X7.  [handle_trainee_action] without a trainee to act on, because the
    state has no player or the player has no character (a CEO, for one),
    answers "No trainee data loaded." to every choice and changes
    nothing. *)
Theorem handle_trainee_action_no_character choice focus w g :
  player_character (state w) = None ->
  handle_trainee_action choice focus w g = Ok "No trainee data loaded." w g.
Proof.
  unfold player_character. intros H. unfold handle_trainee_action, bind, get_state.
  rewrite H. reflexivity.
Qed.

Lemma handle_trainee_action_no_character_witness :
  handle_trainee_action 4 "dance" world_poor rng_zero = Ok "No trainee data loaded." world_poor rng_zero /\
  handle_trainee_action 1 "dance" empty_world rng_zero = Ok "No trainee data loaded." empty_world rng_zero.
Proof.
  split.
  - exact (handle_trainee_action_no_character 4 "dance" world_poor rng_zero eq_refl).
  - exact (handle_trainee_action_no_character 1 "dance" empty_world rng_zero eq_refl).
Defined.

Lemma same_handle_ceo_action w0 g0 choice inp :
  choice < 1 \/ 5 < choice -> preserves (I_same w0 g0) (handle_ceo_action choice inp).
Proof.
  intros Hc. unfold handle_ceo_action.
  apply preserves_bind; [apply preserves_get_state|]. intros s.
  destruct (GameState.company s); [|apply preserves_raise].
  destruct (Z.eqb_spec choice 1); [lia|]. destruct (Z.eqb_spec choice 2); [lia|].
  destruct (Z.eqb_spec choice 3); [lia|]. destruct (Z.eqb_spec choice 4); [lia|].
  destruct (Z.eqb_spec choice 5); [lia|].
  destruct (choice =? 6); [|apply preserves_ret].
  apply preserves_bind; [|intros; apply preserves_ret].
  apply preserves_mapM. intros r.
  apply preserves_bind; [apply preserves_get_trainee|intros; apply preserves_ret].
Qed.

Lemma same_handle_trainee_action w0 g0 choice focus :
  choice < 1 \/ 4 < choice -> preserves (I_same w0 g0) (handle_trainee_action choice focus).
Proof.
  intros Hc. unfold handle_trainee_action.
  apply preserves_bind; [apply preserves_get_state|]. intros s.
  destruct (match GameState.player s with Some p => Player.character p | None => None end);
    [|apply preserves_ret].
  destruct (Z.eqb_spec choice 1); [lia|]. destruct (Z.eqb_spec choice 2); [lia|].
  destruct (Z.eqb_spec choice 3); [lia|]. destruct (Z.eqb_spec choice 4); [lia|].
  destruct (choice =? 5); [|apply preserves_ret].
  apply preserves_bind; [apply preserves_get_trainee|intros; apply preserves_ret].
Qed.

(** X8.  The menu entries that only look, and every choice the menu does
    not list, leave the game as it is: [handle_ceo_action] with a choice
    outside 1..5 ("Check company finances", "Rest / advance day") and
    [handle_trainee_action] with a choice outside 1..4 ("View personal
    stats", "Advance day") change no object and draw no random number.
    A choice that is no entry at all gets the answer of the last entry:
    "Taking a breather to plan the next move." for a CEO with a company,
    "Day passes while you reflect on your dreams." for a trainee. *)
Theorem menu_readonly_choices w g choice inp :
  (choice < 1 \/ 5 < choice ->
   res_world (handle_ceo_action choice inp w g) = w /\
   res_rng (handle_ceo_action choice inp w g) = g) /\
  (choice < 1 \/ 4 < choice ->
   res_world (handle_trainee_action choice (in_focus inp) w g) = w /\
   res_rng (handle_trainee_action choice (in_focus inp) w g) = g) /\
  (choice < 1 \/ 6 < choice -> is_Some (GameState.company (state w)) ->
   handle_ceo_action choice inp w g = Ok "Taking a breather to plan the next move." w g) /\
  (choice < 1 \/ 5 < choice -> is_Some (player_character (state w)) ->
   handle_trainee_action choice (in_focus inp) w g =
     Ok "Day passes while you reflect on your dreams." w g).
Proof.
  split; [|split; [|split]].
  - intros Hc. exact (same_handle_ceo_action w g choice inp Hc w g (conj eq_refl eq_refl)).
  - intros Hc. exact (same_handle_trainee_action w g choice _ Hc w g (conj eq_refl eq_refl)).
  - intros Hc [c Hs]. unfold handle_ceo_action, bind, get_state. rewrite Hs.
    destruct (Z.eqb_spec choice 1); [lia|]. destruct (Z.eqb_spec choice 2); [lia|].
    destruct (Z.eqb_spec choice 3); [lia|]. destruct (Z.eqb_spec choice 4); [lia|].
    destruct (Z.eqb_spec choice 5); [lia|]. destruct (Z.eqb_spec choice 6); [lia|].
    reflexivity.
  - unfold player_character. intros Hc [r Hs]. unfold handle_trainee_action, bind, get_state.
    rewrite Hs.
    destruct (Z.eqb_spec choice 1); [lia|]. destruct (Z.eqb_spec choice 2); [lia|].
    destruct (Z.eqb_spec choice 3); [lia|]. destruct (Z.eqb_spec choice 4); [lia|].
    destruct (Z.eqb_spec choice 5); [lia|]. reflexivity.
Qed.

Lemma menu_readonly_choices_witness :
  res_world (handle_ceo_action 6 no_inputs world_trio rng_zero) = world_trio /\
  res_world (handle_trainee_action 5 "" world_trainee rng_zero) = world_trainee /\
  handle_ceo_action 7 no_inputs world_trio rng_zero =
    Ok "Taking a breather to plan the next move." world_trio rng_zero /\
  handle_trainee_action 6 "" world_trainee rng_zero =
    Ok "Day passes while you reflect on your dreams." world_trainee rng_zero.
Proof.
  destruct (menu_readonly_choices world_trio rng_zero 6 no_inputs) as (H1 & _ & _ & _).
  destruct (menu_readonly_choices world_trainee rng_zero 5 no_inputs) as (_ & H2 & _ & _).
  destruct (menu_readonly_choices world_trio rng_zero 7 no_inputs) as (_ & _ & H3 & _).
  destruct (menu_readonly_choices world_trainee rng_zero 6 no_inputs) as (_ & _ & _ & H4).
  split; [exact (proj1 (H1 ltac:(lia)))|].
  split; [exact (proj1 (H2 ltac:(lia)))|].
  split; [exact (H3 ltac:(lia) (mk_is_Some _ _ eq_refl))|].
  exact (H4 ltac:(lia) (mk_is_Some _ _ eq_refl)).
Defined.

(** * Random events: what they do *)

Lemma max_by_popularity_spec best bk others :
  exists (i : nat) k,
    ((best, bk) :: others) !! i = Some (max_by_popularity best bk others, k) /\
    (forall (j : nat) r' k', ((best, bk) :: others) !! j = Some (r', k') -> k' <= k) /\
    (forall (j : nat) r' k', (j < i)%nat -> ((best, bk) :: others) !! j = Some (r', k') -> k' < k).
Proof.
  revert best bk. induction others as [|[r1 k1] others IH]; intros best bk.
  - exists 0%nat, bk. split; [reflexivity|]. split.
    + intros [|j] r' k' H; simpl in H; [injection H as _ <-; lia|discriminate].
    + intros j r' k' Hj. lia.
  - cbn [max_by_popularity]. destruct (Z.ltb_spec bk k1) as [Hlt|Hge].
    + destruct (IH r1 k1) as (i & k & Hi & Hall & Hbefore).
      assert (k1 <= k) by (apply (Hall 0%nat r1 k1); reflexivity).
      exists (S i), k. split; [exact Hi|]. split.
      * intros [|j] r' k' H'; simpl in H'; [injection H' as _ <-; lia|]. eapply Hall, H'.
      * intros [|j] r' k' Hj H'; simpl in H'; [injection H' as _ <-; lia|].
        eapply (Hbefore j); [lia|exact H'].
    + destruct (IH best bk) as (i & k & Hi & Hall & Hbefore).
      assert (bk <= k) by (apply (Hall 0%nat best bk); reflexivity).
      destruct i as [|i].
      * simpl in Hi. injection Hi as Hi <-. exists 0%nat, bk. split; [simpl; rewrite <- Hi; reflexivity|].
        split.
        -- intros [|[|j]] r' k' H'; simpl in H'.
           ++ injection H' as _ <-; lia.
           ++ injection H' as _ <-; lia.
           ++ apply (Hall (S j) r' k'). exact H'.
        -- intros j r' k' Hj. lia.
      * exists (S (S i)), k. split; [exact Hi|]. split.
        -- intros [|[|j]] r' k' H'; simpl in H'.
           ++ injection H' as _ <-; lia.
           ++ injection H' as _ <-.
              assert (bk < k) by (apply (Hbefore 0%nat best bk); [lia|reflexivity]). lia.
           ++ apply (Hall (S j) r' k'). exact H'.
        -- intros [|[|j]] r' k' Hj H'; simpl in H'.
           ++ injection H' as _ <-. apply (Hbefore 0%nat best bk); [lia|reflexivity].
           ++ injection H' as _ <-.
              assert (bk < k) by (apply (Hbefore 0%nat best bk); [lia|reflexivity]). lia.
           ++ apply (Hbefore (S j) r' k'); [lia|exact H'].
Qed.

Lemma mapM_keyed_run rs w g :
  grefs_live w rs ->
  exists keyed,
    mapM (fun r => grp <- get_group r ;; ret (r, Group.popularity grp)) rs w g = Ok keyed w g /\
    Forall2 (fun r (rk : gref * Z) =>
               rk.1 = r /\ exists x, group_objs w !! r = Some x /\ rk.2 = Group.popularity x)
            rs keyed.
Proof.
  unfold grefs_live. induction 1 as [|r rs [x Hx] _ (keyed & E & HF)].
  - exists []. split; [reflexivity|constructor].
  - exists ((r, Group.popularity x) :: keyed). split.
    + cbn [mapM]. unfold bind at 1. unfold bind at 1. rewrite (get_group_run _ _ _ _ Hx).
      unfold ret at 1. unfold bind at 1. rewrite E. reflexivity.
    + constructor; [|exact HF]. split; [reflexivity|]. exists x. split; [exact Hx|reflexivity].
Qed.

Lemma first_top_keyed w groups keyed :
  Forall2 (fun r (rk : gref * Z) =>
             rk.1 = r /\ exists x, group_objs w !! r = Some x /\ rk.2 = Group.popularity x)
          groups keyed ->
  forall (i : nat) top k,
    keyed !! i = Some (top, k) ->
    (forall (j : nat) r' k', keyed !! j = Some (r', k') -> k' <= k) ->
    (forall (j : nat) r' k', (j < i)%nat -> keyed !! j = Some (r', k') -> k' < k) ->
    first_top w groups top.
Proof.
  intros HF i top k Hi Hall Hbefore.
  destruct (Forall2_lookup_r _ _ _ _ _ HF Hi) as (r & Hr & Heq & x & Hx & Hk).
  simpl in Heq, Hk. subst r k.
  exists i, x. split; [exact Hr|]. split; [exact Hx|]. split.
  - intros j r y Hj Hy. destruct (Forall2_lookup_l _ _ _ _ _ HF Hj) as ([r' k'] & Hk' & Heq & y' & Hy' & Hp).
    simpl in Heq, Hp. subst r'. rewrite Hy in Hy'. injection Hy' as <-. subst k'.
    eapply Hall, Hk'.
  - intros j r y Hlt Hj Hy.
    destruct (Forall2_lookup_l _ _ _ _ _ HF Hj) as ([r' k'] & Hk' & Heq & y' & Hy' & Hp).
    simpl in Heq, Hp. subst r'. rewrite Hy in Hy'. injection Hy' as <-. subst k'.
    eapply Hbefore; [exact Hlt|exact Hk'].
Qed.

Lemma get_player_run w g p :
  GameState.player (state w) = Some p -> get_player w g = Ok p w g.
Proof. intros H. unfold get_player, bind, get_state. rewrite H. reflexivity. Qed.

Lemma random_event_roll w g :
  random_event w g =
    (negative <-
      (if float_lt (event_roll g) lit_0_08 then
         p <- get_player ;;
         state <- get_state ;;
         if String.eqb (Player.role p) "CEO" && bool_decide (is_Some (GameState.company state)) then
           loss <- randint 200 800 ;;
           upd_company (fun c => Company.set_money (Company.money c - loss) c) ;;
           ret (Some ("Unexpected venue cancellation. Lost " +:+ str loss +:+ " in fees."))
         else
           match Player.character p with
           | Some trainee =>
               injury <- randint 5 15 ;;
               upd_trainee trainee
                 (fun t => Trainee.set_stamina (Z.max 0 (Trainee.stamina t - injury)) t) ;;
               ret (Some ("Minor injury during rehearsal. Stamina -" +:+ str injury +:+ "."))
           | None => ret None
           end
       else ret None) ;;
     match negative with
     | Some event => ret (Some event)
     | None =>
         if float_lt lit_0_92 (event_roll g) then
           p <- get_player ;;
           state <- get_state ;;
           match (if String.eqb (Player.role p) "CEO" then GameState.company state else None) with
           | Some (Company.mk _ _ _ _ (first :: others) _) =>
               bonus <- randint 300 900 ;;
               upd_company (fun c => Company.set_money (Company.money c + bonus) c) ;;
               first_key <- (grp <- get_group first ;; ret (Group.popularity grp)) ;;
               keyed <- mapM (fun r => grp <- get_group r ;; ret (r, Group.popularity grp)) others ;;
               let top_group := max_by_popularity first first_key keyed in
               upd_group top_group
                 (fun x => Group.set_popularity (Group.popularity x + bonus / 10) x) ;;
               grp <- get_group top_group ;;
               ret (Some ("Viral moment! " +:+ Group.name grp +:+ " trend boosts funds by "
                          +:+ str bonus +:+ "."))
           | _ =>
               match Player.character p with
               | Some trainee =>
                   boost <- randint 8 18 ;;
                   adjust_popularity trainee boost ;;
                   ret (Some ("Fan edit goes viral. Popularity +" +:+ str boost +:+ "."))
               | None => ret None
               end
           end
         else ret None
     end) w (mkRng (source g) (S (cursor g))).
Proof. reflexivity. Qed.

Lemma random_event_negative_ceo w g p c :
  float_lt (event_roll g) lit_0_08 = true ->
  GameState.player (state w) = Some p -> Player.role p = "CEO" ->
  GameState.company (state w) = Some c ->
  exists loss,
    200 <= loss <= 800 /\
    random_event w g =
      Ok (Some ("Unexpected venue cancellation. Lost " +:+ str loss +:+ " in fees."))
         (set_state (GameState.set_company
                       (Some (Company.set_money (Company.money c - loss) c)) (state w)) w)
         (mkRng (source g) (S (S (cursor g)))).
Proof.
  intros Hroll Hp Hrole Hc. eexists. split; cycle 1.
  - rewrite random_event_roll, Hroll.
    erewrite bind_Ok; cycle 1.
    { erewrite bind_Ok by (apply get_player_run; exact Hp).
      unfold bind at 1, get_state at 1. rewrite Hrole, Hc.
      change (("CEO" =? "CEO")%string) with true. cbn [andb].
      rewrite bool_decide_eq_true_2 by (eexists; reflexivity).
      erewrite bind_Ok by (apply randint_run; lia).
      erewrite bind_Ok by (apply upd_company_run; exact Hc).
      reflexivity. }
    reflexivity.
  - apply randint_range. lia.
Qed.

Lemma random_event_negative_trainee w g p r t :
  float_lt (event_roll g) lit_0_08 = true ->
  GameState.player (state w) = Some p -> ceo_event p (state w) = false ->
  Player.character p = Some r -> trainee_objs w !! r = Some t ->
  exists injury,
    5 <= injury <= 15 /\
    random_event w g =
      Ok (Some ("Minor injury during rehearsal. Stamina -" +:+ str injury +:+ "."))
         (set_trainee_objs
            (<[r := Trainee.set_stamina (Z.max 0 (Trainee.stamina t - injury)) t]> (trainee_objs w)) w)
         (mkRng (source g) (S (S (cursor g)))).
Proof.
  intros Hroll Hp Hceo Hch Ht. eexists. split; cycle 1.
  - rewrite random_event_roll, Hroll.
    erewrite bind_Ok; cycle 1.
    { erewrite bind_Ok by (apply get_player_run; exact Hp).
      unfold bind at 1, get_state at 1. unfold ceo_event in Hceo. rewrite Hceo, Hch.
      erewrite bind_Ok by (apply randint_run; lia).
      erewrite bind_Ok by (apply upd_trainee_run; exact Ht).
      reflexivity. }
    reflexivity.
  - apply randint_range. lia.
Qed.

Lemma random_event_negative_nobody w g p :
  float_lt (event_roll g) lit_0_08 = true ->
  GameState.player (state w) = Some p -> ceo_event p (state w) = false ->
  Player.character p = None ->
  random_event w g = Ok None w (mkRng (source g) (S (cursor g))).
Proof.
  intros Hroll Hp Hceo Hch.
  assert (E2 : float_lt lit_0_92 (event_roll g) = false).
  { destruct (float_lt lit_0_92 (event_roll g)) eqn:E; [|reflexivity].
    exfalso. apply (float_lt_exclusive (event_roll g)). auto. }
  rewrite random_event_roll, Hroll, E2.
  erewrite bind_Ok; cycle 1.
  { erewrite bind_Ok by (apply get_player_run; exact Hp).
    unfold bind at 1, get_state at 1. unfold ceo_event in Hceo. rewrite Hceo, Hch. reflexivity. }
  reflexivity.
Qed.

(** X9.  A random event of the negative branch (roll below 0.08), for a
    game with a player.  A CEO with a company loses 200..800 from the
    company's money, which has no floor.  Anyone else with a character
    has the character's stamina lowered by 5..15 and floored at 0.
    Nothing else changes, two draws are taken.  A player who is neither
    gets no event. *)
Theorem random_event_negative w g p :
  float_lt (event_roll g) lit_0_08 = true ->
  GameState.player (state w) = Some p ->
  (forall c,
     Player.role p = "CEO" -> GameState.company (state w) = Some c ->
     exists loss,
       200 <= loss <= 800 /\
       random_event w g =
         Ok (Some ("Unexpected venue cancellation. Lost " +:+ str loss +:+ " in fees."))
            (set_state (GameState.set_company
                          (Some (Company.set_money (Company.money c - loss) c)) (state w)) w)
            (mkRng (source g) (S (S (cursor g))))) /\
  (forall r t,
     ceo_event p (state w) = false ->
     Player.character p = Some r -> trainee_objs w !! r = Some t ->
     exists injury,
       5 <= injury <= 15 /\
       random_event w g =
         Ok (Some ("Minor injury during rehearsal. Stamina -" +:+ str injury +:+ "."))
            (set_trainee_objs
               (<[r := Trainee.set_stamina (Z.max 0 (Trainee.stamina t - injury)) t]>
                  (trainee_objs w)) w)
            (mkRng (source g) (S (S (cursor g))))) /\
  (ceo_event p (state w) = false -> Player.character p = None ->
   random_event w g = Ok None w (mkRng (source g) (S (cursor g)))).
Proof.
  intros Hroll Hp. split; [|split].
  - intros c Hrole Hc. exact (random_event_negative_ceo w g p c Hroll Hp Hrole Hc).
  - intros r t Hceo Hch Ht. exact (random_event_negative_trainee w g p r t Hroll Hp Hceo Hch Ht).
  - intros Hceo Hch. exact (random_event_negative_nobody w g p Hroll Hp Hceo Hch).
Qed.

Lemma not_negative_roll g :
  float_lt lit_0_92 (event_roll g) = true -> float_lt (event_roll g) lit_0_08 = false.
Proof.
  intros H. destruct (float_lt (event_roll g) lit_0_08) eqn:E; [|reflexivity].
  exfalso. apply (float_lt_exclusive (event_roll g)). auto.
Qed.

Lemma random_event_positive_ceo w g p c :
  float_lt lit_0_92 (event_roll g) = true ->
  GameState.player (state w) = Some p -> Player.role p = "CEO" ->
  GameState.company (state w) = Some c ->
  Company.groups c <> [] -> grefs_live w (Company.groups c) ->
  exists bonus top grp,
    300 <= bonus <= 900 /\
    first_top w (Company.groups c) top /\ group_objs w !! top = Some grp /\
    random_event w g =
      Ok (Some ("Viral moment! " +:+ Group.name grp +:+ " trend boosts funds by "
                +:+ str bonus +:+ "."))
         (mkWorld (trainee_objs w)
                  (<[top := Group.set_popularity (Group.popularity grp + bonus / 10) grp]>
                     (group_objs w))
                  (GameState.set_company
                     (Some (Company.set_money (Company.money c + bonus) c)) (state w)))
         (mkRng (source g) (S (S (cursor g)))).
Proof.
  intros Hroll Hp Hrole Hc Hne Hlive.
  destruct c as [cname money reputation roster groups projects]. simpl in Hne, Hlive.
  destruct groups as [|first others]; [congruence|].
  set (c := Company.mk cname money reputation roster (first :: others) projects) in *.
  set (bonus := 300 + source g (S (cursor g)) mod (900 - 300 + 1)).
  set (w1 := set_state (GameState.set_company
                          (Some (Company.set_money (Company.money c + bonus) c)) (state w)) w).
  set (g1 := mkRng (source g) (S (cursor g))).
  set (g2 := mkRng (source g) (S (S (cursor g)))).
  inversion Hlive as [|? ? [x Hx] Hothers]; subst.
  destruct (mapM_keyed_run others w1 g2 Hothers) as (keyed & Ekeyed & HF).
  destruct (max_by_popularity_spec first (Group.popularity x) keyed) as (i & k & Hi & Hall & Hbefore).
  set (top := max_by_popularity first (Group.popularity x) keyed) in *.
  assert (Htop : first_top w (first :: others) top).
  { eapply (first_top_keyed w1 (first :: others) ((first, Group.popularity x) :: keyed));
      [|exact Hi|exact Hall|exact Hbefore].
    constructor; [|exact HF]. split; [reflexivity|]. exists x. split; [exact Hx|reflexivity]. }
  destruct Htop as (i' & grp & Hi' & Hgrp & Hmax & Hfirst).
  exists bonus, top, grp. split; [apply randint_range; lia|].
  split; [exists i', grp; auto|]. split; [exact Hgrp|].
  rewrite random_event_roll, (not_negative_roll g Hroll), Hroll.
  unfold bind at 1, ret at 1.
  erewrite bind_Ok by (apply get_player_run; exact Hp).
  unfold bind at 1, get_state at 1. rewrite Hrole, Hc.
  change (("CEO" =? "CEO")%string) with true. cbv iota beta. unfold c at 1. cbv iota beta.
  erewrite bind_Ok by (apply randint_run; lia).
  erewrite bind_Ok by (apply upd_company_run; exact Hc).
  fold bonus w1 g2.
  erewrite bind_Ok
    by (erewrite bind_Ok by (apply get_group_run; exact Hx); reflexivity).
  erewrite bind_Ok by exact Ekeyed.
  cbv zeta. fold top.
  erewrite bind_Ok by (apply upd_group_run; exact Hgrp).
  erewrite bind_Ok by (apply get_group_run; simpl; apply list_lookup_insert_eq;
                       eapply lookup_lt_Some, Hgrp).
  reflexivity.
Qed.

Lemma random_event_negative_witness :
  (exists loss,
     200 <= loss <= 800 /\
     Company.money <$> GameState.company (state (res_world (random_event world_poor rng_zero)))
       = Some (100 - loss)) /\
  (exists injury,
     5 <= injury <= 15 /\
     Trainee.stamina <$> trainee_objs (res_world (random_event world_trainee rng_zero)) !! 0%nat
       = Some (Z.max 0 (80 - injury))).
Proof.
  split.
  - destruct (random_event_negative world_poor rng_zero _ eq_refl eq_refl) as (H & _ & _).
    destruct (H _ eq_refl eq_refl) as (loss & Hl & E).
    exists loss. split; [exact Hl|]. rewrite E. reflexivity.
  - destruct (random_event_negative world_trainee rng_zero _ eq_refl eq_refl) as (_ & H & _).
    destruct (H 0%nat neo eq_refl eq_refl eq_refl) as (injury & Hi & E).
    exists injury. split; [exact Hi|]. rewrite E. reflexivity.
Defined.

Lemma ceo_viral_false p s :
  ceo_viral p s = false ->
  forall (A : Type) (hit : gref -> list gref -> A) (miss : A),
    match (if String.eqb (Player.role p) "CEO" then GameState.company s else None) with
    | Some (Company.mk _ _ _ _ (first :: others) _) => hit first others
    | _ => miss
    end = miss.
Proof.
  unfold ceo_viral. intros H A hit miss.
  destruct (String.eqb (Player.role p) "CEO"); [|reflexivity].
  destruct (GameState.company s) as [[? ? ? ? [|? ?] ?]|]; simpl in *; congruence.
Qed.

Lemma random_event_positive_trainee w g p r t :
  float_lt lit_0_92 (event_roll g) = true ->
  GameState.player (state w) = Some p -> ceo_viral p (state w) = false ->
  Player.character p = Some r -> trainee_objs w !! r = Some t ->
  exists boost,
    8 <= boost <= 18 /\
    random_event w g =
      Ok (Some ("Fan edit goes viral. Popularity +" +:+ str boost +:+ "."))
         (set_trainee_objs
            (<[r := Trainee.set_popularity (Z.max 0 (Trainee.popularity t + boost)) t]>
               (trainee_objs w)) w)
         (mkRng (source g) (S (S (cursor g)))).
Proof.
  intros Hroll Hp Hv Hch Ht. eexists. split; cycle 1.
  - rewrite random_event_roll, (not_negative_roll g Hroll), Hroll.
    unfold bind at 1, ret at 1.
    erewrite bind_Ok by (apply get_player_run; exact Hp).
    unfold bind at 1, get_state at 1. rewrite (ceo_viral_false _ _ Hv), Hch.
    erewrite bind_Ok by (apply randint_run; lia).
    unfold adjust_popularity.
    erewrite bind_Ok by (apply upd_trainee_run; exact Ht).
    reflexivity.
  - apply randint_range. lia.
Qed.

Lemma random_event_positive_nobody w g p :
  float_lt lit_0_92 (event_roll g) = true ->
  GameState.player (state w) = Some p -> ceo_viral p (state w) = false ->
  Player.character p = None ->
  random_event w g = Ok None w (mkRng (source g) (S (cursor g))).
Proof.
  intros Hroll Hp Hv Hch.
  rewrite random_event_roll, (not_negative_roll g Hroll), Hroll.
  unfold bind at 1, ret at 1.
  erewrite bind_Ok by (apply get_player_run; exact Hp).
  unfold bind at 1, get_state at 1. rewrite (ceo_viral_false _ _ Hv), Hch. reflexivity.
Qed.

(** X10.  A random event of the positive branch (roll above 0.92), for a
    game with a player.  A CEO whose company has a group gains 300..900
    on the company's money, and the group [max] picks, the first of the
    company's groups that no other exceeds in popularity, gains a tenth of
    the bonus.  Anyone else with a character, a CEO without a group
    included, has the character's popularity raised by 8..18.  Nothing
    else changes, two draws are taken.  A player who is neither (a CEO
    without a group, as the game makes them) gets no event. *)
Theorem random_event_positive w g p :
  float_lt lit_0_92 (event_roll g) = true ->
  GameState.player (state w) = Some p ->
  (forall c,
     Player.role p = "CEO" -> GameState.company (state w) = Some c ->
     Company.groups c <> [] -> grefs_live w (Company.groups c) ->
     exists bonus top grp,
       300 <= bonus <= 900 /\
       first_top w (Company.groups c) top /\ group_objs w !! top = Some grp /\
       random_event w g =
         Ok (Some ("Viral moment! " +:+ Group.name grp +:+ " trend boosts funds by "
                   +:+ str bonus +:+ "."))
            (mkWorld (trainee_objs w)
                     (<[top := Group.set_popularity (Group.popularity grp + bonus / 10) grp]>
                        (group_objs w))
                     (GameState.set_company
                        (Some (Company.set_money (Company.money c + bonus) c)) (state w)))
            (mkRng (source g) (S (S (cursor g))))) /\
  (forall r t,
     ceo_viral p (state w) = false ->
     Player.character p = Some r -> trainee_objs w !! r = Some t ->
     exists boost,
       8 <= boost <= 18 /\
       random_event w g =
         Ok (Some ("Fan edit goes viral. Popularity +" +:+ str boost +:+ "."))
            (set_trainee_objs
               (<[r := Trainee.set_popularity (Z.max 0 (Trainee.popularity t + boost)) t]>
                  (trainee_objs w)) w)
            (mkRng (source g) (S (S (cursor g))))) /\
  (ceo_viral p (state w) = false -> Player.character p = None ->
   random_event w g = Ok None w (mkRng (source g) (S (cursor g)))).
Proof.
  intros Hroll Hp. split; [|split].
  - intros c Hrole Hc Hne Hlive.
    exact (random_event_positive_ceo w g p c Hroll Hp Hrole Hc Hne Hlive).
  - intros r t Hv Hch Ht. exact (random_event_positive_trainee w g p r t Hroll Hp Hv Hch Ht).
  - intros Hv Hch. exact (random_event_positive_nobody w g p Hroll Hp Hv Hch).
Qed.

Lemma random_event_positive_witness :
  (exists bonus,
     300 <= bonus <= 900 /\
     map Group.popularity (group_objs (res_world (random_event world_duo rng_high)))
       = [50 + bonus / 10; 50] /\
     Company.money <$> GameState.company (state (res_world (random_event world_duo rng_high)))
       = Some (5000 + bonus)) /\
  random_event world_poor rng_high = Ok None world_poor (mkRng (source rng_high) 1).
Proof.
  split.
  - destruct (random_event_positive world_duo rng_high _ eq_refl eq_refl) as (H & _ & _).
    assert (Hlive : grefs_live world_duo [0%nat; 1%nat]).
    { repeat constructor; eexists; reflexivity. }
    destruct (H _ eq_refl eq_refl ltac:(discriminate) Hlive)
      as (bonus & top & grp & Hb & (i & grp' & Hi & Hgrp' & _ & Hfirst) & Hgrp & E).
    exists bonus. split; [exact Hb|].
    assert (top = 0%nat) as ->.
    { destruct i as [|[|i]]; simpl in Hi.
      - injection Hi as <-. reflexivity.
      - injection Hi as <-. simpl in Hgrp'. injection Hgrp' as <-.
        specialize (Hfirst 0%nat 0%nat (Group.mk "Project Fresh" [0%nat] "Fresh" 50)
                      ltac:(lia) eq_refl eq_refl). simpl in Hfirst. lia.
      - discriminate. }
    simpl in Hgrp. injection Hgrp as <-. rewrite E. split; reflexivity.
  - destruct (random_event_positive world_poor rng_high _ eq_refl eq_refl) as (_ & _ & H).
    exact (H eq_refl eq_refl).
Defined.

(** X11.  [random_event] reads [state.player.role] without testing the
    player: on a state without a player it raises [AttributeError] as soon
    as the roll leaves the band, below 0.08 or above 0.92, with the roll
    drawn and nothing changed. *)
Theorem random_event_without_player w g :
  GameState.player (state w) = None ->
  float_lt (event_roll g) lit_0_08 = true \/ float_lt lit_0_92 (event_roll g) = true ->
  random_event w g = Raise AttributeError w (mkRng (source g) (S (cursor g))).
Proof.
  intros Hp [Hroll|Hroll].
  - rewrite random_event_roll, Hroll.
    erewrite bind_Raise; [reflexivity|].
    erewrite bind_Raise; [reflexivity|].
    unfold get_player, bind, get_state. rewrite Hp. reflexivity.
  - rewrite random_event_roll, (not_negative_roll g Hroll), Hroll.
    unfold bind at 1, ret at 1.
    erewrite bind_Raise; [reflexivity|].
    unfold get_player, bind, get_state. rewrite Hp. reflexivity.
Qed.

Lemma random_event_without_player_witness :
  random_event world_no_player rng_zero =
    Raise AttributeError world_no_player (mkRng (source rng_zero) 1) /\
  random_event empty_world rng_high =
    Raise AttributeError empty_world (mkRng (source rng_high) 1).
Proof.
  split.
  - exact (random_event_without_player world_no_player rng_zero eq_refl (or_introl eq_refl)).
  - exact (random_event_without_player empty_world rng_high eq_refl (or_intror eq_refl)).
Defined.

(** * The CEO's menu: recruiting and training *)

(** X12.  "Recruit trainee" always succeeds for a company, whatever its
    money: a new trainee object is created with vocal, dance and rap
    drawn from 20..40 and the defaults elsewhere (visual and charisma 30,
    stamina 70, popularity 10, relationship 10), it is appended to the
    roster, 300 is taken, and the answer reports the name and the money
    left.  The trainee is named as typed, or [Trainee<n+1>] for a roster
    of n when the line is empty.  No other object changes. *)
Theorem handle_ceo_action_recruit inp w g c :
  GameState.company (state w) = Some c ->
  exists v d r,
    20 <= v <= 40 /\ 20 <= d <= 40 /\ 20 <= r <= 40 /\
    let name := recruit_name (in_name inp) c in
    handle_ceo_action 1 inp w g =
      Ok ("Recruited " +:+ name +:+ "! Money now " +:+ str (Company.money c - 300) +:+ ".")
         (mkWorld (trainee_objs w ++ [Trainee.mk name v d r 30 30 70 10 10 1])
                  (group_objs w)
                  (GameState.set_company
                     (Some (Company.mk (Company.name c) (Company.money c - 300)
                              (Company.reputation c)
                              (Company.trainees c ++ [length (trainee_objs w)])
                              (Company.groups c) (Company.projects c)))
                     (state w)))
         (mkRng (source g) (S (S (S (cursor g))))).
Proof.
  intros Hc.
  destruct (recruit_trainee_run (recruit_name (in_name inp) c) w g c Hc)
    as (v & d & r & Hv & Hd & Hr & E).
  exists v, d, r. split; [exact Hv|]. split; [exact Hd|]. split; [exact Hr|]. cbv zeta.
  unfold handle_ceo_action. unfold bind at 1, get_state at 1. rewrite Hc.
  change (1 =? 1) with true. cbv iota zeta. fold (recruit_name (in_name inp) c).
  erewrite bind_Ok by exact E.
  erewrite bind_Ok by (apply get_trainee_run; simpl; apply list_lookup_middle; reflexivity).
  erewrite bind_Ok by (apply get_company_run; reflexivity).
  reflexivity.
Qed.

Lemma handle_ceo_action_recruit_witness :
  exists v d r,
    handle_ceo_action 1 no_inputs world_poor rng_game =
      Ok "Recruited Trainee1! Money now -200."
         (mkWorld [Trainee.mk "Trainee1" v d r 30 30 70 10 10 1] []
            (GameState.mk 1 1 1 (Some (Player.mk "Boss" "CEO" None))
               (Some (Company.mk "IdoLab Entertainment" (-200) 10 [0%nat] [] [])) 0 []))
         (mkRng (source rng_game) 3).
Proof.
  destruct (handle_ceo_action_recruit no_inputs world_poor rng_game _ eq_refl)
    as (v & d & r & _ & _ & _ & E).
  exists v, d, r. exact E.
Defined.

Lemma py_index_menu {A} (xs : list A) (k : Z) :
  1 <= k <= Z.of_nat (length xs) -> py_index xs (k - 1) = xs !! Z.to_nat (k - 1).
Proof. intros H. unfold py_index. destruct (Z.leb_spec 0 (k - 1)); [reflexivity|lia]. Qed.

(** X13.  "Schedule training" with the [k]-th trainee of the roster
    (1 <= k <= len) and a company holding at least 150 trains that
    trainee and no other: 150 is taken, the trainee gains 3..7 in the
    focus (nothing for a focus that is no stat) and loses 8..12 stamina,
    floored at 0, and the answer wraps the message of [train]. *)
Theorem handle_ceo_action_training inp w g c trainee t :
  GameState.company (state w) = Some c ->
  1 <= in_choice inp <= Z.of_nat (length (Company.trainees c)) ->
  Company.trainees c !! Z.to_nat (in_choice inp - 1) = Some trainee ->
  trainee_objs w !! trainee = Some t ->
  150 <= Company.money c ->
  exists gain cost,
    3 <= gain <= 7 /\ 8 <= cost <= 12 /\
    handle_ceo_action 2 inp w g =
      Ok ("Training scheduled for " +:+ Trainee.name t +:+ ". "
          +:+ (training_message (in_focus inp) gain +:+ " Stamina -10 (approx).")
          +:+ " Company money -150.")
         (mkWorld (<[trainee := trained (in_focus inp) gain cost t]> (trainee_objs w))
                  (group_objs w)
                  (GameState.set_company
                     (Some (Company.set_money (Company.money c - 150) c)) (state w)))
         (mkRng (source g) (S (S (cursor g)))).
Proof.
  intros Hc Hk Hidx Ht Hmoney.
  set (w1 := set_state (GameState.set_company
                          (Some (Company.set_money (Company.money c - 150) c)) (state w)) w).
  destruct (train_run trainee (in_focus inp) 5 w1 g t Ht) as (gain & cost & Hg & Hcost & E).
  exists gain, cost. split; [lia|]. split; [exact Hcost|].
  unfold handle_ceo_action. unfold bind at 1, get_state at 1. rewrite Hc.
  change (2 =? 1) with false. change (2 =? 2) with true. cbv iota.
  destruct (Company.trainees c) as [|r0 rs] eqn:Hroster; [simpl in Hk; lia|].
  rewrite (py_index_menu (r0 :: rs) (in_choice inp) Hk), Hidx.
  unfold schedule_training.
  erewrite bind_Ok by (apply get_company_run; exact Hc).
  cbv zeta. destruct (Z.ltb_spec (Company.money c) 150) as [|_]; [lia|].
  erewrite bind_Ok by (apply upd_company_run; exact Hc).
  fold w1. erewrite bind_Ok by exact E.
  erewrite bind_Ok by (apply get_trainee_run; simpl; apply list_lookup_insert_eq;
                       eapply lookup_lt_Some, Ht).
  assert (Hname : Trainee.name (trained (in_focus inp) gain cost t) = Trainee.name t)
    by apply trained_fields.
  rewrite Hname. reflexivity.
Qed.

Lemma handle_ceo_action_training_witness :
  exists gain cost,
    3 <= gain <= 7 /\ 8 <= cost <= 12 /\
    handle_ceo_action 2 (mkInputs "" 2 "rap" [] "" "" 0) world_trio rng_game =
      Ok ("Training scheduled for Min. "
          +:+ (("Rap training +" +:+ str gain +:+ ".") +:+ " Stamina -10 (approx).")
          +:+ " Company money -150.")
         (mkWorld [Trainee.mk "Ara" 30 30 30 30 30 70 10 10 1;
                   Trainee.mk "Min" 30 30 (30 + gain) 30 30 (Z.max 0 (70 - cost)) 10 10 1;
                   Trainee.mk "Kai" 30 30 30 30 30 70 10 10 1]
                  (group_objs world_trio)
                  (GameState.set_company
                     (Some (Company.mk "IdoLab Entertainment" 4850 10 [0%nat; 1%nat; 2%nat]
                              [0%nat] []))
                     (state world_trio)))
         (mkRng (source rng_game) 2).
Proof.
  destruct (handle_ceo_action_training (mkInputs "" 2 "rap" [] "" "" 0) world_trio rng_game
              _ 1%nat _ eq_refl ltac:(simpl; lia) eq_refl eq_refl ltac:(simpl; lia))
    as (gain & cost & Hg & Hc & E).
  exists gain, cost. split; [exact Hg|]. split; [exact Hc|]. exact E.
Defined.

(** * The trainee's menu: building relationships *)

(** X14.  "Build relationships" draws a gain of 3..10, calls
    [adjust_relationship(gain)] and then [adjust_popularity(gain // 2)] on
    the player's trainee: the relationship moves to
    max(0, min(100, relationship + gain)), the popularity to
    max(0, popularity + gain // 2) with gain // 2 in 1..5, and nothing
    else changes. *)
Theorem handle_trainee_action_gossip focus w g p r t :
  GameState.player (state w) = Some p -> Player.character p = Some r ->
  trainee_objs w !! r = Some t ->
  exists gain,
    3 <= gain <= 10 /\ 1 <= gain / 2 <= 5 /\
    handle_trainee_action 3 focus w g =
      Ok ("Shared practice room gossip. Relationship +" +:+ str gain
          +:+ ", Popularity +" +:+ str (gain / 2) +:+ ".")
         (set_trainee_objs
            (<[r := Trainee.mk (Trainee.name t) (Trainee.vocal t) (Trainee.dance t)
                     (Trainee.rap t) (Trainee.visual t) (Trainee.charisma t)
                     (Trainee.stamina t)
                     (Z.max 0 (Trainee.popularity t + gain / 2))
                     (Z.max 0 (Z.min 100 (Trainee.relationship t + gain)))
                     (Trainee.trainee_since t)]>
               (trainee_objs w)) w)
         (mkRng (source g) (S (cursor g))).
Proof.
  intros Hp Hr Ht. eexists. split; [apply randint_range; lia|]. split; cycle 1.
  - unfold handle_trainee_action. unfold bind at 1, get_state at 1. rewrite Hp, Hr.
    change (3 =? 1) with false. change (3 =? 2) with false. change (3 =? 3) with true.
    cbv iota.
    erewrite bind_Ok by (apply randint_run; lia).
    unfold adjust_relationship, adjust_popularity.
    erewrite bind_Ok by (apply upd_trainee_run; exact Ht).
    erewrite bind_Ok by (apply upd_trainee_run; simpl; eapply lookup_set_trainee, Ht).
    unfold ret, set_trainee_objs. simpl. rewrite insert_insert_trainee. reflexivity.
  - pose proof (randint_range 3 10 (source g (cursor g)) ltac:(lia)) as H.
    split; [apply Z.div_le_lower_bound; lia|apply Z.div_le_upper_bound; lia].
Qed.

Lemma handle_trainee_action_gossip_witness :
  exists gain,
    3 <= gain <= 10 /\
    trainee_objs (res_world (handle_trainee_action 3 "" world_trainee rng_game)) =
      [Trainee.mk "Neo" 35 35 30 35 35 80 (Z.max 0 (10 + gain / 2))
                  (Z.max 0 (Z.min 100 (10 + gain))) 1].
Proof.
  destruct (handle_trainee_action_gossip "" world_trainee rng_game _ 0%nat neo
              eq_refl eq_refl eq_refl) as (gain & Hg & _ & E).
  exists gain. split; [exact Hg|]. rewrite E. reflexivity.
Defined.

(** * The company's actions: what they do *)

Lemma calculate_power_run self w g grp :
  group_objs w !! self = Some grp -> trefs_live w (Group.members grp) ->
  exists chemistry_bonus,
    0 <= chemistry_bonus <= 15 /\
    calculate_power self w g =
      Ok (member_power w grp + chemistry_bonus) w (mkRng (source g) (S (cursor g))).
Proof.
  intros Hg Hlive. eexists. split; [apply (randint_range 0 15 (source g (cursor g))); lia|].
  unfold calculate_power.
  erewrite bind_Ok by (apply get_group_run; exact Hg).
  erewrite bind_Ok by (apply mapM_get_trainee_run; exact Hlive).
  erewrite bind_Ok by (apply randint_run; lia). reflexivity.
Qed.

(** X15.  [promote(group, budget)] for a company that can pay: the gain is
    budget // 20 plus a draw of 0..10, it is added to the group's
    popularity, a third of it (integer division) to the company's
    reputation, and the budget is taken; no trainee and no other group
    changes. *)
Theorem promote_effect group budget w g c grp :
  GameState.company (state w) = Some c -> budget <= Company.money c ->
  group_objs w !! group = Some grp ->
  exists r,
    0 <= r <= 10 /\
    let gain := budget / 20 + r in
    promote group budget w g =
      Ok ("Promotions boost " +:+ Group.name grp +:+ "'s popularity by " +:+ str gain
          +:+ ". Cost " +:+ str budget +:+ ".")
         (mkWorld (trainee_objs w)
                  (<[group := Group.set_popularity (Group.popularity grp + gain) grp]>
                     (group_objs w))
                  (GameState.set_company
                     (Some (Company.mk (Company.name c) (Company.money c - budget)
                              (Company.reputation c + gain / 3) (Company.trainees c)
                              (Company.groups c) (Company.projects c)))
                     (state w)))
         (mkRng (source g) (S (cursor g))).
Proof.
  intros Hc Hmoney Hg. eexists. split; [apply (randint_range 0 10 (source g (cursor g))); lia|].
  cbv zeta. unfold promote.
  erewrite bind_Ok by (apply get_company_run; exact Hc).
  destruct (Z.ltb_spec (Company.money c) budget) as [|_]; [lia|].
  erewrite bind_Ok by (apply upd_company_run; exact Hc).
  erewrite bind_Ok by (apply randint_run; lia). cbv zeta.
  erewrite bind_Ok by (apply upd_group_run; exact Hg).
  erewrite bind_Ok by (apply upd_company_run; reflexivity).
  erewrite bind_Ok by (apply get_group_run; simpl; apply list_lookup_insert_eq;
                       eapply lookup_lt_Some, Hg).
  reflexivity.
Qed.

Lemma promote_effect_witness :
  exists r,
    0 <= r <= 10 /\
    promote 0%nat 100 world_trio rng_game =
      Ok ("Promotions boost Project Fresh's popularity by " +:+ str (5 + r) +:+ ". Cost 100.")
         (mkWorld (trainee_objs world_trio)
                  [Group.mk "Project Fresh" [0%nat; 1%nat; 2%nat] "Fresh" (0 + (5 + r))]
                  (GameState.set_company
                     (Some (Company.mk "IdoLab Entertainment" 4900 (10 + (5 + r) / 3)
                              [0%nat; 1%nat; 2%nat] [0%nat] []))
                     (state world_trio)))
         (mkRng (source rng_game) 1).
Proof.
  destruct (promote_effect 0%nat 100 world_trio rng_game _ _ eq_refl ltac:(simpl; lia) eq_refl)
    as (r & Hr & E).
  exists r. split; [exact Hr|]. exact E.
Defined.

(** X16.  [release_song(group, title, budget)] for a company that can
    pay, on a group whose members are live: a [SongProject] with the
    title, the budget and the concept "Bright" is appended to the
    projects and the budget is taken; the result is power // 3 +
    budget // 15 + roll, with power the members' average score plus
    0..15 and roll in -15..55 (a critical hit included); it is added to
    the group's popularity as it is, negative or not, while the
    reputation gains max(0, result // 8) and so never falls.  No trainee
    and no other group changes. *)
Theorem release_song_effect group title budget w g c grp :
  GameState.company (state w) = Some c -> budget <= Company.money c ->
  group_objs w !! group = Some grp -> trefs_live w (Group.members grp) ->
  exists chemistry_bonus roll,
    0 <= chemistry_bonus <= 15 /\ -15 <= roll <= 55 /\
    let result := (member_power w grp + chemistry_bonus) / 3 + budget / 15 + roll in
    release_song group title budget w g =
      Ok ("Released '" +:+ title +:+ "'. Result +" +:+ str result +:+ " popularity for "
          +:+ Group.name grp +:+ ". Cost " +:+ str budget +:+ ".")
         (mkWorld (trainee_objs w)
                  (<[group := Group.set_popularity (Group.popularity grp + result) grp]>
                     (group_objs w))
                  (GameState.set_company
                     (Some (Company.mk (Company.name c) (Company.money c - budget)
                              (Company.reputation c + Z.max 0 (result / 8))
                              (Company.trainees c) (Company.groups c)
                              (Company.projects c ++ [SongProject.mk title budget "Bright"])))
                     (state w)))
         (mkRng (source g) (S (S (S (cursor g))))) /\
    Company.reputation c <= Company.reputation c + Z.max 0 (result / 8).
Proof.
  intros Hc Hmoney Hg Hlive.
  set (w1 := set_state
               (GameState.set_company
                  (Some (Company.set_money (Company.money c - budget)
                           (Company.set_projects
                              (Company.projects c ++ [SongProject.mk title budget "Bright"]) c)))
                  (state w)) w).
  destruct (calculate_power_run group w1 g grp Hg Hlive) as (chem & Hchem & Epow).
  set (g1 := mkRng (source g) (S (cursor g))) in *.
  set (roll0 := -15 + source g1 (cursor g1) mod (25 - -15 + 1)).
  set (critical := float_lt (event_roll (mkRng (source g1) (S (cursor g1)))) lit_0_1).
  exists chem, (if critical then roll0 + 30 else roll0).
  pose proof (randint_range (-15) 25 (source g1 (cursor g1)) ltac:(lia)) as Hr. fold roll0 in Hr.
  split; [exact Hchem|]. split; [destruct critical; lia|]. cbv zeta. split; [|lia].
  unfold release_song.
  erewrite bind_Ok by (apply get_company_run; exact Hc).
  destruct (Z.ltb_spec (Company.money c) budget) as [|_]; [lia|]. cbv zeta.
  erewrite bind_Ok by (apply upd_company_run; exact Hc).
  erewrite bind_Ok by (apply upd_company_run; reflexivity).
  erewrite bind_Ok by exact Epow.
  erewrite bind_Ok.
  2: { unfold outcome. erewrite bind_Ok by (apply randint_run; lia). reflexivity. }
  cbv zeta beta. fold roll0. 
  erewrite bind_Ok by (apply upd_group_run; exact Hg).
  erewrite bind_Ok by (apply upd_company_run; reflexivity).
  erewrite bind_Ok by (apply get_group_run; simpl; apply list_lookup_insert_eq;
                       eapply lookup_lt_Some, Hg).
  reflexivity.
Qed.

Lemma release_song_effect_witness :
  exists result,
    55 <= result <= 130 /\
    Group.popularity <$> group_objs (res_world (release_song 0%nat "First Light" 300
                                                  world_trio rng_game)) !! 0%nat
      = Some (0 + result) /\
    GameState.company (state (res_world (release_song 0%nat "First Light" 300
                                           world_trio rng_game)))
      = Some (Company.mk "IdoLab Entertainment" 4700 (10 + Z.max 0 (result / 8))
                [0%nat; 1%nat; 2%nat] [0%nat] [SongProject.mk "First Light" 300 "Bright"]).
Proof.
  assert (Hlive : trefs_live world_trio [0%nat; 1%nat; 2%nat]).
  { repeat constructor; eexists; reflexivity. }
  destruct (release_song_effect 0%nat "First Light" 300 world_trio rng_game _ _
              eq_refl ltac:(simpl; lia) eq_refl Hlive)
    as (chem & roll & Hchem & Hroll & E & _).
  cbv zeta in E. rewrite E. eexists. split; [|split; reflexivity].
  change (member_power world_trio (Group.mk "Project Fresh" [0%nat; 1%nat; 2%nat] "Fresh" 0))
    with 150.
  change (300 / 15) with 20.
  assert (50 <= (150 + chem) / 3 <= 55).
  { split; [apply Z.div_le_lower_bound; lia|]. apply Z.div_le_upper_bound; lia. }
  lia.
Defined.

(** * The company's actions: the debut *)

Lemma filterM_names_run names rs w g :
  trefs_live w rs ->
  filterM (fun r => t <- get_trainee r ;;
                    ret (existsb (String.eqb (Trainee.name t)) names)) rs w g
  = Ok (selected_by_name w names rs) w g.
Proof.
  unfold trefs_live, selected_by_name. induction 1 as [|r rs [t Ht] _ IH]; [reflexivity|].
  cbn [filterM List.filter]. unfold bind at 1. unfold bind at 1.
  rewrite (get_trainee_run _ _ _ _ Ht). unfold ret at 1.
  unfold bind at 1. rewrite IH. rewrite Ht. unfold ret.
  destruct (existsb _ names); reflexivity.
Qed.

Lemma selected_by_name_live w names rs :
  trefs_live w rs -> trefs_live w (selected_by_name w names rs).
Proof.
  unfold trefs_live, selected_by_name. induction 1 as [|r rs Hr _ IH]; [constructor|].
  cbn [List.filter]. destruct (match trainee_objs w !! r with Some _ => _ | None => _ end);
    [constructor; assumption|exact IH].
Qed.

Lemma plan_debut_nobody names concept budget w g c :
  GameState.company (state w) = Some c -> budget <= Company.money c ->
  trefs_live w (Company.trainees c) ->
  selected_by_name w names (Company.trainees c) = [] ->
  plan_debut names concept budget w g = Ok "No valid trainees selected." w g.
Proof.
  intros Hc Hmoney Hlive Hsel. unfold plan_debut.
  erewrite bind_Ok by (apply get_company_run; exact Hc).
  destruct (Z.ltb_spec (Company.money c) budget) as [|_]; [lia|].
  erewrite bind_Ok by (apply filterM_names_run; exact Hlive).
  rewrite Hsel. reflexivity.
Qed.

Lemma plan_debut_group names concept budget w g c :
  GameState.company (state w) = Some c -> budget <= Company.money c ->
  trefs_live w (Company.trainees c) ->
  selected_by_name w names (Company.trainees c) <> [] ->
  exists chemistry_bonus d,
    0 <= chemistry_bonus <= 15 /\ -10 <= d <= 15 /\
    let selected := selected_by_name w names (Company.trainees c) in
    let group := Group.mk ("Project " +:+ concept) selected concept 0 in
    let pop_gain := (member_power w group + chemistry_bonus) / 5 + budget / 10 + d in
    plan_debut names concept budget w g =
      Ok ("Debuted group Project " +:+ concept +:+ "! Popularity +" +:+ str pop_gain
          +:+ ". Budget -" +:+ str budget +:+ ".")
         (mkWorld (fold_left (bump_popularity (pop_gain / 2)) selected (trainee_objs w))
                  (group_objs w ++ [Group.set_popularity (0 + pop_gain) group])
                  (GameState.set_company
                     (Some (Company.mk (Company.name c) (Company.money c - budget)
                              (Company.reputation c + pop_gain / 10) (Company.trainees c)
                              (Company.groups c ++ [length (group_objs w)])
                              (Company.projects c)))
                     (state w)))
         (mkRng (source g) (S (S (cursor g)))).
Proof.
  intros Hc Hmoney Hlive Hsel.
  set (selected := selected_by_name w names (Company.trainees c)) in *.
  set (group := Group.mk ("Project " +:+ concept) selected concept 0).
  set (gr := length (group_objs w)).
  set (w1 := set_group_objs (group_objs w ++ [group]) w).
  set (c2 := Company.set_money (Company.money c - budget)
               (Company.set_groups (Company.groups c ++ [gr]) c)).
  set (w2 := set_state (GameState.set_company (Some c2) (state w)) w1).
  assert (Hg2 : group_objs w2 !! gr = Some group).
  { simpl. apply list_lookup_middle. reflexivity. }
  assert (Hlive2 : trefs_live w2 (Group.members group)).
  { simpl. apply (selected_by_name_live w names _ Hlive). }
  destruct (calculate_power_run gr w2 g group Hg2 Hlive2) as (chem & Hchem & Epow).
  exists chem, (-10 + source g (S (cursor g)) mod (15 - -10 + 1)).
  split; [exact Hchem|]. split; [apply randint_range; lia|]. cbv zeta.
  fold selected group.
  set (d := -10 + _).
  change (member_power w group) with (member_power w2 group).
  set (pop_gain := (member_power w2 group + chem) / 5 + budget / 10 + d).
  unfold plan_debut.
  erewrite bind_Ok by (apply get_company_run; exact Hc).
  destruct (Z.ltb_spec (Company.money c) budget) as [|_]; [lia|].
  erewrite bind_Ok by (apply filterM_names_run; exact Hlive).
  fold selected.
  assert (Hmatch : forall (A : Type) (a b : A),
             match selected with [] => a | _ :: _ => b end = b).
  { intros A a b. destruct selected; [congruence|reflexivity]. }
  rewrite Hmatch.
  unfold bind at 1, alloc_group at 1. fold gr. fold group. fold w1.
  erewrite bind_Ok by (apply upd_company_run; exact Hc).
  erewrite bind_Ok by (apply upd_company_run; reflexivity).
  change (set_state _ (set_state _ w1)) with w2.
  erewrite bind_Ok.
  2: { unfold debut_effect.
       erewrite bind_Ok by exact Epow.
       erewrite bind_Ok by (apply randint_run; lia). cbv zeta. fold d. fold pop_gain.
       erewrite bind_Ok by (apply upd_group_run; exact Hg2).
       erewrite bind_Ok by (apply get_group_run; simpl; apply list_lookup_insert_eq;
                            eapply lookup_lt_Some, Hg2).
       simpl Group.members.
       erewrite bind_Ok by (apply forM_adjust_popularity_run; exact Hlive2).
       reflexivity. }
  erewrite bind_Ok by (apply upd_company_run; reflexivity).
  erewrite bind_Ok.
  2: { apply get_group_run. simpl. apply list_lookup_insert_eq. eapply lookup_lt_Some, Hg2. }
  unfold ret. f_equal.
  unfold w2, w1, set_state, set_group_objs, set_trainee_objs. simpl. f_equal.
  unfold gr. rewrite insert_app_r_alt by lia. rewrite Nat.sub_diag. reflexivity.
Qed.

(** X17.  [plan_debut(names, concept, budget)] for a company that can pay.
    The members of the new group are the trainees of the roster whose name
    is in [names], in roster order: every trainee bearing a listed name is
    taken, and a name listed twice counts once.  When there is none the
    answer is "No valid trainees selected." and nothing changes, the
    budget included.  Otherwise the group "Project <concept>" is created
    and appended to the company's groups, the budget is taken, the group's
    popularity becomes the gain of [debut_effect], each member gets half
    of it through [adjust_popularity], and the reputation gains a tenth of
    it. *)
Theorem plan_debut_forms_group names concept budget w g c :
  GameState.company (state w) = Some c -> budget <= Company.money c ->
  trefs_live w (Company.trainees c) ->
  let selected := selected_by_name w names (Company.trainees c) in
  (selected = [] ->
   plan_debut names concept budget w g = Ok "No valid trainees selected." w g) /\
  (selected <> [] ->
   exists chemistry_bonus d,
     0 <= chemistry_bonus <= 15 /\ -10 <= d <= 15 /\
     let group := Group.mk ("Project " +:+ concept) selected concept 0 in
     let pop_gain := (member_power w group + chemistry_bonus) / 5 + budget / 10 + d in
     plan_debut names concept budget w g =
       Ok ("Debuted group Project " +:+ concept +:+ "! Popularity +" +:+ str pop_gain
           +:+ ". Budget -" +:+ str budget +:+ ".")
          (mkWorld (fold_left (bump_popularity (pop_gain / 2)) selected (trainee_objs w))
                   (group_objs w ++ [Group.set_popularity (0 + pop_gain) group])
                   (GameState.set_company
                      (Some (Company.mk (Company.name c) (Company.money c - budget)
                               (Company.reputation c + pop_gain / 10) (Company.trainees c)
                               (Company.groups c ++ [length (group_objs w)])
                               (Company.projects c)))
                      (state w)))
          (mkRng (source g) (S (S (cursor g))))).
Proof.
  intros Hc Hmoney Hlive selected. split.
  - intros Hsel. exact (plan_debut_nobody names concept budget w g c Hc Hmoney Hlive Hsel).
  - intros Hsel. exact (plan_debut_group names concept budget w g c Hc Hmoney Hlive Hsel).
Qed.

Lemma plan_debut_forms_group_witness :
  plan_debut ["Luna"] "Dark" 500 world_twins rng_game =
    Ok "No valid trainees selected." world_twins rng_game /\
  exists pop_gain,
    group_objs (res_world (plan_debut ["Mina"; "Mina"] "Dark" 500 world_twins rng_game)) =
      [Group.mk "Project Dark" [0%nat; 1%nat] "Dark" (0 + pop_gain)] /\
    Company.groups <$> GameState.company
      (state (res_world (plan_debut ["Mina"; "Mina"] "Dark" 500 world_twins rng_game)))
      = Some [0%nat].
Proof.
  assert (Hlive : trefs_live world_twins [0%nat; 1%nat; 2%nat]).
  { repeat constructor; eexists; reflexivity. }
  split.
  - destruct (plan_debut_forms_group ["Luna"] "Dark" 500 world_twins rng_game _
                eq_refl ltac:(simpl; lia) Hlive) as [H _].
    exact (H eq_refl).
  - destruct (plan_debut_forms_group ["Mina"; "Mina"] "Dark" 500 world_twins rng_game _
                eq_refl ltac:(simpl; lia) Hlive) as [_ H].
    destruct (H ltac:(discriminate)) as (chem & d & _ & _ & E).
    cbv zeta in E. rewrite E. eexists. split; reflexivity.
Defined.

Lemma mapM_picks_run roster picks w g :
  trefs_live w roster ->
  mapM (fun idx =>
          if (0 <=? idx) && (idx <? Z.of_nat (length roster)) then
            match py_index roster idx with
            | Some r => t <- get_trainee r ;; ret [Trainee.name t]
            | None => raise IndexError
            end
          else ret [])
       picks w g
  = Ok (map (fun idx =>
               if (0 <=? idx) && (idx <? Z.of_nat (length roster)) then
                 match roster !! Z.to_nat idx with
                 | Some r => match trainee_objs w !! r with
                             | Some t => [Trainee.name t]
                             | None => []
                             end
                 | None => []
                 end
               else []) picks) w g.
Proof.
  intros Hlive. induction picks as [|idx picks IH]; [reflexivity|].
  cbn [mapM map].
  destruct ((0 <=? idx) && (idx <? Z.of_nat (length roster))) eqn:Hin.
  - apply andb_true_iff in Hin as [H0 Hlt]. apply Z.leb_le in H0. apply Z.ltb_lt in Hlt.
    unfold py_index. destruct (Z.leb_spec 0 idx) as [_|]; [|lia].
    destruct (roster !! Z.to_nat idx) as [r|] eqn:Hr.
    + unfold trefs_live in Hlive. rewrite Forall_lookup in Hlive.
      destruct (Hlive _ _ Hr) as [t Ht]. rewrite Ht.
      erewrite bind_Ok
        by (erewrite bind_Ok by (apply get_trainee_run; exact Ht); reflexivity).
      erewrite bind_Ok by exact IH. reflexivity.
    + apply lookup_ge_None in Hr. lia.
  - erewrite bind_Ok by reflexivity.
    erewrite bind_Ok by exact IH. reflexivity.
Qed.

Lemma selected_by_no_name w rs : selected_by_name w [] rs = [].
Proof.
  unfold selected_by_name. induction rs as [|r rs IH]; [reflexivity|].
  cbn [List.filter]. destruct (trainee_objs w !! r); simpl; exact IH.
Qed.

(** X18.  "Plan debut" turns the picks into names before it calls
    [plan_debut]: an index outside the roster is dropped without an
    error, and the names of the trainees at the other indices are
    passed on, with the concept typed or "Fresh".  When no pick lies in
    the roster (none typed, none parsed, all out of range) and the company
    can pay the budget, the answer is "No valid trainees selected." and
    nothing changes. *)
Theorem handle_ceo_action_debut_picks inp w g c :
  GameState.company (state w) = Some c ->
  Company.trainees c <> [] -> trefs_live w (Company.trainees c) ->
  handle_ceo_action 3 inp w g =
    plan_debut (picked_names w (Company.trainees c) (in_picks inp))
               (if String.eqb (in_concept inp) "" then "Fresh" else in_concept inp)
               (in_budget inp) w g /\
  (Forall (fun idx => idx < 0 \/ Z.of_nat (length (Company.trainees c)) <= idx) (in_picks inp) ->
   in_budget inp <= Company.money c ->
   handle_ceo_action 3 inp w g = Ok "No valid trainees selected." w g).
Proof.
  intros Hc Hne Hlive.
  assert (Hlen : (Z.of_nat (length (Company.trainees c)) <? 1) = false).
  { destruct (Company.trainees c); [congruence|]. apply Z.ltb_ge. simpl length. lia. }
  assert (E : handle_ceo_action 3 inp w g =
              plan_debut (picked_names w (Company.trainees c) (in_picks inp))
                (if String.eqb (in_concept inp) "" then "Fresh" else in_concept inp)
                (in_budget inp) w g).
  { unfold handle_ceo_action. unfold bind at 1, get_state at 1. rewrite Hc.
    change (3 =? 1) with false. change (3 =? 2) with false. change (3 =? 3) with true.
    cbv iota. rewrite Hlen.
    erewrite bind_Ok by (apply mapM_picks_run; exact Hlive).
    cbv zeta. unfold picked_names. rewrite flat_map_concat_map. reflexivity. }
  split; [exact E|]. intros Hout Hmoney. rewrite E.
  assert (Hnames : picked_names w (Company.trainees c) (in_picks inp) = []).
  { unfold picked_names. revert Hout. generalize (in_picks inp) as picks.
    induction picks as [|idx picks IH]; intros Hout; [reflexivity|].
    inversion Hout as [|? ? Hidx Hrest]; subst.
    cbn [flat_map]. rewrite (IH Hrest).
    destruct (Z.leb_spec 0 idx); destruct (Z.ltb_spec idx (Z.of_nat (length (Company.trainees c))));
      simpl; try reflexivity; lia. }
  rewrite Hnames. apply (plan_debut_nobody [] _ _ w g c Hc Hmoney Hlive).
  apply selected_by_no_name.
Qed.

Lemma handle_ceo_action_debut_picks_witness :
  handle_ceo_action 3 (mkInputs "" 0 "" [3; -1] "" "" 500) world_twins rng_game =
    Ok "No valid trainees selected." world_twins rng_game /\
  Group.members <$>
    group_objs (res_world (handle_ceo_action 3 (mkInputs "" 0 "" [0; 7] "" "" 500)
                             world_twins rng_game)) !! 0%nat
    = Some [0%nat; 1%nat].
Proof.
  assert (Hlive : trefs_live world_twins [0%nat; 1%nat; 2%nat]).
  { repeat constructor; eexists; reflexivity. }
  split.
  - destruct (handle_ceo_action_debut_picks (mkInputs "" 0 "" [3; -1] "" "" 500)
                world_twins rng_game _ eq_refl ltac:(discriminate) Hlive) as [_ H].
    apply H; [|simpl; lia]. repeat constructor; simpl; lia.
  - destruct (handle_ceo_action_debut_picks (mkInputs "" 0 "" [0; 7] "" "" 500)
                world_twins rng_game _ eq_refl ltac:(discriminate) Hlive) as [E _].
    rewrite E. reflexivity.
Defined.

(** * Starting a game *)

Lemma take_pred_last {A} (l : list A) last :
  l !! pred (length l) = Some last -> take (pred (length l)) l ++ [last] = l.
Proof.
  intros H. pose proof (take_drop_middle _ _ _ H) as E.
  assert (Hlt : (pred (length l) < length l)%nat) by (eapply lookup_lt_Some, H).
  replace (S (pred (length l))) with (length l) in E by lia.
  rewrite drop_all in E. exact E.
Qed.

Lemma sample_pool_shrinks {A} (pool : list A) (j : nat) picked last :
  pool !! j = Some picked -> pool !! pred (length pool) = Some last ->
  picked :: take (pred (length pool)) (<[j := last]> pool) ≡ₚ pool.
Proof.
  revert j picked. induction pool as [|x pool IH]; intros j picked Hj Hlast; [discriminate|].
  destruct pool as [|y pool'].
  - destruct j; [|discriminate]. simpl in *. injection Hj as <-. reflexivity.
  - set (rest := y :: pool') in *.
    assert (Hlast' : rest !! pred (length rest) = Some last) by exact Hlast.
    change (pred (length (x :: rest))) with (S (pred (length rest))).
    destruct j as [|j].
    + simpl in Hj. injection Hj as <-. cbn [insert list_insert take].
      constructor. etransitivity; [apply Permutation_cons_append|].
      rewrite (take_pred_last rest last Hlast'). reflexivity.
    + simpl in Hj. cbn [insert list_insert take].
      etransitivity; [apply perm_swap|]. constructor. apply IH; assumption.
Qed.

Lemma sample_run {A} (pool : list A) (k : nat) w g :
  (k <= length pool)%nat ->
  exists ys,
    sample pool k w g = Ok ys w (mkRng (source g) (k + cursor g)) /\
    length ys = k /\ ys ⊆+ pool.
Proof.
  revert pool g. induction k as [|k IH]; intros pool g Hk.
  - exists []. split; [destruct g; reflexivity|]. split; [reflexivity|]. apply submseteq_nil_l.
  - destruct pool as [|x0 pool0]; [simpl in Hk; lia|].
    cbn [sample]. set (pool := x0 :: pool0) in *.
    assert (Hn : (0 < length pool)%nat) by (simpl; lia).
    unfold bind at 1, draw at 1.
    set (j := Z.to_nat (source g (cursor g) mod Z.of_nat (length pool))).
    assert (Hj : (j < length pool)%nat).
    { unfold j. pose proof (Z.mod_pos_bound (source g (cursor g)) (Z.of_nat (length pool))). lia. }
    destruct (lookup_lt_is_Some_2 pool j Hj) as [picked Hpicked].
    destruct (lookup_lt_is_Some_2 pool (pred (length pool)) ltac:(lia)) as [last Hlast].
    rewrite Hpicked, Hlast.
    set (pool' := take (pred (length pool)) (<[j := last]> pool)).
    destruct (IH pool' (mkRng (source g) (S (cursor g)))) as (ys & E & Hlen & Hsub).
    { unfold pool'. rewrite length_take, length_insert. lia. }
    exists (picked :: ys). split; [|split].
    + erewrite bind_Ok by exact E. unfold ret. f_equal. f_equal. simpl. lia.
    + simpl. congruence.
    + rewrite <- (sample_pool_shrinks pool j picked last Hpicked Hlast). fold pool'.
      apply submseteq_skip. exact Hsub.
Qed.

Lemma mapM_seed_run labels w g :
  exists pops,
    length pops = length labels /\ Forall (fun p => 5 <= p <= 20) pops /\
    mapM (fun label => p <- randint 5 20 ;; alloc_trainee (Trainee.mk label 30 30 30 30 30 70 p 10 1))
         labels w g
    = Ok (seq (length (trainee_objs w)) (length labels))
         (set_trainee_objs (trainee_objs w ++ zip_with starter labels pops) w)
         (mkRng (source g) (length labels + cursor g)).
Proof.
  revert w g. induction labels as [|label labels IH]; intros w g.
  - exists []. split; [reflexivity|]. split; [constructor|].
    simpl. rewrite app_nil_r. destruct w, g; reflexivity.
  - set (p := 5 + source g (cursor g) mod (20 - 5 + 1)).
    set (w1 := set_trainee_objs (trainee_objs w ++ [starter label p]) w).
    destruct (IH w1 (mkRng (source g) (S (cursor g)))) as (pops & Hlen & Hpops & E).
    exists (p :: pops). split; [simpl; congruence|].
    split; [constructor; [apply randint_range; lia|exact Hpops]|].
    cbn [mapM].
    erewrite bind_Ok
      by (erewrite bind_Ok by (apply randint_run; lia); reflexivity).
    fold p. fold (starter label p). fold w1.
    erewrite bind_Ok by exact E.
    unfold ret, w1, set_trainee_objs. simpl. rewrite length_app. simpl.
    rewrite <- app_assoc. simpl.
    replace (length (trainee_objs w) + 1)%nat with (S (length (trainee_objs w))) by lia.
    f_equal. f_equal. lia.
Qed.

Lemma starter_names_NoDup : NoDup starter_names.
Proof. apply (bool_decide_unpack _). vm_compute. exact I. Qed.

Lemma initialize_game_run name role w g :
  exists labels pops,
    labels ⊆+ starter_names /\ length labels = 3%nat /\
    length pops = 3%nat /\ Forall (fun p => 5 <= p <= 20) pops /\
    initialize_game name role w g =
      Ok tt
         (mkWorld (trainee_objs w ++ zip_with starter labels pops
                     ++ (if String.eqb role "Trainee" then [player_trainee name] else []))
                  (group_objs w)
                  (GameState.mk 1 1 1
                     (Some (Player.mk name role
                              (if String.eqb role "Trainee"
                               then Some (length (trainee_objs w) + 3)%nat else None)))
                     (Some (Company.mk "IdoLab Entertainment" 5000 10
                              (seq (length (trainee_objs w)) 3
                                 ++ (if String.eqb role "Trainee"
                                     then [(length (trainee_objs w) + 3)%nat] else []))
                              [] []))
                     0 []))
         (mkRng (source g) (6 + cursor g)).
Proof.
  destruct (sample_run starter_names 3 w g ltac:(simpl; lia)) as (labels & Es & Hlen & Hsub).
  destruct (mapM_seed_run labels w (mkRng (source g) (3 + cursor g)))
    as (pops & Hplen & Hpops & Em).
  exists labels, pops.
  split; [exact Hsub|]. split; [exact Hlen|]. split; [congruence|]. split; [exact Hpops|].
  unfold initialize_game. cbv zeta. fold starter_names.
  erewrite bind_Ok by exact Es.
  erewrite bind_Ok by exact Em.
  rewrite Hlen. cbn [source cursor].
  destruct (String.eqb role "Trainee").
  - assert (HL : length (trainee_objs w ++ zip_with starter labels pops)
                 = (length (trainee_objs w) + 3)%nat).
    { rewrite length_app, length_zip_with, Hplen, Hlen. reflexivity. }
    unfold bind at 1, alloc_trainee at 1. unfold modify_state, modify_world.
    unfold set_trainee_objs, set_state. cbn [trainee_objs group_objs state].
    rewrite HL, <- app_assoc. reflexivity.
  - unfold modify_state, modify_world, set_trainee_objs, set_state. simpl.
    rewrite !app_nil_r. reflexivity.
Qed.

(** X19.  [initialize_game] always returns.  The new state is on day 1
    of month 1 of year 1 with no failure and an empty log; the company
    "IdoLab Entertainment" holds 5000 with reputation 10, no group and no
    project.  Its roster starts with three new trainees whose names are
    three different names of Ara, Min, Jisu, Luna and Kai, with the
    default attributes and a popularity drawn from 5..20.  For the role
    "Trainee" a fourth trainee follows, named after the player, with
    35/35/30/35/35 for vocal/dance/rap/visual/charisma and stamina 80, and
    is the player's character; for any other role the player has no
    character.  Six draws are taken: three for the sample, then one per
    starter. *)
Theorem initialize_game_start name role w g :
  exists labels pops,
    length labels = 3%nat /\ NoDup labels /\ Forall (fun l => l ∈ starter_names) labels /\
    length pops = 3%nat /\ Forall (fun p => 5 <= p <= 20) pops /\
    let n := length (trainee_objs w) in
    let trainee_mode := String.eqb role "Trainee" in
    initialize_game name role w g =
      Ok tt
         (mkWorld (trainee_objs w ++ zip_with starter labels pops
                     ++ (if trainee_mode then [player_trainee name] else []))
                  (group_objs w)
                  (GameState.mk 1 1 1
                     (Some (Player.mk name role
                              (if trainee_mode then Some (n + 3)%nat else None)))
                     (Some (Company.mk "IdoLab Entertainment" 5000 10
                              (seq n 3 ++ (if trainee_mode then [(n + 3)%nat] else []))
                              [] []))
                     0 []))
         (mkRng (source g) (6 + cursor g)).
Proof.
  destruct (initialize_game_run name role w g) as (labels & pops & Hsub & Hlen & Hplen & Hpops & E).
  exists labels, pops.
  destruct (submseteq_Permutation _ _ Hsub) as (k & Hperm).
  assert (Hnd : NoDup (labels ++ k)) by (rewrite <- Hperm; exact starter_names_NoDup).
  split; [exact Hlen|]. split; [apply NoDup_app in Hnd; apply Hnd|].
  split.
  { apply Forall_forall. intros l Hl. rewrite Hperm. apply elem_of_app. left. exact Hl. }
  split; [exact Hplen|]. split; [exact Hpops|]. exact E.
Qed.

(** * The calendar, the log and the end of the game *)

Lemma I_seat_trainees c : indep_trainees (I_seat c).
Proof. intros w g v H. exact H. Qed.
Lemma I_seat_groups c : indep_groups (I_seat c).
Proof. intros w g v H. exact H. Qed.
Lemma I_seat_cursor c : indep_cursor (I_seat c).
Proof. intros w g H. exact H. Qed.
#[export] Hint Resolve I_seat_trainees I_seat_groups I_seat_cursor : pres.

Lemma seat_upd_company c f : preserves (I_seat c) (upd_company f).
Proof.
  apply preserves_upd_company_gen. intros w g co H Hco. unfold I_seat, seat in *.
  rewrite <- H. simpl. rewrite Hco. reflexivity.
Qed.

Lemma seat_trainee_failures c f :
  preserves (I_seat c) (modify_state (fun s => GameState.set_trainee_failures (f s) s)).
Proof. apply preserves_modify_state_gen. intros w g H. exact H. Qed.
#[export] Hint Resolve seat_upd_company seat_trainee_failures : pres.

Lemma seat_train c self stat intensity : preserves (I_seat c) (train self stat intensity).
Proof. unfold train. pres. Qed.
Lemma seat_rest c self : preserves (I_seat c) (rest self).
Proof. unfold rest. pres. Qed.
Lemma seat_adjust_popularity c self amount : preserves (I_seat c) (adjust_popularity self amount).
Proof. unfold adjust_popularity. pres. Qed.
Lemma seat_adjust_relationship c self amount :
  preserves (I_seat c) (adjust_relationship self amount).
Proof. unfold adjust_relationship. pres. Qed.
#[export] Hint Resolve seat_train seat_rest seat_adjust_popularity seat_adjust_relationship : pres.

Lemma seat_calculate_power c self : preserves (I_seat c) (calculate_power self).
Proof. unfold calculate_power. pres. Qed.
#[export] Hint Resolve seat_calculate_power : pres.
Lemma seat_debut_effect c self budget : preserves (I_seat c) (debut_effect self budget).
Proof. unfold debut_effect. pres. Qed.
Lemma seat_outcome c self p : preserves (I_seat c) (outcome self p).
Proof. unfold outcome. pres. Qed.
#[export] Hint Resolve seat_debut_effect seat_outcome : pres.

Lemma seat_recruit_trainee c name : preserves (I_seat c) (recruit_trainee name).
Proof. unfold recruit_trainee. pres. Qed.
Lemma seat_schedule_training c trainee focus :
  preserves (I_seat c) (schedule_training trainee focus).
Proof. unfold schedule_training. pres. Qed.
Lemma seat_plan_debut c names concept budget :
  preserves (I_seat c) (plan_debut names concept budget).
Proof. unfold plan_debut. pres. Qed.
Lemma seat_release_song c group title budget :
  preserves (I_seat c) (release_song group title budget).
Proof. unfold release_song. pres. Qed.
Lemma seat_promote c group budget : preserves (I_seat c) (promote group budget).
Proof. unfold promote. pres. Qed.
Lemma seat_update_finances c amount : preserves (I_seat c) (update_finances amount).
Proof. unfold update_finances. pres. Qed.
#[export] Hint Resolve seat_recruit_trainee seat_schedule_training seat_plan_debut
  seat_release_song seat_promote seat_update_finances : pres.

Lemma seat_monthly_evaluation c : preserves (I_seat c) monthly_evaluation.
Proof. unfold monthly_evaluation. pres. Qed.
Lemma seat_handle_ceo_action c choice inp : preserves (I_seat c) (handle_ceo_action choice inp).
Proof. unfold handle_ceo_action. pres. Qed.
Lemma seat_handle_trainee_action c choice focus :
  preserves (I_seat c) (handle_trainee_action choice focus).
Proof. unfold handle_trainee_action. pres. Qed.
Lemma seat_random_event c : preserves (I_seat c) random_event.
Proof. unfold random_event, adjust_popularity. pres. Qed.
Lemma seat_check_victory_or_defeat c : preserves (I_seat c) check_victory_or_defeat.
Proof. unfold check_victory_or_defeat. pres. Qed.

Lemma bind_Ok_inv {A B} (m : M A) (k : A -> M B) w g b w' g' :
  bind m k w g = Ok b w' g' ->
  exists a w1 g1, m w g = Ok a w1 g1 /\ k a w1 g1 = Ok b w' g'.
Proof.
  unfold bind. destruct (m w g) as [a w1 g1|]; [|discriminate]. intros H. eauto.
Qed.

(** What an outcome that keeps the seat keeps. *)
Lemma seat_fields s s' :
  seat s' = seat s ->
  GameState.day s' = GameState.day s /\ GameState.month s' = GameState.month s /\
  GameState.year s' = GameState.year s /\
  GameState.message_log s' = GameState.message_log s /\
  GameState.player s' = GameState.player s /\
  (is_Some (GameState.company s') <-> is_Some (GameState.company s)).
Proof.
  unfold seat, clock. intros H.
  pose proof (f_equal snd H) as Hb. simpl in Hb.
  pose proof (f_equal fst H) as Hc. simpl in Hc. injection Hc as H1 H2 H3 H4 H5.
  repeat match goal with |- _ /\ _ => split end; try assumption.
  split; intros Hs; apply (bool_decide_eq_true_2 _) in Hs;
    [rewrite Hb in Hs|rewrite <- Hb in Hs]; exact (bool_decide_eq_true_1 _ Hs).
Qed.

Lemma rollover_date s :
  date_ok s -> GameState.day s = 30 ->
  date_ok (rollover s) /\ day_number (rollover s) = day_number s + 1 /\
  GameState.message_log (rollover s) = GameState.message_log s /\
  GameState.player (rollover s) = GameState.player s /\
  GameState.company (rollover s) = GameState.company s.
Proof.
  unfold date_ok, day_number, rollover. intros [Hd Hm] H30. simpl.
  destruct (Z.ltb_spec 12 (GameState.month s + 1)); simpl; repeat split; lia.
Qed.

Lemma advance_day_outcome w g :
  date_ok (state w) ->
  date_ok (state (res_world (advance_day w g))) /\
  day_number (state (res_world (advance_day w g))) = day_number (state w) + 1 /\
  GameState.player (state (res_world (advance_day w g))) = GameState.player (state w) /\
  (is_Some (GameState.company (state (res_world (advance_day w g))))
   <-> is_Some (GameState.company (state w))) /\
  exists extra,
    GameState.message_log (state (res_world (advance_day w g)))
      = GameState.message_log (state w) ++ extra /\
    (length extra <= 1)%nat /\ (GameState.day (state w) < 30 -> extra = []).
Proof.
  intros Hdate. destruct (Z.lt_ge_cases (GameState.day (state w)) 30) as [Hlt|Hge].
  - rewrite advance_day_within_month by exact Hlt. simpl.
    unfold date_ok, day_number in *. simpl.
    split; [lia|]. split; [lia|]. split; [reflexivity|]. split; [reflexivity|].
    exists []. rewrite app_nil_r. split; [reflexivity|]. split; [simpl; lia|reflexivity].
  - rewrite advance_day_rollover by exact Hge.
    assert (H30 : GameState.day (state w) = 30) by (unfold date_ok in Hdate; lia).
    destruct (rollover_date (state w) Hdate H30) as (Hd1 & Hn1 & Hl1 & Hp1 & Hc1).
    set (w1 := set_state (rollover (state w)) w).
    pose proof (seat_monthly_evaluation (seat (state w1)) w1 g eq_refl) as Hseat.
    unfold bind. destruct (monthly_evaluation w1 g) as [msg w2 g2|e w2 g2]; simpl in Hseat.
    + apply seat_fields in Hseat as (Hd & Hm & Hy & Hl & Hp & Hc).
      unfold append_log, modify_state, modify_world. simpl.
      unfold date_ok, day_number in *. simpl. rewrite Hd, Hm, Hy, Hl.
      split; [exact Hd1|]. split; [exact Hn1|].
      split; [rewrite Hp; exact Hp1|]. split; [rewrite Hc; simpl; rewrite Hc1; reflexivity|].
      exists [msg]. split; [simpl; rewrite Hl1; reflexivity|]. split; [simpl; lia|lia].
    + apply seat_fields in Hseat as (Hd & Hm & Hy & Hl & Hp & Hc). simpl.
      unfold date_ok, day_number in *. rewrite Hd, Hm, Hy, Hl.
      split; [exact Hd1|]. split; [exact Hn1|].
      split; [rewrite Hp; exact Hp1|]. split; [rewrite Hc; simpl; rewrite Hc1; reflexivity|].
      exists []. rewrite app_nil_r. split; [simpl; exact Hl1|]. split; [simpl; lia|reflexivity].
Qed.

Lemma seat_kept {A} (m : M A) w g a w' g' :
  (forall c, preserves (I_seat c) m) -> m w g = Ok a w' g' -> seat (state w') = seat (state w).
Proof. intros H E. specialize (H (seat (state w)) w g eq_refl). rewrite E in H. exact H. Qed.

Lemma turn_outcome choice inp w g v w' g' :
  date_ok (state w) -> turn choice inp w g = Ok v w' g' ->
  date_ok (state w') /\ day_number (state w') = day_number (state w) + 1 /\
  GameState.player (state w') = GameState.player (state w) /\
  (is_Some (GameState.company (state w')) <-> is_Some (GameState.company (state w))) /\
  check_victory_or_defeat w' g' = Ok v w' g' /\
  exists result extra,
    GameState.message_log (state w') = GameState.message_log (state w) ++ result :: extra /\
    (length extra <= 2)%nat /\ (GameState.day (state w) < 30 -> (length extra <= 1)%nat).
Proof.
  intros Hdate Hturn. unfold turn in Hturn.
  apply bind_Ok_inv in Hturn as (p & w0 & g0 & Hp & Hturn).
  assert (w0 = w /\ g0 = g) as [-> ->].
  { unfold get_player, bind, get_state in Hp. destruct (GameState.player (state w)); [|discriminate].
    injection Hp as _ <- <-. split; reflexivity. }
  apply bind_Ok_inv in Hturn as (result & w1 & g1 & Hact & Hturn).
  assert (Hs1 : seat (state w1) = seat (state w)).
  { destruct (String.eqb (Player.role p) "CEO").
    - eapply seat_kept; [|exact Hact]. intros c. apply seat_handle_ceo_action.
    - eapply seat_kept; [|exact Hact]. intros c. apply seat_handle_trainee_action. }
  apply bind_Ok_inv in Hturn as ([] & w2 & g2 & Hlog & Hturn).
  unfold append_log, modify_state, modify_world in Hlog. injection Hlog as <- <-.
  apply bind_Ok_inv in Hturn as (event & w3 & g3 & Hev & Hturn).
  pose proof (seat_kept _ _ _ _ _ _ seat_random_event Hev) as Hs3.
  apply bind_Ok_inv in Hturn as ([] & w4 & g4 & Hlog & Hturn).
  apply bind_Ok_inv in Hturn as ([] & w5 & g5 & Hday & Hturn).
  pose proof (readonly_check_victory_or_defeat w5 g5 w5 g5 (conj eq_refl eq_refl)) as Hro.
  rewrite Hturn in Hro. simpl in Hro. destruct Hro as [-> ->].
  apply seat_fields in Hs1 as (Hd1 & Hm1 & Hy1 & Hl1 & Hp1 & Hc1).
  apply seat_fields in Hs3 as (Hd3 & Hm3 & Hy3 & Hl3 & Hp3 & Hc3). simpl in *.
  assert (H4 : exists ev, (length ev <= 1)%nat /\
             GameState.message_log (state w4) = GameState.message_log (state w3) ++ ev /\
             GameState.day (state w4) = GameState.day (state w3) /\
             GameState.month (state w4) = GameState.month (state w3) /\
             GameState.year (state w4) = GameState.year (state w3) /\
             GameState.player (state w4) = GameState.player (state w3) /\
             GameState.company (state w4) = GameState.company (state w3)).
  { destruct event as [e|].
    - destruct (String.eqb e "").
      + injection Hlog as <- <-. exists []. rewrite app_nil_r. repeat split; simpl; lia.
      + unfold append_log, modify_state, modify_world in Hlog. injection Hlog as <- <-.
        exists [e]. repeat split; simpl; lia.
    - injection Hlog as <- <-. exists []. rewrite app_nil_r. repeat split; simpl; lia. }
  destruct H4 as (ev & Hev1 & Hl4 & Hd4 & Hm4 & Hy4 & Hp4 & Hc4).
  assert (Hdate4 : date_ok (state w4)).
  { unfold date_ok in *. rewrite Hd4, Hm4, Hd3, Hm3, Hd1, Hm1. exact Hdate. }
  pose proof (advance_day_outcome w4 g4 Hdate4) as Hadv. rewrite Hday in Hadv. simpl in Hadv.
  destruct Hadv as (Hdate5 & Hn5 & Hp5 & Hc5 & extra & Hl5 & Hlen5 & Hno).
  split; [exact Hdate5|]. split.
  { rewrite Hn5. unfold day_number. rewrite Hd4, Hm4, Hy4, Hd3, Hm3, Hy3, Hd1, Hm1, Hy1.
    reflexivity. }
  split; [rewrite Hp5, Hp4, Hp3; exact Hp1|].
  split; [rewrite Hc5, Hc4, Hc3; exact Hc1|].
  split; [exact Hturn|].
  exists result, (ev ++ extra). split.
  { rewrite Hl5, Hl4, Hl3, Hl1. rewrite <- !app_assoc. reflexivity. }
  split; [rewrite length_app; lia|].
  intros Hlt. rewrite length_app.
  rewrite Hno; [simpl; lia|]. rewrite Hd4, Hd3, Hd1. exact Hlt.
Qed.

Lemma play_outcome turns w g w' g' :
  date_ok (state w) -> play turns w g = Ok None w' g' ->
  date_ok (state w') /\
  day_number (state w') = day_number (state w) + Z.of_nat (length turns) /\
  GameState.player (state w') = GameState.player (state w) /\
  (is_Some (GameState.company (state w')) <-> is_Some (GameState.company (state w))) /\
  (turns <> [] ->
   exists v, (v = None \/ v = Some "") /\ check_victory_or_defeat w' g' = Ok v w' g').
Proof.
  revert w g. induction turns as [|[choice inp] turns IH]; intros w g Hdate Hplay.
  - injection Hplay as <- <-. split; [exact Hdate|]. split; [simpl; lia|].
    split; [reflexivity|]. split; [reflexivity|]. congruence.
  - cbn [play] in Hplay. apply bind_Ok_inv in Hplay as (verdict & w1 & g1 & Hturn & Hplay).
    destruct (turn_outcome _ _ _ _ _ _ _ Hdate Hturn) as (Hd1 & Hn1 & Hp1 & Hc1 & Hchk & _).
    assert (Hrest : play turns w1 g1 = Ok None w' g' /\ (verdict = None \/ verdict = Some "")).
    { destruct verdict as [v|]; [|auto].
      destruct (String.eqb_spec v ""); [subst; auto|discriminate]. }
    destruct Hrest as [Hrest Hv].
    destruct (IH w1 g1 Hd1 Hrest) as (Hd & Hn & Hp & Hc & Hlast).
    split; [exact Hd|]. split; [rewrite Hn, Hn1; simpl length; lia|].
    split; [congruence|]. split; [rewrite Hc; exact Hc1|].
    intros _. destruct turns as [|t turns'].
    + injection Hrest as <- <-. exists verdict. split; [exact Hv|exact Hchk].
    + apply Hlast. discriminate.
Qed.

Lemma check_verdict_late w g v w' g' :
  5 < GameState.year (state w) -> populated (state w) ->
  check_victory_or_defeat w g = Ok v w' g' -> exists msg, v = Some msg /\ msg <> "".
Proof.
  intros Hyear Hpop Hchk. unfold check_victory_or_defeat in Hchk.
  apply bind_Ok_inv in Hchk as (s & w0 & g0 & Hs & Hchk). injection Hs as <- <- <-.
  apply bind_Ok_inv in Hchk as (ceo & w1 & g1 & Hceo & Hchk).
  destruct (Z.ltb_spec 5 (GameState.year (state w))) as [_|]; [|lia].
  destruct (ceo_company (state w)) as [c|] eqn:Ec.
  - assert (exists msg, ceo = Some msg /\ msg <> "") as (msg & -> & Hmsg).
    { destruct (Company.money c <? -2000).
      - injection Hceo as <- _ _. eexists. split; [reflexivity|discriminate].
      - apply bind_Ok_inv in Hceo as (hit & w2 & g2 & _ & Hceo). destruct hit.
        + injection Hceo as <- _ _. eexists. split; [reflexivity|discriminate].
        + injection Hceo as <- _ _. eexists. split; [reflexivity|].
          destruct (Company.reputation c <? 80); discriminate. }
    injection Hchk as <- _ _. eauto.
  - injection Hceo as <- <- <-.
    destruct Hpop as [[? H]|[r Hr]]; [congruence|]. rewrite Hr in Hchk.
    apply bind_Ok_inv in Hchk as (t & w2 & g2 & _ & Hchk).
    destruct ((200 <=? Trainee.popularity t) && (350 <=? score t)).
    + injection Hchk as <- _ _. eexists. split; [reflexivity|discriminate].
    + destruct (3 <=? GameState.trainee_failures (state w)).
      * injection Hchk as <- _ _. eexists. split; [reflexivity|discriminate].
      * injection Hchk as <- _ _. eexists. split; [reflexivity|].
        destruct (Trainee.popularity t <? 150); discriminate.
Qed.

Lemma populated_kept s s' :
  GameState.player s' = GameState.player s ->
  (is_Some (GameState.company s') <-> is_Some (GameState.company s)) ->
  populated s -> populated s'.
Proof.
  unfold populated, ceo_company, trainee_character. intros -> Hc [H|H]; [left|right; exact H].
  destruct (GameState.player s) as [p|]; [|exact H].
  destruct (String.eqb (Player.role p) "CEO"); [|exact H]. apply Hc, H.
Qed.

(** X20.  The calendar.  From a date of the calendar (day 1..30, month
    1..12), [advance_day] leads to the next date of the calendar, one day
    later in years of 360 days, whatever the monthly evaluation does; so
    does every turn that returns.  A game that has not yet given a verdict
    after n turns is n days after day 1 of month 1 of year 1. *)
Theorem calendar_advances :
  (forall w g,
     date_ok (state w) ->
     date_ok (state (res_world (advance_day w g))) /\
     day_number (state (res_world (advance_day w g))) = day_number (state w) + 1) /\
  (forall choice inp w g v w' g',
     date_ok (state w) -> turn choice inp w g = Ok v w' g' ->
     date_ok (state w') /\ day_number (state w') = day_number (state w) + 1) /\
  (forall name role turns w g w' g',
     main name role turns w g = Ok None w' g' ->
     date_ok (state w') /\ day_number (state w') = 360 + Z.of_nat (length turns)).
Proof.
  split; [|split].
  - intros w g Hdate. destruct (advance_day_outcome w g Hdate) as (H1 & H2 & _). auto.
  - intros choice inp w g v w' g' Hdate Hturn.
    destruct (turn_outcome _ _ _ _ _ _ _ Hdate Hturn) as (H1 & H2 & _). auto.
  - intros name role turns w g w' g' Hmain. unfold main in Hmain.
    apply bind_Ok_inv in Hmain as ([] & w0 & g0 & Hinit & Hplay).
    destruct (initialize_game_run name role w g) as (labels & pops & _ & _ & _ & _ & E).
    rewrite E in Hinit. injection Hinit as <- <-.
    apply play_outcome in Hplay as (H1 & H2 & _).
    + split; [exact H1|]. rewrite H2. reflexivity.
    + unfold date_ok. simpl. lia.
Qed.

Lemma calendar_advances_witness :
  day_number (state (res_world (advance_day world_star rng_zero))) = 360 * 9 + 30 * 6 + 12 /\
  day_number (state (res_world (main "Boss" "CEO" recruit_script empty_world rng_half)))
    = 360 + 17.
Proof.
  destruct calendar_advances as (Hday & _ & Hmain). split.
  - rewrite (proj2 (Hday world_star rng_zero ltac:(unfold date_ok; simpl; lia))). reflexivity.
  - destruct (main "Boss" "CEO" recruit_script empty_world rng_half) as [[v|] w' g'|e w' g'] eqn:E.
    + exfalso. vm_compute in E. discriminate.
    + simpl. exact (proj2 (Hmain _ _ _ _ _ _ _ E)).
    + exfalso. vm_compute in E. discriminate.
Defined.



(** X22.  The game ends.  A game started as a CEO or as a trainee has
    given its verdict by the 1800th turn, the last day of year 5: once
    the year is above 5, [check_victory_or_defeat] has a verdict for
    either role whatever the other numbers are, so no script of 1800
    turns or more is played to its end without one. *)
Theorem game_ends_by_year_six name role turns w g :
  role = "CEO" \/ role = "Trainee" -> (1800 <= length turns)%nat ->
  res_value (main name role turns w g) <> Some None.
Proof.
  intros Hrole Hlen Hres.
  destruct (main name role turns w g) as [[v|] w' g'|] eqn:Hmain; try discriminate. clear Hres.
  unfold main in Hmain.
  apply bind_Ok_inv in Hmain as ([] & w0 & g0 & Hinit & Hplay).
  destruct (initialize_game_run name role w g) as (labels & pops & _ & _ & _ & _ & E).
  rewrite E in Hinit. injection Hinit as <- <-.
  match type of Hplay with play _ ?x _ = _ => set (w0 := x) in * end.
  assert (Hdate0 : date_ok (state w0)) by (unfold date_ok; simpl; lia).
  assert (Hpop0 : populated (state w0)).
  { unfold populated, ceo_company, trainee_character. simpl.
    destruct Hrole as [-> | ->]; [left|right]; simpl; eexists; reflexivity. }
  destruct (play_outcome _ _ _ _ _ Hdate0 Hplay) as (Hd & Hn & Hp & Hc & Hlast).
  destruct Hlast as (v & Hv & Hchk); [destruct turns; [simpl in Hlen; lia|discriminate]|].
  assert (Hyear : 5 < GameState.year (state w')).
  { unfold date_ok, day_number in *. simpl in Hn. lia. }
  destruct (check_verdict_late _ _ _ _ _ Hyear (populated_kept _ _ Hp Hc Hpop0) Hchk)
    as (msg & -> & Hmsg).
  destruct Hv as [Hv|Hv]; [discriminate|]. injection Hv as ->. congruence.
Qed.

Lemma game_ends_by_year_six_witness :
  res_value (main "Boss" "CEO" (replicate 1800 (7, no_inputs)) empty_world rng_half)
    <> Some None.
Proof.
  apply game_ends_by_year_six; [left; reflexivity|]. rewrite length_replicate. lia.
Defined.

(** * Playing without an error *)

Lemma continues_refl w : continues w w.
Proof. unfold continues. auto. Qed.

Lemma continues_trans w1 w2 w3 : continues w1 w2 -> continues w2 w3 -> continues w1 w3.
Proof.
  unfold continues. intros (H1 & H2 & H3 & H4) (H5 & H6 & H7 & H8).
  split; [lia|]. split; [lia|]. split; [congruence|auto].
Qed.

Lemma tref_continues w w' r :
  continues w w' -> is_Some (trainee_objs w !! r) -> is_Some (trainee_objs w' !! r).
Proof.
  intros (H & _) Hr. apply lookup_lt_is_Some. apply lookup_lt_is_Some in Hr. lia.
Qed.

Lemma gref_continues w w' r :
  continues w w' -> is_Some (group_objs w !! r) -> is_Some (group_objs w' !! r).
Proof.
  intros (_ & H & _) Hr. apply lookup_lt_is_Some. apply lookup_lt_is_Some in Hr. lia.
Qed.

Lemma trefs_continues w w' rs : continues w w' -> trefs_live w rs -> trefs_live w' rs.
Proof.
  intros Hc H. unfold trefs_live in *. eapply Forall_impl; [exact H|].
  intros r. apply tref_continues, Hc.
Qed.

Lemma grefs_continues w w' rs : continues w w' -> grefs_live w rs -> grefs_live w' rs.
Proof.
  intros Hc H. unfold grefs_live in *. eapply Forall_impl; [exact H|].
  intros r. apply gref_continues, Hc.
Qed.

Lemma company_continues w w' :
  continues w w' -> is_Some (GameState.company (state w)) ->
  is_Some (GameState.company (state w')).
Proof. intros (_ & _ & _ & H). exact H. Qed.

(** ** Worlds that stay well formed *)

Lemma wf_grow w w' :
  wf_world w ->
  (length (trainee_objs w) <= length (trainee_objs w'))%nat ->
  (length (group_objs w) <= length (group_objs w'))%nat ->
  state w' = state w ->
  Forall (fun grp => trefs_live w' (Group.members grp)) (group_objs w') ->
  wf_world w'.
Proof.
  intros (Hco & Hpl & Hgr) Ht Hg Hs Hgr'.
  assert (Hc : continues w w').
  { split; [exact Ht|]. split; [exact Hg|]. rewrite Hs. auto. }
  split; [|split; [|exact Hgr']].
  - intros c Hcc. rewrite Hs in Hcc. destruct (Hco c Hcc) as [H1 H2].
    split; [eapply trefs_continues; eauto|eapply grefs_continues; eauto].
  - intros p r Hp Hr. rewrite Hs in Hp. eapply tref_continues; [exact Hc|]. eapply Hpl; eauto.
Qed.

Lemma wf_upd_trainee w r t' :
  wf_world w -> wf_world (set_trainee_objs (<[r := t']> (trainee_objs w)) w).
Proof.
  intros Hwf. apply (wf_grow w); try (simpl; rewrite ?length_insert; lia); [exact Hwf|reflexivity|].
  destruct Hwf as (_ & _ & Hgr). simpl. eapply Forall_impl; [exact Hgr|].
  intros grp H. unfold trefs_live in *. eapply Forall_impl; [exact H|].
  intros r' Hr'. simpl. apply lookup_lt_is_Some. rewrite length_insert.
  apply lookup_lt_is_Some, Hr'.
Qed.

Lemma wf_alloc_trainee w t :
  wf_world w -> wf_world (set_trainee_objs (trainee_objs w ++ [t]) w).
Proof.
  intros Hwf. apply (wf_grow w); try (simpl; rewrite ?length_app; lia); [exact Hwf|reflexivity|].
  destruct Hwf as (_ & _ & Hgr). simpl. eapply Forall_impl; [exact Hgr|].
  intros grp H. unfold trefs_live in *. eapply Forall_impl; [exact H|].
  intros r' Hr'. simpl. apply lookup_lt_is_Some. rewrite length_app.
  apply lookup_lt_is_Some in Hr'. lia.
Qed.

Lemma wf_upd_group w r x v :
  wf_world w -> group_objs w !! r = Some x ->
  wf_world (set_group_objs (<[r := Group.set_popularity v x]> (group_objs w)) w).
Proof.
  intros Hwf Hx. apply (wf_grow w); try (simpl; rewrite ?length_insert; lia);
    [exact Hwf|reflexivity|].
  destruct Hwf as (_ & _ & Hgr). simpl. apply Forall_insert; [exact Hgr|].
  simpl. rewrite Forall_lookup in Hgr. exact (Hgr _ _ Hx).
Qed.

Lemma wf_alloc_group w x :
  wf_world w -> trefs_live w (Group.members x) ->
  wf_world (set_group_objs (group_objs w ++ [x]) w).
Proof.
  intros Hwf Hx. apply (wf_grow w); try (simpl; rewrite ?length_app; lia);
    [exact Hwf|reflexivity|].
  destruct Hwf as (_ & _ & Hgr). simpl. apply Forall_app. split; [exact Hgr|].
  constructor; [exact Hx|constructor].
Qed.

Lemma wf_set_state w s :
  wf_world w ->
  GameState.player s = GameState.player (state w) ->
  (forall c, GameState.company s = Some c ->
             trefs_live w (Company.trainees c) /\ grefs_live w (Company.groups c)) ->
  wf_world (set_state s w).
Proof.
  intros (Hco & Hpl & Hgr) Hp Hc. split; [|split].
  - intros c Hcc. simpl in Hcc. exact (Hc c Hcc).
  - intros p r Hpp Hr. simpl in Hpp. rewrite Hp in Hpp. exact (Hpl p r Hpp Hr).
  - exact Hgr.
Qed.

(** ** Rules *)

Lemma runs_ret {A} (a : A) w g (Q : A -> World -> Prop) :
  wf_world w -> Q a w -> runs (ret a) w g Q.
Proof. intros Hwf HQ. exists a, w, g. split; [reflexivity|]. auto using continues_refl. Qed.

Lemma runs_bind {A B} (m : M A) (k : A -> M B) w g Q (R : B -> World -> Prop) :
  runs m w g Q ->
  (forall a w' g', wf_world w' -> continues w w' -> Q a w' -> runs (k a) w' g' R) ->
  runs (bind m k) w g R.
Proof.
  intros (a & w1 & g1 & E & Hwf & Hc & HQ) Hk.
  destruct (Hk a w1 g1 Hwf Hc HQ) as (b & w2 & g2 & E2 & Hwf2 & Hc2 & HR).
  exists b, w2, g2. split; [erewrite bind_Ok by exact E; exact E2|].
  split; [exact Hwf2|]. split; [eapply continues_trans; eassumption|exact HR].
Qed.

(** A step that reads and changes nothing. *)
Lemma runs_read {A B} (m : M A) (k : A -> M B) w g a g1 (R : B -> World -> Prop) :
  m w g = Ok a w g1 -> runs (k a) w g1 R -> runs (bind m k) w g R.
Proof.
  intros E (b & w2 & g2 & E2 & H). exists b, w2, g2.
  split; [erewrite bind_Ok by exact E; exact E2|exact H].
Qed.

Lemma runs_impl {A} (m : M A) w g (Q Q' : A -> World -> Prop) :
  runs m w g Q -> (forall a w', Q a w' -> Q' a w') -> runs m w g Q'.
Proof. intros (a & w' & g' & E & Hwf & Hc & HQ) H. exists a, w', g'. auto. Qed.

Lemma runs_upd_trainee r f w g :
  wf_world w -> is_Some (trainee_objs w !! r) ->
  runs (upd_trainee r f) w g (fun _ _ => True).
Proof.
  intros Hwf [t Ht]. eexists _, _, _. split; [apply upd_trainee_run; exact Ht|].
  split; [apply wf_upd_trainee, Hwf|]. split; [|exact I].
  unfold continues. simpl. rewrite length_insert. auto.
Qed.

Lemma runs_alloc_trainee t w g :
  wf_world w -> runs (alloc_trainee t) w g (fun r w' => is_Some (trainee_objs w' !! r)).
Proof.
  intros Hwf. eexists _, _, _. split; [reflexivity|].
  split; [apply wf_alloc_trainee, Hwf|]. split.
  - unfold continues. simpl. rewrite length_app. simpl. split; [lia|auto].
  - simpl. apply lookup_lt_is_Some. rewrite length_app. simpl. lia.
Qed.

Lemma runs_upd_group_popularity r (h : Group.t -> Z) w g :
  wf_world w -> is_Some (group_objs w !! r) ->
  runs (upd_group r (fun x => Group.set_popularity (h x) x)) w g (fun _ _ => True).
Proof.
  intros Hwf [x Hx]. eexists _, _, _. split; [apply upd_group_run; exact Hx|].
  split; [apply wf_upd_group; assumption|]. split; [|exact I].
  unfold continues. simpl. rewrite length_insert. auto.
Qed.

Lemma runs_alloc_group x w g :
  wf_world w -> trefs_live w (Group.members x) ->
  runs (alloc_group x) w g (fun r w' => is_Some (group_objs w' !! r)).
Proof.
  intros Hwf Hx. eexists _, _, _. split; [reflexivity|].
  split; [apply wf_alloc_group; assumption|]. split.
  - unfold continues. simpl. rewrite length_app. simpl. split; [lia|]. split; [lia|auto].
  - simpl. apply lookup_lt_is_Some. rewrite length_app. simpl. lia.
Qed.

(** The company may be rewritten when its lists stay live. *)
Lemma runs_upd_company f w g :
  wf_world w -> is_Some (GameState.company (state w)) ->
  (forall c, GameState.company (state w) = Some c ->
             trefs_live w (Company.trainees (f c)) /\ grefs_live w (Company.groups (f c))) ->
  runs (upd_company f) w g (fun _ _ => True).
Proof.
  intros Hwf [c Hc] Hf. eexists _, _, _. split; [apply upd_company_run; exact Hc|].
  split; [|split; [|exact I]].
  - apply wf_set_state; [exact Hwf|reflexivity|].
    intros c' Hc'. simpl in Hc'. injection Hc' as <-. exact (Hf c Hc).
  - unfold continues. simpl. split; [lia|]. split; [lia|]. split; [reflexivity|].
    intros _. eexists; reflexivity.
Qed.

(** A write that leaves the lists of the company alone. *)
Lemma runs_upd_company_same f w g :
  wf_world w -> is_Some (GameState.company (state w)) ->
  (forall c, Company.trainees (f c) = Company.trainees c /\
             Company.groups (f c) = Company.groups c) ->
  runs (upd_company f) w g (fun _ _ => True).
Proof.
  intros Hwf Hc Hf. apply runs_upd_company; [exact Hwf|exact Hc|].
  intros c Hcc. destruct (Hf c) as [-> ->]. destruct Hwf as (Hco & _). exact (Hco c Hcc).
Qed.

(** A write to the fields of the state that hold no reference. *)
Lemma runs_modify_state f w g :
  wf_world w ->
  (forall s, GameState.player (f s) = GameState.player s /\
             GameState.company (f s) = GameState.company s) ->
  runs (modify_state f) w g (fun _ _ => True).
Proof.
  intros Hwf Hf. destruct (Hf (state w)) as [Hp Hc].
  eexists _, _, _. split; [reflexivity|]. split; [|split; [|exact I]].
  - apply wf_set_state; [exact Hwf|exact Hp|]. rewrite Hc. destruct Hwf as (Hco & _). exact Hco.
  - unfold continues. simpl. rewrite Hp, Hc. auto.
Qed.

Lemma runs_append_log msg w g : wf_world w -> runs (append_log msg) w g (fun _ _ => True).
Proof. intros Hwf. apply runs_modify_state; [exact Hwf|]. intros s. split; reflexivity. Qed.

Lemma runs_forM_ {A} (f : A -> M unit) xs w g :
  wf_world w ->
  Forall (fun x => forall w1 g1, wf_world w1 -> continues w w1 ->
                                 runs (f x) w1 g1 (fun _ _ => True)) xs ->
  runs (forM_ xs f) w g (fun _ _ => True).
Proof.
  intros Hwf Hxs. revert w g Hwf Hxs. induction xs as [|x xs IH]; intros w g Hwf Hxs.
  - apply runs_ret; auto.
  - inversion Hxs as [|? ? Hx Hrest]; subst. cbn [forM_].
    eapply runs_bind; [apply Hx; [exact Hwf|apply continues_refl]|].
    intros [] w1 g1 Hwf1 Hc1 _. apply IH; [exact Hwf1|].
    eapply Forall_impl; [exact Hrest|]. intros y Hy w2 g2 Hwf2 Hc2.
    apply Hy; [exact Hwf2|]. eapply continues_trans; eassumption.
Qed.

(** ** The methods *)

Ltac live :=
  solve [ eauto 7 using tref_continues, gref_continues, company_continues,
                        trefs_continues, grefs_continues, continues_refl ].

Ltac runs_randint := eapply runs_read; [apply randint_run; lia|].

Lemma runs_train self stat intensity w g :
  wf_world w -> is_Some (trainee_objs w !! self) ->
  runs (train self stat intensity) w g (fun _ _ => True).
Proof.
  intros Hwf [t Ht]. destruct (train_run self stat intensity w g t Ht) as (gain & cost & _ & _ & E).
  eexists _, _, _. split; [exact E|]. split; [apply wf_upd_trainee, Hwf|]. split; [|exact I].
  unfold continues. simpl. rewrite length_insert. auto.
Qed.

Lemma runs_rest self w g :
  wf_world w -> is_Some (trainee_objs w !! self) -> runs (rest self) w g (fun _ _ => True).
Proof.
  intros Hwf Hr. unfold rest. runs_randint.
  eapply runs_bind; [apply runs_upd_trainee; assumption|].
  intros [] w1 g1 Hwf1 _ _. apply runs_ret; auto.
Qed.

Lemma runs_adjust_popularity self amount w g :
  wf_world w -> is_Some (trainee_objs w !! self) ->
  runs (adjust_popularity self amount) w g (fun _ _ => True).
Proof. intros. apply runs_upd_trainee; assumption. Qed.

Lemma runs_adjust_relationship self amount w g :
  wf_world w -> is_Some (trainee_objs w !! self) ->
  runs (adjust_relationship self amount) w g (fun _ _ => True).
Proof. intros. apply runs_upd_trainee; assumption. Qed.

Lemma group_members_live w r x :
  wf_world w -> group_objs w !! r = Some x -> trefs_live w (Group.members x).
Proof. intros (_ & _ & Hgr) Hx. rewrite Forall_lookup in Hgr. exact (Hgr _ _ Hx). Qed.

Lemma calculate_power_reads self w g :
  wf_world w -> is_Some (group_objs w !! self) ->
  exists v, calculate_power self w g = Ok v w (mkRng (source g) (S (cursor g))).
Proof.
  intros Hwf [x Hx].
  destruct (calculate_power_run self w g x Hx (group_members_live w self x Hwf Hx))
    as (chem & _ & E).
  eauto.
Qed.

Lemma outcome_reads self power w g :
  exists v, outcome self power w g = Ok v w (mkRng (source g) (S (S (cursor g)))).
Proof.
  unfold outcome. erewrite bind_Ok by (apply randint_run; lia). eexists. reflexivity.
Qed.

Lemma runs_debut_effect self budget w g :
  wf_world w -> is_Some (group_objs w !! self) ->
  runs (debut_effect self budget) w g (fun _ _ => True).
Proof.
  intros Hwf Hg. unfold debut_effect.
  destruct (calculate_power_reads self w g Hwf Hg) as (power & Epow).
  eapply runs_read; [exact Epow|]. runs_randint. cbv zeta.
  eapply runs_bind; [apply runs_upd_group_popularity; assumption|].
  intros [] w1 g1 Hwf1 Hc1 _.
  destruct (gref_continues w w1 self Hc1 Hg) as [x Hx].
  eapply runs_read; [apply get_group_run; exact Hx|].
  eapply runs_bind.
  - apply runs_forM_; [exact Hwf1|].
    pose proof (group_members_live w1 self x Hwf1 Hx) as Hm. unfold trefs_live in Hm.
    eapply Forall_impl; [exact Hm|]. intros r Hr w2 g2 Hwf2 Hc2.
    apply runs_adjust_popularity; [exact Hwf2|live].
  - intros [] w2 g2 Hwf2 _ _. apply runs_ret; auto.
Qed.

Lemma company_lists_live w c :
  wf_world w -> GameState.company (state w) = Some c ->
  trefs_live w (Company.trainees c) /\ grefs_live w (Company.groups c).
Proof. intros (Hco & _) Hc. exact (Hco c Hc). Qed.

Lemma runs_recruit_trainee name w g :
  wf_world w -> is_Some (GameState.company (state w)) ->
  runs (recruit_trainee name) w g (fun r w' => is_Some (trainee_objs w' !! r)).
Proof.
  intros Hwf [c Hc]. unfold recruit_trainee.
  eapply runs_read; [apply get_company_run; exact Hc|].
  runs_randint. runs_randint. runs_randint.
  eapply runs_bind; [apply runs_alloc_trainee; exact Hwf|].
  intros new w1 g1 Hwf1 Hc1 Hnew. cbv beta in Hnew.
  eapply runs_bind.
  { apply runs_upd_company; [exact Hwf1|eapply company_continues; eauto|].
    intros c1 Hcc1. destruct (company_lists_live w1 c1 Hwf1 Hcc1) as [Ht Hg].
    simpl. split; [|exact Hg]. unfold trefs_live. apply Forall_app. split; [exact Ht|].
    constructor; [exact Hnew|constructor]. }
  intros [] w2 g2 Hwf2 Hc2 _.
  eapply runs_bind.
  { apply runs_upd_company_same; [exact Hwf2|live|]. intros c2. split; reflexivity. }
  intros [] w3 g3 Hwf3 Hc3 _. apply runs_ret; [exact Hwf3|]. live.
Qed.

Lemma runs_schedule_training trainee focus w g :
  wf_world w -> is_Some (GameState.company (state w)) ->
  is_Some (trainee_objs w !! trainee) ->
  runs (schedule_training trainee focus) w g (fun _ _ => True).
Proof.
  intros Hwf [c Hc] Ht. unfold schedule_training.
  eapply runs_read; [apply get_company_run; exact Hc|]. cbv zeta.
  destruct (Company.money c <? 150); [apply runs_ret; auto|].
  eapply runs_bind.
  { apply runs_upd_company_same; [exact Hwf|eauto|]. intros c2. split; reflexivity. }
  intros [] w1 g1 Hwf1 Hc1 _.
  eapply runs_bind; [apply runs_train; [exact Hwf1|live]|].
  intros msg w2 g2 Hwf2 Hc2 _.
  destruct (tref_continues w1 w2 trainee Hc2 (tref_continues w w1 trainee Hc1 Ht)) as [t Htt].
  eapply runs_read; [apply get_trainee_run; exact Htt|]. apply runs_ret; auto.
Qed.

Lemma runs_plan_debut names concept budget w g :
  wf_world w -> is_Some (GameState.company (state w)) ->
  runs (plan_debut names concept budget) w g (fun _ _ => True).
Proof.
  intros Hwf [c Hc]. unfold plan_debut.
  destruct (company_lists_live w c Hwf Hc) as [Hroster _].
  eapply runs_read; [apply get_company_run; exact Hc|].
  destruct (Company.money c <? budget); [apply runs_ret; auto|].
  eapply runs_read; [apply filterM_names_run; exact Hroster|].
  pose proof (selected_by_name_live w names _ Hroster) as Hsel.
  destruct (selected_by_name w names (Company.trainees c)) as [|s0 ss] eqn:Esel;
    [apply runs_ret; auto|].
  eapply runs_bind; [apply runs_alloc_group; [exact Hwf|exact Hsel]|].
  intros group w1 g1 Hwf1 Hc1 Hgroup. cbv beta in Hgroup.
  eapply runs_bind.
  { apply runs_upd_company; [exact Hwf1|live|].
    intros c1 Hcc1. destruct (company_lists_live w1 c1 Hwf1 Hcc1) as [Ht Hg].
    simpl. split; [exact Ht|]. unfold grefs_live. apply Forall_app. split; [exact Hg|].
    constructor; [exact Hgroup|constructor]. }
  intros [] w2 g2 Hwf2 Hc2 _.
  eapply runs_bind.
  { apply runs_upd_company_same; [exact Hwf2|live|]. intros c2. split; reflexivity. }
  intros [] w3 g3 Hwf3 Hc3 _.
  eapply runs_bind; [apply runs_debut_effect; [exact Hwf3|live]|].
  intros pop_gain w4 g4 Hwf4 Hc4 _.
  eapply runs_bind.
  { apply runs_upd_company_same; [exact Hwf4|live|]. intros c2. split; reflexivity. }
  intros [] w5 g5 Hwf5 Hc5 _.
  assert (Hg5 : is_Some (group_objs w5 !! group)) by live.
  destruct Hg5 as [x Hx].
  eapply runs_read; [apply get_group_run; exact Hx|]. apply runs_ret; auto.
Qed.

Lemma runs_release_song group title budget w g :
  wf_world w -> is_Some (GameState.company (state w)) -> is_Some (group_objs w !! group) ->
  runs (release_song group title budget) w g (fun _ _ => True).
Proof.
  intros Hwf [c Hc] Hg. unfold release_song.
  eapply runs_read; [apply get_company_run; exact Hc|].
  destruct (Company.money c <? budget); [apply runs_ret; auto|]. cbv zeta.
  eapply runs_bind.
  { apply runs_upd_company_same; [exact Hwf|eauto|]. intros c2. split; reflexivity. }
  intros [] w1 g1 Hwf1 Hc1 _.
  eapply runs_bind.
  { apply runs_upd_company_same; [exact Hwf1|live|]. intros c2. split; reflexivity. }
  intros [] w2 g2 Hwf2 Hc2 _.
  assert (Hg2 : is_Some (group_objs w2 !! group)) by live.
  destruct (calculate_power_reads group w2 g2 Hwf2 Hg2) as (power & Epow).
  eapply runs_read; [exact Epow|].
  destruct (outcome_reads (SongProject.mk title budget "Bright") power w2
              (mkRng (source g2) (S (cursor g2)))) as (result & Eout).
  eapply runs_read; [exact Eout|].
  eapply runs_bind; [apply runs_upd_group_popularity; assumption|].
  intros [] w3 g3 Hwf3 Hc3 _.
  eapply runs_bind.
  { apply runs_upd_company_same; [exact Hwf3|live|]. intros c2. split; reflexivity. }
  intros [] w4 g4 Hwf4 Hc4 _.
  assert (Hg4 : is_Some (group_objs w4 !! group)) by live.
  destruct Hg4 as [x Hx].
  eapply runs_read; [apply get_group_run; exact Hx|]. apply runs_ret; auto.
Qed.

Lemma runs_promote group budget w g :
  wf_world w -> is_Some (GameState.company (state w)) -> is_Some (group_objs w !! group) ->
  runs (promote group budget) w g (fun _ _ => True).
Proof.
  intros Hwf [c Hc] Hg. unfold promote.
  eapply runs_read; [apply get_company_run; exact Hc|].
  destruct (Company.money c <? budget); [apply runs_ret; auto|].
  eapply runs_bind.
  { apply runs_upd_company_same; [exact Hwf|eauto|]. intros c2. split; reflexivity. }
  intros [] w1 g1 Hwf1 Hc1 _. runs_randint. cbv zeta.
  eapply runs_bind; [apply runs_upd_group_popularity; [exact Hwf1|live]|].
  intros [] w2 g2 Hwf2 Hc2 _.
  eapply runs_bind.
  { apply runs_upd_company_same; [exact Hwf2|live|]. intros c2. split; reflexivity. }
  intros [] w3 g3 Hwf3 Hc3 _.
  assert (Hg3 : is_Some (group_objs w3 !! group)) by live.
  destruct Hg3 as [x Hx].
  eapply runs_read; [apply get_group_run; exact Hx|]. apply runs_ret; auto.
Qed.

(** ** The clock, the menus and the events *)

Lemma runs_monthly_evaluation w g :
  wf_world w -> runs monthly_evaluation w g (fun _ _ => True).
Proof.
  intros Hwf. unfold monthly_evaluation.
  eapply runs_read; [reflexivity|].
  destruct (trainee_character (state w)) as [r|] eqn:Hr.
  - pose proof (character_live w r Hwf Hr) as Hlive. destruct (Hlive) as [t Ht].
    eapply runs_read; [apply get_trainee_run; exact Ht|]. cbv zeta.
    destruct (220 + GameState.year (state w) * 10 <=? score t + Trainee.popularity t).
    + eapply runs_bind; [apply runs_adjust_relationship; assumption|].
      intros [] w1 g1 Hwf1 Hc1 _.
      eapply runs_bind; [apply runs_adjust_popularity; [exact Hwf1|live]|].
      intros [] w2 g2 Hwf2 Hc2 _. apply runs_ret; auto.
    + eapply runs_bind.
      { apply runs_modify_state; [exact Hwf|]. intros s. split; reflexivity. }
      intros [] w1 g1 Hwf1 Hc1 _. runs_randint.
      eapply runs_bind; [apply runs_adjust_relationship; [exact Hwf1|live]|].
      intros [] w2 g2 Hwf2 Hc2 _. apply runs_ret; auto.
  - destruct (GameState.company (state w)) as [c|] eqn:Hc; [|apply runs_ret; auto].
    destruct (company_lists_live w c Hwf Hc) as [_ Hgroups].
    eapply runs_read; [apply mapM_get_group_run; exact Hgroups|]. cbv zeta.
    eapply runs_bind.
    { apply runs_upd_company_same; [exact Hwf|eauto|]. intros c2. split; reflexivity. }
    intros [] w1 g1 Hwf1 Hc1 _. apply runs_ret; auto.
Qed.

Lemma runs_advance_day w g : wf_world w -> runs advance_day w g (fun _ _ => True).
Proof.
  intros Hwf. unfold advance_day.
  eapply runs_bind.
  { apply runs_modify_state; [exact Hwf|]. intros s. split; reflexivity. }
  intros [] w1 g1 Hwf1 Hc1 _.
  eapply runs_read; [reflexivity|].
  destruct (30 <? GameState.day (state w1)); [|apply runs_ret; auto].
  eapply runs_bind.
  { apply runs_modify_state; [exact Hwf1|]. intros s. split; reflexivity. }
  intros [] w2 g2 Hwf2 Hc2 _.
  eapply runs_bind.
  { apply runs_modify_state; [exact Hwf2|]. intros s. split; reflexivity. }
  intros [] w3 g3 Hwf3 Hc3 _.
  eapply runs_read; [reflexivity|].
  eapply runs_bind.
  { instantiate (1 := fun _ _ => True).
    destruct (12 <? GameState.month (state w3)); [|apply runs_ret; auto].
    eapply runs_bind.
    { apply runs_modify_state; [exact Hwf3|]. intros s. split; reflexivity. }
    intros [] w4 g4 Hwf4 Hc4 _.
    apply runs_modify_state; [exact Hwf4|]. intros s. split; reflexivity. }
  intros [] w4 g4 Hwf4 Hc4 _.
  eapply runs_bind; [apply runs_monthly_evaluation; exact Hwf4|].
  intros msg w5 g5 Hwf5 Hc5 _. apply runs_append_log. exact Hwf5.
Qed.

Lemma check_victory_or_defeat_reads w g :
  wf_world w -> exists v, check_victory_or_defeat w g = Ok v w g.
Proof.
  intros Hwf. unfold check_victory_or_defeat.
  erewrite bind_Ok by reflexivity.
  assert (Hceo : exists ceo,
             match ceo_company (state w) with
             | Some c =>
                 if Company.money c <? -2000 then
                   ret (Some "Bankruptcy! Your company could not pay its bills.")
                 else
                   hit <- anyM (fun r => grp <- get_group r ;; ret (300 <=? Group.popularity grp))
                               (Company.groups c) ;;
                   if hit then ret (Some "Success! One of your groups became a top act.")
                   else if 5 <? GameState.year (state w) then
                     ret (Some (if Company.reputation c <? 80
                                then "Time's up. The industry moved on before you produced a hit."
                                else "Legendary CEO!"))
                   else ret None
             | None => ret None
             end w g = Ok ceo w g).
  { destruct (ceo_company (state w)) as [c|] eqn:Ec; [|eexists; reflexivity].
    destruct (Company.money c <? -2000); [eexists; reflexivity|].
    destruct (company_lists_live w c Hwf (ceo_company_company _ _ Ec)) as [_ Hg].
    erewrite bind_Ok by (apply anyM_get_group_run; exact Hg).
    destruct (existsb _ _); [eexists; reflexivity|].
    destruct (5 <? GameState.year (state w)); eexists; reflexivity. }
  destruct Hceo as (ceo & Eceo). erewrite bind_Ok by exact Eceo.
  destruct ceo as [verdict|]; [eexists; reflexivity|].
  destruct (trainee_character (state w)) as [r|] eqn:Hr; [|eexists; reflexivity].
  destruct (character_live w r Hwf Hr) as [t Ht].
  erewrite bind_Ok by (apply get_trainee_run; exact Ht).
  destruct ((200 <=? Trainee.popularity t) && (350 <=? score t)); [eexists; reflexivity|].
  destruct (3 <=? GameState.trainee_failures (state w)); [eexists; reflexivity|].
  destruct (5 <? GameState.year (state w)); eexists; reflexivity.
Qed.

Lemma py_index_live {A} (xs : list A) (k : Z) :
  1 <= k <= Z.of_nat (length xs) -> exists x, py_index xs (k - 1) = Some x /\ x ∈ xs.
Proof.
  intros Hk. rewrite (py_index_menu xs k Hk).
  destruct (lookup_lt_is_Some_2 xs (Z.to_nat (k - 1)) ltac:(lia)) as [x Hx].
  exists x. split; [exact Hx|]. eapply list_elem_of_lookup_2, Hx.
Qed.

Lemma runs_handle_ceo_action choice inp w g :
  wf_world w -> is_Some (GameState.company (state w)) ->
  (forall c, GameState.company (state w) = Some c ->
     (choice = 2 -> Company.trainees c <> [] ->
      1 <= in_choice inp <= Z.of_nat (length (Company.trainees c))) /\
     (choice = 4 \/ choice = 5 -> Company.groups c <> [] ->
      1 <= in_choice inp <= Z.of_nat (length (Company.groups c)))) ->
  runs (handle_ceo_action choice inp) w g (fun _ _ => True).
Proof.
  intros Hwf [c Hc] Hvalid. destruct (Hvalid c Hc) as [Hv2 Hv45].
  destruct (company_lists_live w c Hwf Hc) as [Hroster Hgroups].
  unfold handle_ceo_action.
  eapply runs_read; [reflexivity|]. rewrite Hc.
  destruct (Z.eqb_spec choice 1) as [_|_].
  { cbv zeta. eapply runs_bind; [apply runs_recruit_trainee; [exact Hwf|eauto]|].
    intros new w1 g1 Hwf1 Hc1 [t Ht].
    eapply runs_read; [apply get_trainee_run; exact Ht|].
    destruct (company_continues w w1 Hc1 (mk_is_Some _ _ Hc)) as [c1 Hcc1].
    eapply runs_read; [apply get_company_run; exact Hcc1|]. apply runs_ret; auto. }
  destruct (Z.eqb_spec choice 2) as [E2|_].
  { destruct (Company.trainees c) as [|r0 rs] eqn:Er; [apply runs_ret; auto|].
    destruct (py_index_live (r0 :: rs) (in_choice inp) (Hv2 E2 ltac:(discriminate)))
      as (trainee & -> & Hin).
    apply runs_schedule_training; [exact Hwf|eauto|].
    unfold trefs_live in Hroster. rewrite Forall_forall in Hroster. exact (Hroster _ Hin). }
  destruct (Z.eqb_spec choice 3) as [_|_].
  { destruct (Z.of_nat (length (Company.trainees c)) <? 1); [apply runs_ret; auto|].
    eapply runs_read; [apply mapM_picks_run; exact Hroster|]. cbv zeta.
    apply runs_plan_debut; [exact Hwf|eauto]. }
  destruct (Z.eqb_spec choice 4) as [E4|_].
  { destruct (Company.groups c) as [|r0 rs] eqn:Er; [apply runs_ret; auto|].
    destruct (py_index_live (r0 :: rs) (in_choice inp)
                (Hv45 (or_introl E4) ltac:(discriminate)))
      as (group & -> & Hin).
    cbv zeta. apply runs_release_song; [exact Hwf|eauto|].
    unfold grefs_live in Hgroups. rewrite Forall_forall in Hgroups. exact (Hgroups _ Hin). }
  destruct (Z.eqb_spec choice 5) as [E5|_].
  { destruct (Company.groups c) as [|r0 rs] eqn:Er; [apply runs_ret; auto|].
    destruct (py_index_live (r0 :: rs) (in_choice inp)
                (Hv45 (or_intror E5) ltac:(discriminate)))
      as (group & -> & Hin).
    apply runs_promote; [exact Hwf|eauto|].
    unfold grefs_live in Hgroups. rewrite Forall_forall in Hgroups. exact (Hgroups _ Hin). }
  destruct (choice =? 6); [|apply runs_ret; auto].
  eapply runs_read; [apply mapM_get_trainee_run; exact Hroster|]. apply runs_ret; auto.
Qed.

Lemma runs_handle_trainee_action choice focus w g :
  wf_world w -> runs (handle_trainee_action choice focus) w g (fun _ _ => True).
Proof.
  intros Hwf. unfold handle_trainee_action.
  eapply runs_read; [reflexivity|].
  destruct (GameState.player (state w)) as [p|] eqn:Hp; [|apply runs_ret; auto].
  destruct (Player.character p) as [r|] eqn:Hr; [|apply runs_ret; auto].
  assert (Hlive : is_Some (trainee_objs w !! r)).
  { destruct Hwf as (_ & Hpl & _). eapply Hpl; eauto. }
  destruct (choice =? 1); [apply runs_train; assumption|].
  destruct (choice =? 2); [apply runs_rest; assumption|].
  destruct (choice =? 3).
  { runs_randint.
    eapply runs_bind; [apply runs_adjust_relationship; assumption|].
    intros [] w1 g1 Hwf1 Hc1 _.
    eapply runs_bind; [apply runs_adjust_popularity; [exact Hwf1|live]|].
    intros [] w2 g2 Hwf2 Hc2 _. apply runs_ret; auto. }
  destruct (choice =? 4).
  { destruct Hlive as [t Ht].
    eapply runs_read; [apply get_trainee_run; exact Ht|]. runs_randint. cbv zeta.
    destruct (210 + GameState.year (state w) * 10 <=? _).
    - eapply runs_bind; [apply runs_adjust_popularity; [exact Hwf|eauto]|].
      intros [] w1 g1 Hwf1 Hc1 _.
      eapply runs_bind; [apply runs_adjust_relationship; [exact Hwf1|live]|].
      intros [] w2 g2 Hwf2 Hc2 _. apply runs_ret; auto.
    - eapply runs_bind.
      { apply runs_modify_state; [exact Hwf|]. intros s. split; reflexivity. }
      intros [] w1 g1 Hwf1 Hc1 _.
      eapply runs_bind; [apply runs_adjust_relationship; [exact Hwf1|live]|].
      intros [] w2 g2 Hwf2 Hc2 _.
      eapply runs_read; [reflexivity|]. apply runs_ret; auto. }
  destruct (choice =? 5); [|apply runs_ret; auto].
  destruct Hlive as [t Ht].
  eapply runs_read; [apply get_trainee_run; exact Ht|]. apply runs_ret; auto.
Qed.

Lemma top_group_live w first others x keyed :
  group_objs w !! first = Some x ->
  Forall2 (fun r (rk : gref * Z) =>
             rk.1 = r /\ exists y, group_objs w !! r = Some y /\ rk.2 = Group.popularity y)
          others keyed ->
  is_Some (group_objs w !! max_by_popularity first (Group.popularity x) keyed).
Proof.
  intros Hx HF.
  destruct (max_by_popularity_spec first (Group.popularity x) keyed) as (i & k & Hi & Hall & Hbefore).
  assert (Htop : first_top w (first :: others)
                   (max_by_popularity first (Group.popularity x) keyed)).
  { eapply (first_top_keyed w (first :: others) ((first, Group.popularity x) :: keyed));
      [|exact Hi|exact Hall|exact Hbefore].
    constructor; [|exact HF]. split; [reflexivity|]. exists x. split; [exact Hx|reflexivity]. }
  destruct Htop as (_ & grp & _ & Hgrp & _). eauto.
Qed.

Lemma runs_random_event w g :
  wf_world w -> is_Some (GameState.player (state w)) ->
  runs random_event w g (fun _ _ => True).
Proof.
  intros Hwf [p Hp]. unfold random_event.
  eapply runs_read; [reflexivity|].
  set (roll := Float _ 53). set (g0 := mkRng _ _).
  eapply runs_bind.
  { instantiate (1 := fun _ _ => True).
    destruct (float_lt roll lit_0_08); [|apply runs_ret; auto].
    eapply runs_read; [apply get_player_run; exact Hp|].
    eapply runs_read; [reflexivity|].
    destruct (String.eqb (Player.role p) "CEO" && bool_decide (is_Some (GameState.company (state w))))
      eqn:Eceo.
    - apply andb_true_iff in Eceo as [_ Hco]. apply bool_decide_eq_true_1 in Hco.
      runs_randint.
      eapply runs_bind.
      { apply runs_upd_company_same; [exact Hwf|exact Hco|]. intros c2. split; reflexivity. }
      intros [] w1 g1 Hwf1 Hc1 _. apply runs_ret; auto.
    - destruct (Player.character p) as [r|] eqn:Hr; [|apply runs_ret; auto].
      assert (Hlive : is_Some (trainee_objs w !! r)).
      { destruct Hwf as (_ & Hpl & _). eapply Hpl; eauto. }
      runs_randint.
      eapply runs_bind; [apply runs_upd_trainee; assumption|].
      intros [] w1 g1 Hwf1 Hc1 _. apply runs_ret; auto. }
  intros negative w1 g1 Hwf1 Hc1 _.
  destruct negative as [event|]; [apply runs_ret; auto|].
  destruct (float_lt lit_0_92 roll); [|apply runs_ret; auto].
  assert (Hp1 : GameState.player (state w1) = Some p).
  { destruct Hc1 as (_ & _ & H & _). rewrite H. exact Hp. }
  eapply runs_read; [apply get_player_run; exact Hp1|].
  eapply runs_read; [reflexivity|].
  assert (Hfan : runs
            match Player.character p with
            | Some trainee =>
                boost <- randint 8 18 ;;
                adjust_popularity trainee boost ;;
                ret (Some ("Fan edit goes viral. Popularity +" +:+ str boost +:+ "."))
            | None => ret None
            end w1 g1 (fun _ _ => True)).
  { destruct (Player.character p) as [r|] eqn:Hr; [|apply runs_ret; auto].
    assert (Hlive : is_Some (trainee_objs w1 !! r)).
    { destruct Hwf1 as (_ & Hpl & _). eapply Hpl; eauto. }
    runs_randint.
    eapply runs_bind; [apply runs_adjust_popularity; assumption|].
    intros [] w2 g2 Hwf2 Hc2 _. apply runs_ret; auto. }
  destruct (String.eqb (Player.role p) "CEO"); [|exact Hfan].
  destruct (GameState.company (state w1)) as [c|] eqn:Hco; [|exact Hfan].
  destruct (company_lists_live w1 c Hwf1 Hco) as [_ Hgroups].
  destruct c as [cname money reputation roster groups projects]. simpl in Hgroups.
  destruct groups as [|first others]; [exact Hfan|]. clear Hfan.
  runs_randint.
  eapply runs_bind.
  { apply runs_upd_company_same; [exact Hwf1|eauto|]. intros c2. split; reflexivity. }
  intros [] w2 g2 Hwf2 Hc2 _.
  pose proof (grefs_continues w1 w2 _ Hc2 Hgroups) as Hgroups2.
  inversion Hgroups2 as [|? ? [x Hx] Hothers]; subst.
  eapply runs_read.
  { erewrite bind_Ok by (apply get_group_run; exact Hx). reflexivity. }
  destruct (mapM_keyed_run others w2 g2 Hothers) as (keyed & Ekeyed & HF).
  eapply runs_read; [exact Ekeyed|]. cbv zeta.
  pose proof (top_group_live w2 first others x keyed Hx HF) as Htop.
  eapply runs_bind; [apply runs_upd_group_popularity; assumption|].
  intros [] w3 g3 Hwf3 Hc3 _.
  destruct (gref_continues w2 w3 _ Hc3 Htop) as [y Hy].
  eapply runs_read; [apply get_group_run; exact Hy|]. apply runs_ret; auto.
Qed.

Lemma playable_continues w w' : playable w -> wf_world w' -> continues w w' -> playable w'.
Proof.
  intros (_ & p & Hp & Hceo) Hwf Hc. split; [exact Hwf|]. exists p.
  destruct Hc as (_ & _ & Hpl & Hco). split; [congruence|]. intros Hrole. auto.
Qed.

Lemma runs_turn choice inp w g :
  playable w -> valid_inputs w choice inp ->
  runs (turn choice inp) w g (fun _ w' => playable w').
Proof.
  intros Hplay Hvalid. pose proof Hplay as (Hwf & p & Hp & Hceo). unfold turn.
  eapply runs_read; [apply get_player_run; exact Hp|].
  assert (Hlater : forall w', wf_world w' -> continues w w' ->
                              is_Some (GameState.player (state w'))).
  { intros w' _ (_ & _ & H & _). rewrite H, Hp. eauto. }
  eapply runs_bind.
  { instantiate (1 := fun _ _ => True).
    destruct (String.eqb_spec (Player.role p) "CEO") as [Hrole|_].
    - apply runs_handle_ceo_action; [exact Hwf|exact (Hceo Hrole)|].
      intros c Hc. exact (Hvalid p c Hp Hrole Hc).
    - apply runs_handle_trainee_action. exact Hwf. }
  intros result w1 g1 Hwf1 Hc1 _.
  eapply runs_bind; [apply runs_append_log; exact Hwf1|].
  intros [] w2 g2 Hwf2 Hc2 _.
  pose proof (continues_trans _ _ _ Hc1 Hc2) as Hc02.
  eapply runs_bind; [apply runs_random_event; [exact Hwf2|exact (Hlater w2 Hwf2 Hc02)]|].
  intros event w3 g3 Hwf3 Hc3 _.
  pose proof (continues_trans _ _ _ Hc02 Hc3) as Hc03.
  eapply runs_bind.
  { instantiate (1 := fun _ _ => True).
    destruct event as [e|]; [|apply runs_ret; auto].
    destruct (String.eqb e ""); [apply runs_ret; auto|apply runs_append_log; exact Hwf3]. }
  intros [] w4 g4 Hwf4 Hc4 _.
  pose proof (continues_trans _ _ _ Hc03 Hc4) as Hc04.
  eapply runs_bind; [apply runs_advance_day; exact Hwf4|].
  intros [] w5 g5 Hwf5 Hc5 _.
  pose proof (continues_trans _ _ _ Hc04 Hc5) as Hc05.
  destruct (check_victory_or_defeat_reads w5 g5 Hwf5) as (v & Echk).
  exists v, w5, g5. split; [exact Echk|]. split; [exact Hwf5|].
  split; [apply continues_refl|]. eapply playable_continues; eassumption.
Qed.

Lemma runs_play turns w g :
  playable w -> valid_script turns w g -> runs (play turns) w g (fun _ w' => playable w').
Proof.
  revert w g. induction turns as [|[choice inp] turns IH]; intros w g Hplay Hvalid.
  - apply runs_ret; [apply Hplay|exact Hplay].
  - destruct Hvalid as [Hin Hrest]. cbn [play].
    destruct (runs_turn choice inp w g Hplay Hin) as (v & w1 & g1 & E & Hwf1 & Hc1 & Hplay1).
    rewrite E in Hrest.
    assert (Hnext : runs (match v with
                          | Some v => if String.eqb v "" then play turns else ret (Some v)
                          | None => play turns
                          end) w1 g1 (fun _ w' => playable w')).
    { destruct v as [v|]; [|apply IH; assumption].
      destruct (String.eqb v ""); [apply IH; assumption|apply runs_ret; assumption]. }
    destruct Hnext as (b & w2 & g2 & E2 & Hwf2 & Hc2 & Hplay2).
    exists b, w2, g2. split; [erewrite bind_Ok by exact E; exact E2|].
    split; [exact Hwf2|]. split; [eapply continues_trans; eassumption|exact Hplay2].
Qed.

Lemma initialize_game_playable name role g :
  exists w' g', initialize_game name role empty_world g = Ok tt w' g' /\ playable w'.
Proof.
  destruct (initialize_game_run name role empty_world g)
    as (labels & pops & _ & Hlen & Hplen & _ & E).
  eexists _, _. split; [exact E|].
  destruct labels as [|l1 [|l2 [|l3 [|]]]]; try discriminate.
  destruct pops as [|p1 [|p2 [|p3 [|]]]]; try discriminate.
  split.
  - split; [|split].
    + intros c Hc. simpl in Hc. injection Hc as <-. simpl.
      destruct (String.eqb role "Trainee"); split;
        repeat constructor; eexists; reflexivity.
    + intros p r Hp Hr. simpl in Hp. injection Hp as <-. simpl in Hr.
      destruct (String.eqb role "Trainee"); [|discriminate].
      injection Hr as <-. eexists; reflexivity.
    + constructor.
  - eexists. split; [reflexivity|]. intros _. eexists; reflexivity.
Qed.

(** X23.  A turn never raises.  In a playable game, one whose references
    are live, that has a player and, for a CEO, a company, a turn returns
    whatever the choice, the lines typed and the random draws are,
    provided the index typed at a prompt of the CEO's menu is one
    [safe_int_input] lets through: no [IndexError], [AttributeError],
    [AssertionError] or [ValueError]; and the game is playable
    afterwards.  Nothing is asked of a turn of a trainee, nor of a turn
    of a CEO that reads no index. *)
Theorem turn_never_raises choice inp w g :
  playable w -> valid_inputs w choice inp ->
  exists v w' g', turn choice inp w g = Ok v w' g' /\ playable w'.
Proof.
  intros Hplay Hvalid.
  destruct (runs_turn choice inp w g Hplay Hvalid) as (v & w' & g' & E & _ & _ & H). eauto.
Qed.

Lemma playable_world_trio : playable world_trio.
Proof.
  split.
  - split; [|split].
    + intros c Hc. injection Hc as <-. split; repeat constructor; eexists; reflexivity.
    + intros p r Hp Hr. injection Hp as <-. discriminate.
    + repeat constructor; eexists; reflexivity.
  - eexists. split; [reflexivity|]. intros _. eexists; reflexivity.
Qed.

Lemma playable_world_trainee : playable world_trainee.
Proof.
  split; [exact wf_world_trainee|].
  eexists. split; [reflexivity|]. intros _. eexists; reflexivity.
Qed.

Lemma playable_world_poor : playable world_poor.
Proof.
  split.
  - split; [|split].
    + intros c Hc. injection Hc as <-. split; constructor.
    + intros p r Hp Hr. injection Hp as <-. discriminate.
    + constructor.
  - eexists. split; [reflexivity|]. intros _. eexists; reflexivity.
Qed.

(** A turn of a trainee reads no index. *)
Lemma valid_inputs_trainee w choice inp p :
  GameState.player (state w) = Some p -> Player.role p <> "CEO" -> valid_inputs w choice inp.
Proof. intros Hp Hrole p' c Hp' Hrole'. congruence. Qed.

Lemma turn_never_raises_witness :
  (exists v w' g',
     turn 2 (mkInputs "" 3 "rap" [] "" "" 0) world_trio rng_game = Ok v w' g' /\ playable w') /\
  (exists v w' g', turn 5 no_inputs world_poor rng_game = Ok v w' g' /\ playable w') /\
  (exists v w' g', turn 4 no_inputs world_trainee rng_game = Ok v w' g' /\ playable w') /\
  (exists v w' g', turn 5 no_inputs world_trainee rng_game = Ok v w' g' /\ playable w').
Proof.
  split; [|split; [|split]].
  - apply turn_never_raises; [exact playable_world_trio|].
    intros p c Hp _ Hc. injection Hc as <-. simpl. split; intros; lia.
  - apply turn_never_raises; [exact playable_world_poor|].
    intros p c Hp _ Hc. injection Hc as <-. simpl. split; [intros; lia|]. intros _ H.
    exfalso. apply H. reflexivity.
  - apply turn_never_raises; [exact playable_world_trainee|].
    eapply valid_inputs_trainee; [reflexivity|discriminate].
  - apply turn_never_raises; [exact playable_world_trainee|].
    eapply valid_inputs_trainee; [reflexivity|discriminate].
Defined.

(** * What is never taken back *)

Lemma grown_refl w : grown w w.
Proof.
  split; [|split; [|split]].
  - intros r t Ht. exists t. split; [exact Ht|]. split; [reflexivity|lia].
  - intros r x Hx. exists x. auto.
  - intros c Hc. exists c. auto.
  - split; [lia|]. split; reflexivity.
Qed.

Lemma grown_cursor w0 : indep_cursor (I_grown w0).
Proof. intros w g H. exact H. Qed.
#[export] Hint Resolve grown_cursor : pres.

Lemma grown_upd_trainee w0 r f :
  (forall t, Trainee.name (f t) = Trainee.name t /\ score t <= score (f t)) ->
  preserves (I_grown w0) (upd_trainee r f).
Proof.
  intros Hf. apply preserves_upd_trainee_gen. intros w g t (Ht & Hrest) Hr.
  split; [|exact Hrest]. intros r' t0 Ht0. destruct (Ht r' t0 Ht0) as (t' & Ht' & Hn & Hs).
  simpl. destruct (decide (r' = r)) as [->|Hne].
  - assert (Heq : Some t' = Some t) by (rewrite <- Ht'; exact Hr). injection Heq as ->.
    exists (f t).
    split; [eapply lookup_set_trainee, Hr|]. destruct (Hf t) as [Hn' Hs']. split; [congruence|lia].
  - exists t'. split; [rewrite list_lookup_insert_ne by congruence; exact Ht'|]. auto.
Qed.

Lemma grown_alloc_trainee w0 t : preserves (I_grown w0) (alloc_trainee t).
Proof.
  intros w g (Ht & Hrest). split; [|exact Hrest]. intros r t0 Ht0.
  destruct (Ht r t0 Ht0) as (t' & Ht' & H). exists t'. split; [|exact H].
  simpl. apply lookup_app_l_Some. exact Ht'.
Qed.

Lemma grown_upd_group w0 r h :
  preserves (I_grown w0) (upd_group r (fun x => Group.set_popularity (h x) x)).
Proof.
  apply preserves_upd_group_gen. intros w g x (Ht & Hg & Hrest) Hr.
  split; [exact Ht|]. split; [|exact Hrest]. intros r' x0 Hx0.
  destruct (Hg r' x0 Hx0) as (x' & Hx' & H). simpl. destruct (decide (r' = r)) as [->|Hne].
  - assert (Heq : Some x' = Some x) by (rewrite <- Hx'; exact Hr). injection Heq as ->.
    eexists.
    split; [apply list_lookup_insert_eq; eapply lookup_lt_Some, Hr|exact H].
  - exists x'. split; [rewrite list_lookup_insert_ne by congruence; exact Hx'|exact H].
Qed.

Lemma grown_alloc_group w0 x : preserves (I_grown w0) (alloc_group x).
Proof.
  intros w g (Ht & Hg & Hrest). split; [exact Ht|]. split; [|exact Hrest]. intros r x0 Hx0.
  destruct (Hg r x0 Hx0) as (x' & Hx' & H). exists x'. split; [|exact H].
  simpl. apply lookup_app_l_Some. exact Hx'.
Qed.

Lemma grown_upd_company w0 f :
  (forall c, Company.name (f c) = Company.name c /\
             Company.trainees c `prefix_of` Company.trainees (f c) /\
             Company.groups c `prefix_of` Company.groups (f c) /\
             Company.projects c `prefix_of` Company.projects (f c)) ->
  preserves (I_grown w0) (upd_company f).
Proof.
  intros Hf. apply preserves_upd_company_gen. intros w g c (Ht & Hg & Hc & Hrest) Hco.
  split; [exact Ht|]. split; [exact Hg|]. split; [|exact Hrest]. intros c0 Hc0.
  destruct (Hc c0 Hc0) as (c' & Hc' & Hn & H1 & H2 & H3). rewrite Hco in Hc'. injection Hc' as <-.
  destruct (Hf c) as (Hn' & H1' & H2' & H3'). exists (f c). split; [reflexivity|].
  split; [congruence|]. repeat split; etransitivity; eassumption.
Qed.

Lemma grown_modify_state w0 f :
  (forall s, GameState.company (f s) = GameState.company s /\
             GameState.player (f s) = GameState.player s /\
             GameState.trainee_failures s <= GameState.trainee_failures (f s) /\
             GameState.message_log s `prefix_of` GameState.message_log (f s)) ->
  preserves (I_grown w0) (modify_state f).
Proof.
  intros Hf. apply preserves_modify_state_gen. intros w g (Ht & Hg & Hc & Hfail & Hlog & Hp).
  destruct (Hf (state w)) as (H1 & H2 & H3 & H4).
  split; [exact Ht|]. split; [exact Hg|]. simpl. split; [rewrite H1; exact Hc|].
  split; [lia|]. split; [etransitivity; eassumption|congruence].
Qed.

(** The side conditions of the writes of the program. *)
Ltac grown_side :=
  intros; simpl; unfold score; simpl;
  repeat match goal with |- _ /\ _ => split end;
  first [ reflexivity | lia | apply prefix_app_r; reflexivity ].

#[export] Hint Extern 1 (preserves (I_grown _) (upd_trainee _ _)) =>
  apply grown_upd_trainee; grown_side : pres.
#[export] Hint Extern 1 (preserves (I_grown _) (upd_company _)) =>
  apply grown_upd_company; grown_side : pres.
#[export] Hint Extern 1 (preserves (I_grown _) (modify_state _)) =>
  apply grown_modify_state; grown_side : pres.
#[export] Hint Extern 1 (preserves (I_grown _) (append_log _)) =>
  apply grown_modify_state; grown_side : pres.
#[export] Hint Resolve grown_alloc_trainee grown_upd_group grown_alloc_group : pres.

Lemma grown_train w0 self stat intensity :
  2 <= intensity -> preserves (I_grown w0) (train self stat intensity).
Proof. intros Hi. unfold train. pres. Qed.

Lemma grown_rest w0 self : preserves (I_grown w0) (rest self).
Proof. unfold rest. pres. Qed.
Lemma grown_adjust_popularity w0 self amount :
  preserves (I_grown w0) (adjust_popularity self amount).
Proof. unfold adjust_popularity. pres. Qed.
Lemma grown_adjust_relationship w0 self amount :
  preserves (I_grown w0) (adjust_relationship self amount).
Proof. unfold adjust_relationship. pres. Qed.
#[export] Hint Resolve grown_rest grown_adjust_popularity grown_adjust_relationship : pres.
#[export] Hint Extern 1 (preserves (I_grown _) (train _ _ 5)) =>
  apply grown_train; lia : pres.

Lemma grown_calculate_power w0 self : preserves (I_grown w0) (calculate_power self).
Proof. unfold calculate_power. pres. Qed.
#[export] Hint Resolve grown_calculate_power : pres.
Lemma grown_debut_effect w0 self budget : preserves (I_grown w0) (debut_effect self budget).
Proof. unfold debut_effect. pres. Qed.
Lemma grown_outcome w0 self p : preserves (I_grown w0) (outcome self p).
Proof. unfold outcome. pres. Qed.
#[export] Hint Resolve grown_debut_effect grown_outcome : pres.

Lemma grown_recruit_trainee w0 name : preserves (I_grown w0) (recruit_trainee name).
Proof. unfold recruit_trainee. pres. Qed.
Lemma grown_schedule_training w0 trainee focus :
  preserves (I_grown w0) (schedule_training trainee focus).
Proof. unfold schedule_training. pres. Qed.
Lemma grown_plan_debut w0 names concept budget :
  preserves (I_grown w0) (plan_debut names concept budget).
Proof. unfold plan_debut. pres. Qed.
Lemma grown_release_song w0 group title budget :
  preserves (I_grown w0) (release_song group title budget).
Proof. unfold release_song. pres. Qed.
Lemma grown_promote w0 group budget : preserves (I_grown w0) (promote group budget).
Proof. unfold promote. pres. Qed.
Lemma grown_update_finances w0 amount : preserves (I_grown w0) (update_finances amount).
Proof. unfold update_finances. pres. Qed.
#[export] Hint Resolve grown_recruit_trainee grown_schedule_training grown_plan_debut
  grown_release_song grown_promote grown_update_finances : pres.

Lemma grown_monthly_evaluation w0 : preserves (I_grown w0) monthly_evaluation.
Proof. unfold monthly_evaluation. pres. Qed.
#[export] Hint Resolve grown_monthly_evaluation : pres.
Lemma grown_advance_day w0 : preserves (I_grown w0) advance_day.
Proof. unfold advance_day. pres. Qed.
Lemma grown_check_victory_or_defeat w0 : preserves (I_grown w0) check_victory_or_defeat.
Proof. unfold check_victory_or_defeat. pres. Qed.
Lemma grown_handle_trainee_action w0 choice focus :
  preserves (I_grown w0) (handle_trainee_action choice focus).
Proof. unfold handle_trainee_action. pres. Qed.
Lemma grown_handle_ceo_action w0 choice inp :
  preserves (I_grown w0) (handle_ceo_action choice inp).
Proof. unfold handle_ceo_action. pres. Qed.
Lemma grown_random_event w0 : preserves (I_grown w0) random_event.
Proof. unfold random_event. pres. Qed.
#[export] Hint Resolve grown_advance_day grown_check_victory_or_defeat
  grown_handle_trainee_action grown_handle_ceo_action grown_random_event : pres.

Lemma grown_turn w0 choice inp : preserves (I_grown w0) (turn choice inp).
Proof. unfold turn. pres. Qed.
#[export] Hint Resolve grown_turn : pres.

Lemma grown_play w0 turns : preserves (I_grown w0) (play turns).
Proof. induction turns as [|[choice inp] turns IH]; simpl; pres. Qed.

(** X25.  Nothing is taken back.  Whatever a turn does, and however it
    ends, every trainee that existed still exists under the same name
    with a score that is not lower (training only adds), every group
    still exists with the same name, members and concept, the company
    has the same name and its roster, its groups and its projects have
    only been appended to, the failure count is not lower, the log has
    only been appended to, and the player is the same.  The same holds
    of any number of turns. *)
Theorem turns_take_nothing_back w g :
  (forall choice inp, grown w (res_world (turn choice inp w g))) /\
  (forall turns, grown w (res_world (play turns w g))).
Proof.
  split.
  - intros choice inp. exact (grown_turn w choice inp w g (grown_refl w)).
  - intros turns. exact (grown_play w turns w g (grown_refl w)).
Qed.

(** * A game without an error *)

(** A script of a player who is no CEO is valid, whatever is typed. *)
Lemma valid_script_trainee turns w g p :
  GameState.player (state w) = Some p -> Player.role p <> "CEO" -> valid_script turns w g.
Proof.
  revert w g. induction turns as [|[choice inp] turns IH]; intros w g Hp Hrole; [exact I|].
  cbn [valid_script]. split; [exact (valid_inputs_trainee w choice inp p Hp Hrole)|].
  destruct (turn choice inp w g) as [v w' g'|e w' g'] eqn:E; [|exact I].
  assert (Hp' : GameState.player (state w') = Some p).
  { pose proof (grown_turn w choice inp w g (grown_refl w)) as Hg. rewrite E in Hg.
    destruct Hg as (_ & _ & _ & _ & _ & Hg). simpl in Hg. rewrite Hg. exact Hp. }
  destruct v as [v|]; [destruct (String.eqb v ""); [|exact I]|]; apply (IH w' g' Hp' Hrole).
Qed.

(** X24.  A game never raises.  [main], started with any name and any
    role and played with a script in which the index typed at each
    prompt of the CEO's menu is valid for the state of that turn,
    returns: a verdict, or none when the script ends first.  Started
    with another role than "CEO", a trainee's game above all, it returns
    for every script. *)
Theorem game_never_raises name role turns g :
  (valid_script turns (res_world (initialize_game name role empty_world g))
                (res_rng (initialize_game name role empty_world g)) ->
   exists v w' g', main name role turns empty_world g = Ok v w' g' /\ playable w') /\
  (role <> "CEO" ->
   exists v w' g', main name role turns empty_world g = Ok v w' g' /\ playable w').
Proof.
  destruct (initialize_game_playable name role g) as (w0 & g0 & E & Hplay).
  assert (Hrun : valid_script turns w0 g0 ->
                 exists v w' g', main name role turns empty_world g = Ok v w' g' /\ playable w').
  { intros Hvalid.
    destruct (runs_play turns w0 g0 Hplay Hvalid) as (v & w' & g' & E' & _ & _ & H).
    exists v, w', g'. split; [|exact H]. unfold main. erewrite bind_Ok by exact E. exact E'. }
  split.
  - intros Hvalid. rewrite E in Hvalid. simpl in Hvalid. exact (Hrun Hvalid).
  - intros Hrole. apply Hrun.
    destruct (initialize_game_run name role empty_world g) as (labels & pops & _ & _ & _ & _ & E0).
    rewrite E0 in E. injection E as <- _.
    eapply valid_script_trainee; [reflexivity|exact Hrole].
Qed.

(** The validity of a script over a computed game, one turn after the
    other. *)
Ltac valid_script_computed :=
  repeat match goal with
         | |- _ /\ _ => split
         | |- forall _, _ => intro
         | H : Some _ = Some _ |- _ => injection H as <-
         | H : _ \/ _ |- _ => destruct H
         | H : _ = _ |- _ => discriminate H
         | H : _ -> False |- _ => exfalso; apply H; reflexivity
         | |- True => exact I
         end.

Lemma game_never_raises_witness :
  (exists v w' g', main "Boss" "CEO" ceo_script empty_world rng_game = Ok v w' g' /\ playable w') /\
  (exists v w' g',
     main "Boss" "CEO" [(5, no_inputs); (4, no_inputs); (2, mkInputs "" 3 "" [] "" "" 0)]
          empty_world rng_game = Ok v w' g' /\ playable w') /\
  (exists v w' g',
     main "Neo" "Trainee" three_evaluations empty_world rng_zero = Ok v w' g' /\ playable w') /\
  (exists v w' g',
     main "Neo" "Trainee" [(5, no_inputs); (4, no_inputs); (2, no_inputs)]
          empty_world rng_game = Ok v w' g' /\ playable w').
Proof.
  split; [|split; [|split]].
  - apply (proj1 (game_never_raises "Boss" "CEO" ceo_script rng_game)).
    vm_compute. valid_script_computed.
  - apply (proj1 (game_never_raises "Boss" "CEO" _ rng_game)).
    vm_compute. valid_script_computed.
  - apply (proj2 (game_never_raises "Neo" "Trainee" three_evaluations rng_zero)). discriminate.
  - apply (proj2 (game_never_raises "Neo" "Trainee" _ rng_game)). discriminate.
Defined.

(** * The two modes keep apart *)

Section Modes.
Context (I : World -> Rng -> Prop) (p : Player.t).
Hypothesis I_player : forall w g, I w g -> GameState.player (state w) = Some p.

Lemma preserves_as_player {A} (k : Player.t -> M A) :
  preserves I (k p) -> preserves I (bind get_player k).
Proof.
  intros Hk w g HI. unfold bind, get_player, bind, get_state.
  rewrite (I_player w g HI). exact (Hk w g HI).
Qed.

Lemma preserves_in_state {A} (k : GameState.t -> M A) :
  (forall s, GameState.player s = Some p -> preserves I (k s)) ->
  preserves I (bind get_state k).
Proof.
  intros Hk w g HI. unfold bind, get_state. exact (Hk (state w) (I_player w g HI) w g HI).
Qed.
End Modes.

Lemma backstage_trainees p c gs : indep_trainees (I_backstage p c gs).
Proof. intros w g v H. exact H. Qed.
Lemma backstage_cursor p c gs : indep_cursor (I_backstage p c gs).
Proof. intros w g H. exact H. Qed.
#[export] Hint Resolve backstage_trainees backstage_cursor : pres.

Lemma backstage_modify_state p c gs f :
  (forall s, GameState.player (f s) = GameState.player s /\
             GameState.company (f s) = GameState.company s) ->
  preserves (I_backstage p c gs) (modify_state f).
Proof.
  intros Hf. apply preserves_modify_state_gen. intros w g (H1 & H2 & H3).
  destruct (Hf (state w)) as [Hp Hc]. unfold I_backstage. simpl. rewrite Hp, Hc. auto.
Qed.
#[export] Hint Extern 1 (preserves (I_backstage _ _ _) (modify_state _)) =>
  apply backstage_modify_state; intros; split; reflexivity : pres.
#[export] Hint Extern 1 (preserves (I_backstage _ _ _) (append_log _)) =>
  apply backstage_modify_state; intros; split; reflexivity : pres.

Lemma backstage_train p c gs self stat intensity :
  preserves (I_backstage p c gs) (train self stat intensity).
Proof. unfold train. pres. Qed.
Lemma backstage_rest p c gs self : preserves (I_backstage p c gs) (rest self).
Proof. unfold rest. pres. Qed.
Lemma backstage_adjust_popularity p c gs self amount :
  preserves (I_backstage p c gs) (adjust_popularity self amount).
Proof. unfold adjust_popularity. pres. Qed.
Lemma backstage_adjust_relationship p c gs self amount :
  preserves (I_backstage p c gs) (adjust_relationship self amount).
Proof. unfold adjust_relationship. pres. Qed.
#[export] Hint Resolve backstage_train backstage_rest backstage_adjust_popularity
  backstage_adjust_relationship : pres.

Lemma backstage_handle_trainee_action p c gs choice focus :
  preserves (I_backstage p c gs) (handle_trainee_action choice focus).
Proof. unfold handle_trainee_action. pres. Qed.

Lemma backstage_check_victory_or_defeat p c gs :
  preserves (I_backstage p c gs) check_victory_or_defeat.
Proof. unfold check_victory_or_defeat. pres. Qed.

Lemma not_ceo (p : Player.t) :
  Player.role p = "Trainee" -> String.eqb (Player.role p) "CEO" = false.
Proof. intros ->. reflexivity. Qed.

Lemma backstage_random_event p c gs :
  Player.role p = "Trainee" -> preserves (I_backstage p c gs) random_event.
Proof.
  intros Hrole. unfold random_event.
  apply preserves_bind; [auto with pres|]. intros roll.
  apply preserves_bind.
  - destruct (float_lt roll lit_0_08); [|apply preserves_ret].
    apply (preserves_as_player _ p); [intros w g H; apply H|].
    apply preserves_bind; [apply preserves_get_state|]. intros s.
    rewrite (not_ceo p Hrole). cbn [andb]. pres.
  - intros [event|]; [apply preserves_ret|].
    destruct (float_lt lit_0_92 roll); [|apply preserves_ret].
    apply (preserves_as_player _ p); [intros w g H; apply H|].
    apply preserves_bind; [apply preserves_get_state|]. intros s.
    rewrite (not_ceo p Hrole). pres.
Qed.

Lemma backstage_monthly_evaluation p c gs :
  Player.role p = "Trainee" -> is_Some (Player.character p) ->
  preserves (I_backstage p c gs) monthly_evaluation.
Proof.
  intros Hrole [r Hr]. unfold monthly_evaluation.
  apply (preserves_in_state _ p); [intros w g H; apply H|]. intros s Hs.
  assert (Hch : trainee_character s = Some r).
  { unfold trainee_character. rewrite Hs, Hrole. exact Hr. }
  rewrite Hch. pres.
Qed.

Lemma backstage_advance_day p c gs :
  Player.role p = "Trainee" -> is_Some (Player.character p) ->
  preserves (I_backstage p c gs) advance_day.
Proof.
  intros Hrole Hch. pose proof (backstage_monthly_evaluation p c gs Hrole Hch).
  unfold advance_day. pres.
Qed.

Lemma backstage_turn p c gs choice inp :
  Player.role p = "Trainee" -> is_Some (Player.character p) ->
  preserves (I_backstage p c gs) (turn choice inp).
Proof.
  intros Hrole Hch.
  pose proof (backstage_advance_day p c gs Hrole Hch).
  pose proof (backstage_random_event p c gs Hrole).
  pose proof (backstage_handle_trainee_action p c gs choice (in_focus inp)).
  pose proof (backstage_check_victory_or_defeat p c gs).
  unfold turn. apply (preserves_as_player _ p); [intros w g H'; apply H'|].
  rewrite (not_ceo p Hrole). pres.
Qed.

Lemma failures_trainees p n : indep_trainees (I_failures p n).
Proof. intros w g v H. exact H. Qed.
Lemma failures_groups p n : indep_groups (I_failures p n).
Proof. intros w g v H. exact H. Qed.
Lemma failures_cursor p n : indep_cursor (I_failures p n).
Proof. intros w g H. exact H. Qed.
#[export] Hint Resolve failures_trainees failures_groups failures_cursor : pres.

Lemma failures_upd_company p n f : preserves (I_failures p n) (upd_company f).
Proof. apply preserves_upd_company_gen. intros w g c H _. exact H. Qed.
#[export] Hint Resolve failures_upd_company : pres.

Lemma failures_modify_state p n f :
  (forall s, GameState.player (f s) = GameState.player s /\
             GameState.trainee_failures (f s) = GameState.trainee_failures s) ->
  preserves (I_failures p n) (modify_state f).
Proof.
  intros Hf. apply preserves_modify_state_gen. intros w g (H1 & H2).
  destruct (Hf (state w)) as [Hp Hn]. unfold I_failures. simpl. rewrite Hp, Hn. auto.
Qed.
#[export] Hint Extern 1 (preserves (I_failures _ _) (modify_state _)) =>
  apply failures_modify_state; intros; split; reflexivity : pres.
#[export] Hint Extern 1 (preserves (I_failures _ _) (append_log _)) =>
  apply failures_modify_state; intros; split; reflexivity : pres.

Lemma failures_train p n self stat intensity :
  preserves (I_failures p n) (train self stat intensity).
Proof. unfold train. pres. Qed.
Lemma failures_adjust_popularity p n self amount :
  preserves (I_failures p n) (adjust_popularity self amount).
Proof. unfold adjust_popularity. pres. Qed.
#[export] Hint Resolve failures_train failures_adjust_popularity : pres.
Lemma failures_calculate_power p n self : preserves (I_failures p n) (calculate_power self).
Proof. unfold calculate_power. pres. Qed.
#[export] Hint Resolve failures_calculate_power : pres.
Lemma failures_debut_effect p n self budget :
  preserves (I_failures p n) (debut_effect self budget).
Proof. unfold debut_effect. pres. Qed.
Lemma failures_outcome p n self power : preserves (I_failures p n) (outcome self power).
Proof. unfold outcome. pres. Qed.
#[export] Hint Resolve failures_debut_effect failures_outcome : pres.
Lemma failures_recruit_trainee p n name : preserves (I_failures p n) (recruit_trainee name).
Proof. unfold recruit_trainee. pres. Qed.
Lemma failures_schedule_training p n trainee focus :
  preserves (I_failures p n) (schedule_training trainee focus).
Proof. unfold schedule_training. pres. Qed.
Lemma failures_plan_debut p n names concept budget :
  preserves (I_failures p n) (plan_debut names concept budget).
Proof. unfold plan_debut. pres. Qed.
Lemma failures_release_song p n group title budget :
  preserves (I_failures p n) (release_song group title budget).
Proof. unfold release_song. pres. Qed.
Lemma failures_promote p n group budget : preserves (I_failures p n) (promote group budget).
Proof. unfold promote. pres. Qed.
Lemma failures_update_finances p n amount :
  preserves (I_failures p n) (update_finances amount).
Proof. unfold update_finances. pres. Qed.
#[export] Hint Resolve failures_recruit_trainee failures_schedule_training failures_plan_debut
  failures_release_song failures_promote failures_update_finances : pres.

Lemma failures_handle_ceo_action p n choice inp :
  preserves (I_failures p n) (handle_ceo_action choice inp).
Proof. unfold handle_ceo_action. pres. Qed.
Lemma failures_random_event p n : preserves (I_failures p n) random_event.
Proof. unfold random_event. pres. Qed.
Lemma failures_check_victory_or_defeat p n :
  preserves (I_failures p n) check_victory_or_defeat.
Proof. unfold check_victory_or_defeat. pres. Qed.

Lemma failures_monthly_evaluation p n :
  Player.role p = "CEO" -> preserves (I_failures p n) monthly_evaluation.
Proof.
  intros Hrole. unfold monthly_evaluation.
  apply (preserves_in_state _ p); [intros w g H; apply H|]. intros s Hs.
  assert (Hch : trainee_character s = None).
  { unfold trainee_character. rewrite Hs, Hrole. reflexivity. }
  rewrite Hch. pres.
Qed.

Lemma failures_advance_day p n :
  Player.role p = "CEO" -> preserves (I_failures p n) advance_day.
Proof.
  intros Hrole. pose proof (failures_monthly_evaluation p n Hrole).
  unfold advance_day. pres.
Qed.

Lemma failures_turn p n choice inp :
  Player.role p = "CEO" -> preserves (I_failures p n) (turn choice inp).
Proof.
  intros Hrole.
  pose proof (failures_advance_day p n Hrole).
  pose proof (failures_random_event p n).
  pose proof (failures_handle_ceo_action p n choice inp).
  pose proof (failures_check_victory_or_defeat p n).
  unfold turn. apply (preserves_as_player _ p); [intros w g H'; apply H'|].
  rewrite Hrole. change (("CEO" =? "CEO")%string) with true. pres.
Qed.

(** X26.  The two modes keep apart, whatever a turn does and however it
    ends.  With a trainee as the player (role "Trainee" and a character),
    a turn changes neither the company, its money included, nor any
    group: no income is paid and no event touches the company.  With a
    CEO as the player, a turn never changes the failure count. *)
Theorem modes_keep_apart choice inp w g p :
  GameState.player (state w) = Some p ->
  (Player.role p = "Trainee" -> is_Some (Player.character p) ->
   GameState.company (state (res_world (turn choice inp w g))) = GameState.company (state w) /\
   group_objs (res_world (turn choice inp w g)) = group_objs w) /\
  (Player.role p = "CEO" ->
   GameState.trainee_failures (state (res_world (turn choice inp w g)))
     = GameState.trainee_failures (state w)).
Proof.
  intros Hp. split.
  - intros Hrole Hch.
    destruct (backstage_turn p (GameState.company (state w)) (group_objs w) choice inp
                Hrole Hch w g) as (_ & H1 & H2); [repeat split; exact Hp|]. auto.
  - intros Hrole.
    destruct (failures_turn p (GameState.trainee_failures (state w)) choice inp Hrole w g)
      as (_ & H); [split; [exact Hp|reflexivity]|]. exact H.
Qed.

Lemma modes_keep_apart_witness :
  GameState.company (state (res_world (turn 1 no_inputs world_trainee rng_zero)))
    = GameState.company (state world_trainee) /\
  GameState.trainee_failures (state (res_world (turn 1 no_inputs world_trio rng_zero))) = 0.
Proof.
  split.
  - destruct (modes_keep_apart 1 no_inputs world_trainee rng_zero _ eq_refl) as [H _].
    exact (proj1 (H eq_refl (mk_is_Some _ _ eq_refl))).
  - destruct (modes_keep_apart 1 no_inputs world_trio rng_zero _ eq_refl) as [_ H].
    exact (H eq_refl).
Defined.

(** * The verdicts in their order *)

Lemma existsb_top_act w c :
  existsb (fun grp => 300 <=? Group.popularity grp) (groups_at w (Company.groups c)) = true
  <-> top_act w c.
Proof.
  unfold top_act. induction (groups_at w (Company.groups c)) as [|x xs IH]; simpl.
  - split; [discriminate|]. intros H. inversion H.
  - rewrite orb_true_iff, IH. split.
    + intros [H|H]; [left; lia|right; exact H].
    + intros H. inversion H; subst; [left; lia|right; assumption].
Qed.

Lemma check_victory_or_defeat_ceo w g c :
  ceo_company (state w) = Some c -> grefs_live w (Company.groups c) ->
  -2000 <= Company.money c ->
  check_victory_or_defeat w g =
    Ok (if existsb (fun grp => 300 <=? Group.popularity grp) (groups_at w (Company.groups c))
        then Some "Success! One of your groups became a top act."
        else if 5 <? GameState.year (state w)
             then Some (if Company.reputation c <? 80
                        then "Time's up. The industry moved on before you produced a hit."
                        else "Legendary CEO!")
             else None) w g.
Proof.
  intros Ec Hlive Hmoney. unfold check_victory_or_defeat.
  unfold bind at 1, get_state at 1. unfold bind at 1. rewrite Ec.
  destruct (Z.ltb_spec (Company.money c) (-2000)) as [|_]; [lia|].
  erewrite bind_Ok by (apply anyM_get_group_run; exact Hlive).
  destruct (existsb _ _); [reflexivity|].
  destruct (5 <? GameState.year (state w)); [reflexivity|].
  unfold ret at 1. rewrite (ceo_not_trainee _ _ Ec). reflexivity.
Qed.

Lemma check_victory_or_defeat_trainee w g r t :
  trainee_character (state w) = Some r -> trainee_objs w !! r = Some t ->
  check_victory_or_defeat w g =
    Ok (if (200 <=? Trainee.popularity t) && (350 <=? score t)
        then Some "You debuted and became a sensation!"
        else if 3 <=? GameState.trainee_failures (state w)
             then Some "You were cut after repeated failed evaluations."
             else if 5 <? GameState.year (state w)
                  then Some (if Trainee.popularity t <? 150
                             then "The window closed before you could debut."
                             else "Late bloomer debut success!")
                  else None) w g.
Proof.
  intros Er Ht. unfold check_victory_or_defeat.
  unfold bind at 1, get_state at 1. unfold bind at 1.
  assert (Ec : ceo_company (state w) = None).
  { destruct (ceo_company (state w)) as [c|] eqn:Ec; [|reflexivity].
    rewrite (ceo_not_trainee _ _ Ec) in Er. discriminate. }
  rewrite Ec. unfold ret at 1. rewrite Er.
  erewrite bind_Ok by (apply get_trainee_run; exact Ht).
  destruct ((200 <=? Trainee.popularity t) && (350 <=? score t)); [reflexivity|].
  destruct (3 <=? GameState.trainee_failures (state w)); [reflexivity|].
  destruct (5 <? GameState.year (state w)); reflexivity.
Qed.

(** X27.  The verdicts below the first of each list, in their order.
    For a CEO with a company that is not bankrupt: a group with a
    popularity of 300 or more is a success whatever the year and the
    reputation; without one, past year 5, a reputation below 80 is
    "Time's up." and a reputation of 80 or more is "Legendary CEO!".
    For a trainee who is not a sensation: three failures or more are the
    cut whatever the year; with fewer, past year 5, a popularity below 150
    closes the window and a popularity of 150 or more is the late bloomer's
    debut.  The trainee's conditions are never looked at for a CEO. *)
Theorem check_victory_or_defeat_order w g :
  (forall c,
     ceo_company (state w) = Some c -> grefs_live w (Company.groups c) ->
     -2000 <= Company.money c ->
     (top_act w c ->
      check_victory_or_defeat w g = Ok (Some "Success! One of your groups became a top act.") w g) /\
     (~ top_act w c -> 5 < GameState.year (state w) -> Company.reputation c < 80 ->
      check_victory_or_defeat w g =
        Ok (Some "Time's up. The industry moved on before you produced a hit.") w g) /\
     (~ top_act w c -> 5 < GameState.year (state w) -> 80 <= Company.reputation c ->
      check_victory_or_defeat w g = Ok (Some "Legendary CEO!") w g) /\
     (~ top_act w c -> GameState.year (state w) <= 5 ->
      check_victory_or_defeat w g = Ok None w g)) /\
  (forall r t,
     trainee_character (state w) = Some r -> trainee_objs w !! r = Some t ->
     ~ sensation t ->
     (3 <= GameState.trainee_failures (state w) ->
      check_victory_or_defeat w g =
        Ok (Some "You were cut after repeated failed evaluations.") w g) /\
     (GameState.trainee_failures (state w) < 3 -> 5 < GameState.year (state w) ->
      Trainee.popularity t < 150 ->
      check_victory_or_defeat w g = Ok (Some "The window closed before you could debut.") w g) /\
     (GameState.trainee_failures (state w) < 3 -> 5 < GameState.year (state w) ->
      150 <= Trainee.popularity t ->
      check_victory_or_defeat w g = Ok (Some "Late bloomer debut success!") w g)).
Proof.
  split.
  - intros c Ec Hlive Hmoney. rewrite (check_victory_or_defeat_ceo w g c Ec Hlive Hmoney).
    pose proof (existsb_top_act w c) as Htop.
    destruct (existsb _ _).
    + assert (top_act w c) by (apply Htop; reflexivity).
      split; [reflexivity|]. repeat split; intros; contradiction.
    + assert (~ top_act w c) by (intros H; apply Htop in H; discriminate).
      split; [intros; contradiction|].
      destruct (Z.ltb_spec 5 (GameState.year (state w)));
        destruct (Z.ltb_spec (Company.reputation c) 80);
        repeat split; intros; try reflexivity; lia.
  - intros r t Er Ht Hnot. rewrite (check_victory_or_defeat_trainee w g r t Er Ht).
    assert (E : (200 <=? Trainee.popularity t) && (350 <=? score t) = false).
    { destruct ((200 <=? Trainee.popularity t) && (350 <=? score t)) eqn:E; [|reflexivity].
      exfalso. apply Hnot. apply andb_true_iff in E. unfold sensation. lia. }
    rewrite E.
    destruct (Z.leb_spec 3 (GameState.trainee_failures (state w)));
      destruct (Z.ltb_spec 5 (GameState.year (state w)));
      destruct (Z.ltb_spec (Trainee.popularity t) 150);
      repeat split; intros; try reflexivity; lia.
Qed.

Lemma check_victory_or_defeat_order_witness :
  check_victory_or_defeat world_veteran rng_zero = Ok (Some "Legendary CEO!") world_veteran rng_zero /\
  check_victory_or_defeat world_late rng_zero =
    Ok (Some "You were cut after repeated failed evaluations.") world_late rng_zero.
Proof.
  destruct (check_victory_or_defeat_order world_veteran rng_zero) as [Hceo _].
  destruct (check_victory_or_defeat_order world_late rng_zero) as [_ Htr].
  split.
  - destruct (Hceo _ eq_refl ltac:(repeat constructor; eexists; reflexivity) ltac:(simpl; lia))
      as (_ & _ & H & _).
    apply H; [|simpl; lia|simpl; lia].
    unfold top_act. simpl. intros Hex. inversion Hex as [? ? Hbad|? ? Hbad]; subst.
    + simpl in Hbad. lia.
    + inversion Hbad.
  - destruct (Htr 0%nat _ eq_refl eq_refl) as (H & _ & _).
    + unfold sensation, score. simpl. lia.
    + apply H. simpl. lia.
Defined.
